(** * Energy dashboard: the data service and the dataset index

    A shallow embedding of [services/dataService.ts], [constants.ts] and the
    derived views and upload handler of [App.tsx], followed by the theorems
    about them.

    Numbers.  A JavaScript number is an IEEE-754 binary64 value: the plant
    quantities and the KPIs are primitive floats ([float]), with the
    operations [+], [*], [/], [<?] of the hardware.  Time values, days,
    years and the results of [parseInt] are integers; they are kept in [Z]
    next to one value for "not a finite number" ([intnum]), every operation
    on them being exact in binary64 as long as its result is a time value
    (at most 8.64e15 in magnitude, below 2^53), and [TimeClip] turning
    everything larger into [NaN].

    Strings are byte strings holding the UTF-8 form of the program's text. *)

From Stdlib Require Import ZArith Lia List String Ascii Bool Floats Sorted Permutation.
From stdpp Require Import gmap strings.

Set Warnings "-inexact-float".

#[local] Open Scope string_scope.
#[local] Open Scope Z_scope.

(** ** The JavaScript values and built-ins the program uses *)

Module JS.

(** An integer-valued number, or a number that is not finite ([NaN] or an
    infinity). *)
Inductive intnum : Type :=
| NonFinite
| Int (z : Z).

(** The values a worksheet cell or a record field can hold.  A [Date] object
    carries its identity (objects are compared by reference) and its time
    value, [NonFinite] for an invalid date. *)
Inductive JSValue : Type :=
| JUndefined
| JNull
| JBool (b : bool)
| JNum (x : float)
| JStr (s : string)
| JDate (ref : positive) (tv : intnum).

(** [ToBoolean]. *)
Definition truthy (v : JSValue) : bool :=
  match v with
  | JUndefined | JNull => false
  | JBool b => b
  | JNum x => negb (is_zero x || is_nan x)
  | JStr s => negb (String.eqb s "")
  | JDate _ _ => true
  end.

(** [a || b]. *)
Definition or_else (a b : JSValue) : JSValue := if truthy a then a else b.

(** [a === b]. *)
Definition strict_eq (a b : JSValue) : bool :=
  match a, b with
  | JUndefined, JUndefined | JNull, JNull => true
  | JBool x, JBool y => Bool.eqb x y
  | JNum x, JNum y => (x =? y)%float
  | JStr x, JStr y => String.eqb x y
  | JDate r _, JDate r' _ => Pos.eqb r r'
  | _, _ => false
  end.

(** [SameValueZero], the equality of [Set] membership. *)
Definition same_value_zero (a b : JSValue) : bool :=
  match a, b with
  | JNum x, JNum y => (x =? y)%float || (is_nan x && is_nan y)
  | _, _ => strict_eq a b
  end.

(** [Array.from(new Set(l))]: the first occurrence of every value, in order. *)
Fixpoint set_add (seen : list JSValue) (l : list JSValue) : list JSValue :=
  match l with
  | [] => []
  | v :: l' =>
      if existsb (same_value_zero v) seen then set_add seen l'
      else v :: set_add (v :: seen) l'
  end.

Definition unique (l : list JSValue) : list JSValue := set_add [] l.

(** *** Text *)

Definition code (c : ascii) : N := N_of_ascii c.

Definition is_digit (c : ascii) : bool := (48 <=? code c)%N && (code c <=? 57)%N.

Definition digit_value (c : ascii) : Z := Z.of_N (code c) - 48.

(** White space and line terminators of one byte: TAB, LF, VT, FF, CR, SP. *)
Definition is_space (c : ascii) : bool :=
  let n := code c in ((9 <=? n)%N && (n <=? 13)%N) || (n =? 32)%N.

(** The white space of two and three bytes: U+00A0; U+1680, U+2000 to
    U+200A, U+2028, U+2029, U+202F, U+205F, U+3000 and U+FEFF. *)
Definition is_space2 (a b : ascii) : bool :=
  (code a =? 194)%N && (code b =? 160)%N.

Definition is_space3 (a b c : ascii) : bool :=
  let '(x, y, z) := (code a, code b, code c) in
  ((x =? 225) && (y =? 154) && (z =? 128))%N
  || ((x =? 226) && (y =? 128)
      && (((128 <=? z) && (z <=? 138)) || (z =? 168) || (z =? 169) || (z =? 175)))%N
  || ((x =? 226) && (y =? 129) && (z =? 159))%N
  || ((x =? 227) && (y =? 128) && (z =? 128))%N
  || ((x =? 239) && (y =? 187) && (z =? 191))%N.

(** [TrimString(s, start)]. *)
Fixpoint trim_start (s : string) : string :=
  match s with
  | String a r1 =>
      if is_space a then trim_start r1
      else
        match r1 with
        | String b r2 =>
            if is_space2 a b then trim_start r2
            else
              match r2 with
              | String c r3 => if is_space3 a b c then trim_start r3 else s
              | EmptyString => s
              end
        | EmptyString => s
        end
  | EmptyString => s
  end.

(** The longest run of decimal digits at the start of [s]: its value read in
    base ten after the digits [acc], how many there are, and the rest. *)
Fixpoint digits (acc : Z) (s : string) : Z * nat * string :=
  match s with
  | String c r =>
      if is_digit c then
        let '(v, n, rest) := digits (10 * acc + digit_value c) r in (v, S n, rest)
      else (acc, O, s)
  | EmptyString => (acc, O, s)
  end.

(** An optional sign: whether it is a minus, and the rest. *)
Definition sign (s : string) : bool * string :=
  match s with
  | String "-" r => (true, r)
  | String "+" r => (false, r)
  | _ => (false, s)
  end.

(** [parseInt(s, 10)]: skip white space, read an optional sign and the
    longest run of digits; [NaN] when there is none. *)
Definition parseInt (s : string) : intnum :=
  let '(neg, r) := sign (trim_start s) in
  let '(v, n, _) := digits 0 r in
  match n with
  | O => NonFinite
  | S _ => Int (if neg then - v else v)
  end.

(** The binary64 value nearest to [m * 10^e] (ties to even), with the sign
    [neg]. *)
Definition decimal (neg : bool) (m : Z) (e : Z) : float :=
  match m with
  | Zpos p =>
      if 0 <=? e then
        SF2Prim (binary_normalize prec emax ((if neg then Zneg p else Zpos p) * 10 ^ e) 0 neg)
      else
        SF2Prim (SFdiv prec emax (S754_finite neg p 0)
                   (S754_finite false (Z.to_pos (10 ^ (- e))) 0))
  | _ => if neg then neg_zero else zero
  end.

(** The exponent part of a decimal literal, [e] or [E], an optional sign and
    at least one digit; without a digit there is no exponent part. *)
Definition exponent (s : string) : Z :=
  match s with
  | String c r =>
      if (Ascii.eqb c "e" || Ascii.eqb c "E")%bool then
        let '(neg, r') := sign r in
        let '(v, n, _) := digits 0 r' in
        match n with
        | O => 0
        | S _ => if neg then - v else v
        end
      else 0
  | EmptyString => 0
  end.

(** [parseFloat] of a string: the number value of the longest prefix of the
    trimmed text that is a [StrDecimalLiteral], [NaN] when there is none. *)
Definition parseFloat_string (s : string) : float :=
  let '(neg, r) := sign (trim_start s) in
  if String.prefix "Infinity" r then (if neg then neg_infinity else infinity)
  else
    let '(ip, n, r1) := digits 0 r in
    match r1 with
    | String "." r2 =>
        let '(m, k, r3) := digits ip r2 in
        match n, k with
        | O, O => nan
        | _, _ => decimal neg m (exponent r3 - Z.of_nat k)
        end
    | _ =>
        match n with
        | O => nan
        | S _ => decimal neg ip (exponent r1)
        end
    end.

(** [parseFloat(v)] parses [ToString(v)].  A number prints as the shortest
    text that reads back as itself, the sign of a zero apart; [undefined],
    [null] and the booleans print as their names; a [Date] prints as a text
    that starts with the name of a week day, or as [Invalid Date]. *)
Definition parseFloat (v : JSValue) : float :=
  match v with
  | JUndefined => parseFloat_string "undefined"
  | JNull => parseFloat_string "null"
  | JBool b => parseFloat_string (if b then "true" else "false")
  | JNum x => if is_zero x then zero else x
  | JStr s => parseFloat_string s
  | JDate _ _ => nan
  end.

(** *** Printing integers and cutting strings *)

Definition digit_char (d : Z) : ascii := ascii_of_N (Z.to_N (48 + d)).

Fixpoint decimal_digits (fuel : nat) (n : Z) (acc : string) : string :=
  match fuel with
  | O => acc
  | S fuel' =>
      let acc' := String (digit_char (n mod 10)) acc in
      if n <? 10 then acc' else decimal_digits fuel' (n / 10) acc'
  end.

(** [n.toString()] for a number that is an integer below 1e21 in magnitude,
    or [NaN]. *)
Definition Number_toString (n : intnum) : string :=
  match n with
  | NonFinite => "NaN"
  | Int z =>
      let print a := decimal_digits (S (Z.to_nat (Z.log2 a))) a "" in
      if z <? 0 then String "-" (print (- z)) else print z
  end.

Fixpoint repeat_char (c : ascii) (n : nat) : string :=
  match n with
  | O => ""
  | S n' => String c (repeat_char c n')
  end.

(** [s.padStart(n, c)] with a filler of one character. *)
Definition padStart (n : nat) (c : ascii) (s : string) : string :=
  repeat_char c (n - String.length s) ++ s.

(** [s.slice(-n)]: the last [n] characters, all of [s] when it is shorter. *)
Definition slice_last (n : nat) (s : string) : string :=
  String.substring (String.length s - n) n s.

(** [s.split(sep)] for a separator of one character: the segments between
    the separators, one more than there are separators. *)
Fixpoint split (sep : ascii) (s : string) : list string :=
  match s with
  | EmptyString => [""]
  | String c r =>
      if Ascii.eqb c sep then "" :: split sep r
      else
        match split sep r with
        | segment :: segments => String c segment :: segments
        | [] => [String c ""]
        end
  end.

(** *** Time values (ECMA-262, "Date objects") *)

Definition msPerDay : Z := 86400000.

Definition Day (t : Z) : Z := t / msPerDay.

Definition is_leap (y : Z) : bool :=
  (y mod 4 =? 0) && (negb (y mod 100 =? 0) || (y mod 400 =? 0)).

Definition DaysInYear (y : Z) : Z := if is_leap y then 366 else 365.

Definition DayFromYear (y : Z) : Z :=
  365 * (y - 1970) + (y - 1969) / 4 - (y - 1901) / 100 + (y - 1601) / 400.

(** The largest year that starts on or before the day of [t]: a first guess
    from the mean length of a year, corrected by at most one year. *)
Definition YearFromTime (t : Z) : Z :=
  let d := Day t in
  let y := 1970 + (400 * d) / 146097 in
  if DayFromYear (y + 1) <=? d then y + 1
  else if DayFromYear y <=? d then y
  else y - 1.

Definition leap_day (y : Z) : Z := if is_leap y then 1 else 0.

Definition DayWithinYear (t : Z) : Z := Day t - DayFromYear (YearFromTime t).

(** The day of the year on which month [m] (0 to 11) starts. *)
Definition month_start (m : Z) (leap : Z) : Z :=
  match m with
  | 0 => 0 | 1 => 31 | 2 => 59 + leap | 3 => 90 + leap | 4 => 120 + leap
  | 5 => 151 + leap | 6 => 181 + leap | 7 => 212 + leap | 8 => 243 + leap
  | 9 => 273 + leap | 10 => 304 + leap | _ => 334 + leap
  end.

Definition MonthFromTime (t : Z) : Z :=
  let d := DayWithinYear t in
  let l := leap_day (YearFromTime t) in
  if d <? 31 then 0
  else if d <? 59 + l then 1
  else if d <? 90 + l then 2
  else if d <? 120 + l then 3
  else if d <? 151 + l then 4
  else if d <? 181 + l then 5
  else if d <? 212 + l then 6
  else if d <? 243 + l then 7
  else if d <? 273 + l then 8
  else if d <? 304 + l then 9
  else if d <? 334 + l then 10
  else 11.

Definition DateFromTime (t : Z) : Z :=
  DayWithinYear t - month_start (MonthFromTime t) (leap_day (YearFromTime t)) + 1.

(** [TimeClip]: a time value is at most 8.64e15 in magnitude. *)
Definition TimeClip (t : intnum) : intnum :=
  match t with
  | Int z => if Z.abs z <=? 8640000000000000 then Int z else NonFinite
  | NonFinite => NonFinite
  end.

(** [MakeDay(year, month, date)]: the day number of the first of the month,
    where that is a time value, plus [date - 1]. *)
Definition MakeDay (year month date : intnum) : intnum :=
  match year, month, date with
  | Int y, Int m, Int dt =>
      let ym := y + m / 12 in
      let first := DayFromYear ym + month_start (m mod 12) (leap_day ym) in
      match TimeClip (Int (first * msPerDay)) with
      | Int _ => Int (first + dt - 1)
      | NonFinite => NonFinite
      end
  | _, _, _ => NonFinite
  end.

(** [MakeDate(day, time)]. *)
Definition MakeDate (day : intnum) (time : Z) : intnum :=
  match day with
  | Int d => Int (d * msPerDay + time)
  | NonFinite => NonFinite
  end.

(** [MakeFullYear]: a year from 0 to 99 is taken in the 1900s. *)
Definition MakeFullYear (year : intnum) : intnum :=
  match year with
  | Int y => if (0 <=? y) && (y <=? 99) then Int (1900 + y) else Int y
  | NonFinite => NonFinite
  end.

(** [Date.UTC(year, month, date)]. *)
Definition Date_UTC (year month date : intnum) : intnum :=
  TimeClip (MakeDate (MakeDay (MakeFullYear year) month date) 0).

(** [a + b] and [a - b] on integer-valued numbers. *)
Definition add (a b : intnum) : intnum :=
  match a, b with
  | Int x, Int y => Int (x + y)
  | _, _ => NonFinite
  end.

Definition sub (a b : intnum) : intnum :=
  match a, b with
  | Int x, Int y => Int (x - y)
  | _, _ => NonFinite
  end.

(** [Math.round(x)]: the integer nearest to [x], the larger one of two; an
    [x] that is not finite is returned as it is. *)
Definition Math_round (x : float) : intnum :=
  match Prim2SF x with
  | S754_zero _ => Int 0
  | S754_finite s m e =>
      let n := if s then Zneg m else Zpos m in
      if 0 <=? e then Int (n * 2 ^ e)
      else Int ((2 * n + 2 ^ (- e)) / 2 ^ (- e + 1))
  | S754_infinity _ | S754_nan => NonFinite
  end.

(** The short English names of the months, as the [en-US] locale prints them. *)
Definition month_short (m : Z) : string :=
  match m with
  | 0 => "Jan" | 1 => "Feb" | 2 => "Mar" | 3 => "Apr" | 4 => "May" | 5 => "Jun"
  | 6 => "Jul" | 7 => "Aug" | 8 => "Sep" | 9 => "Oct" | 10 => "Nov" | _ => "Dec"
  end.

(** The methods of a [Date] that read the local time.  [tza t] is the offset
    of the local time zone from UTC, in milliseconds, at the time value [t]. *)
Section LocalTime.

Variable tza : Z -> Z.

Definition LocalTime (t : Z) : Z := t + tza t.

(** [d.getDate()]. *)
Definition getDate (tv : intnum) : intnum :=
  match tv with
  | Int t => Int (DateFromTime (LocalTime t))
  | NonFinite => NonFinite
  end.

(** [d.getFullYear()]. *)
Definition getFullYear (tv : intnum) : intnum :=
  match tv with
  | Int t => Int (YearFromTime (LocalTime t))
  | NonFinite => NonFinite
  end.

(** [d.toLocaleString('en-US', { month: 'short' })]. *)
Definition toLocaleString_month_short (tv : intnum) : string :=
  match tv with
  | Int t => month_short (MonthFromTime (LocalTime t))
  | NonFinite => "Invalid Date"
  end.

End LocalTime.

End JS.

Import JS.

(** ** [constants.ts] *)

Module CONVERSIONS.
Definition SCM_TO_MMBTU : float := 0.0396.
Definition KWH_TO_MMBTU : float := 0.003412.
Definition KL_TO_MMBTU_HSD : float := 35.8.
Definition BARREL_TO_MMBTU_OIL : float := 5.8.
Definition MMBTU_TO_GJ : float := 1.05506.
End CONVERSIONS.

Module EMISSION_FACTORS.
Definition GAS_KGCO2_PER_SCM : float := 1.88.
Definition HSD_KGCO2_PER_KL : float := 2650.
Definition GRID_ELEC_KGCO2_PER_KWH : float := 0.82.
End EMISSION_FACTORS.

(** ** [types.ts] *)

(** A row as the worksheet reader yields it: an object keyed by the header
    texts, holding whatever the cells held.  The interface [RawPlantData] is a
    cast, nothing checks it. *)
Abbreviation RawPlantData := (gmap string JSValue).

(** [raw[key]]: a missing property reads as [undefined]. *)
Definition get (raw : RawPlantData) (key : string) : JSValue :=
  default JUndefined (raw !! key).

Record ProcessedPlantData : Type := {
  plantName : JSValue;
  date : JSValue;
  gasFlared : float;
  gasBoiler : float;
  gasFurnace : float;
  gasGDU : float;
  gasEngine : float;
  gasCompressor : float;
  gasTotalInternal : float;
  elecGCS : float;
  elecETP : float;
  elecRefinery : float;
  elecTotalConsumed : float;
  waterGCS : float;
  waterRefinery : float;
  waterTotal : float;
  elecGenerated : float;
  hsdPumps : float;
  hsdGensets : float;
  hsdTotalConsumed : float;
  hsdIssuedFire : float;
  hsdIssuedPSA : float;
  hsdIssuedOthers : float;
  hsdTotalIssued : float;
  energyFromGasMMBTU : float;
  energyFromHSDMMBTU : float;
  totalEnergyExpendedMMBTU : float;
  gasProduced : float;
  oilProduced : float;
  energyFromGasProdMMBTU : float;
  energyFromOilProdMMBTU : float;
  totalEnergyProducedMMBTU : float;
  elecImported : float;
  ghgScope1 : float;
  ghgScope2 : float;
  ghgTotal : float;
  expectedEnergyMMBTU : float;
  sec : float;
  eii : float;
  emissionIntensity : float
}.

(** ** [services/dataService.ts] *)

(** Parse a number, 0 when it is missing or does not parse. *)
Definition safeFloat (val : JSValue) : float :=
  match val with
  | JNum x => x
  | _ =>
      let parsed := parseFloat val in
      if is_nan parsed then 0%float else parsed
  end.

(** What reading a file comes to: the reader fails; it loads nothing; the
    worksheet library throws on what was loaded; or the first sheet is turned
    into rows. *)
Inductive File : Type :=
| ReaderError
| NoResult
| ParseError
| Sheet (jsonData : list RawPlantData).

Inductive Promise (A : Type) : Type :=
| Resolve (value : A)
| Reject.
Arguments Resolve {A} value.
Arguments Reject {A}.

Section TimeZone.

Variable tza : Z -> Z.

(** The post-processing of one row: a [Date] cell that is a [Date] object,
    or a serial number above 30000, becomes the text [DD-Mon-YY]. *)
Definition formatRow (row : RawPlantData) : RawPlantData :=
  let newRow := row in
  if truthy (get newRow "Date") then
    match get newRow "Date" with
    | JDate _ d =>
        let adjustedTime := add d (Int (12 * 60 * 60 * 1000)) in
        let adjustedDate := TimeClip adjustedTime in
        let day := padStart 2 "0" (Number_toString (getDate tza adjustedDate)) in
        let month := toLocaleString_month_short tza adjustedDate in
        let year := slice_last 2 (Number_toString (getFullYear tza adjustedDate)) in
        <["Date" := JStr (day ++ "-" ++ month ++ "-" ++ year)]> newRow
    | JNum serial =>
        if (30000 <? serial)%float then
          let d :=
            TimeClip (add (Math_round (((serial - 25569) * 86400) * 1000)%float)
                          (Int (12 * 60 * 60 * 1000))) in
          let day := padStart 2 "0" (Number_toString (getDate tza d)) in
          let month := toLocaleString_month_short tza d in
          let year := slice_last 2 (Number_toString (getFullYear tza d)) in
          <["Date" := JStr (day ++ "-" ++ month ++ "-" ++ year)]> newRow
        else newRow
    | _ => newRow
    end
  else newRow.

Definition readDataFile (file : File) : Promise (list RawPlantData) :=
  match file with
  | ReaderError => Reject
  | NoResult => Resolve []
  | ParseError => Resolve []
  | Sheet jsonData => Resolve (map formatRow jsonData)
  end.

End TimeZone.

Definition processPlantData (raw : RawPlantData) : ProcessedPlantData :=
  let gasFlared := safeFloat (get raw "Gas Flared (SCM)") in
  let gasBoiler := safeFloat (get raw "Gas Consumption - Boiler (SCM)") in
  let gasFurnace := safeFloat (get raw "Gas Consumption - Furnace (SCM)") in
  let gasGDU := safeFloat (get raw "Gas Consumption - GDU (SCM)") in
  let gasEngine := safeFloat (get raw "Gas Consumption - Engine (SCM)") in
  let gasCompressor := safeFloat (get raw "Gas Consumption - Package Gas Compressor (SCM)") in
  let gasTotalInternal := (gasBoiler + gasFurnace + gasGDU + gasEngine + gasCompressor)%float in
  let elecGCS := safeFloat (get raw "Electrical Consumption - GCS (kWh)") in
  let elecETP := safeFloat (get raw "Electrical Consumption - ETP (kWh)") in
  let elecRefinery := safeFloat (get raw "Electrical Consumption - Refinery (kWh)") in
  let elecTotalConsumed := (elecGCS + elecETP + elecRefinery)%float in
  let waterGCS := safeFloat (get raw "Water Consumption - GCS (m³)") in
  let waterRefinery := safeFloat (get raw "Water Consumption - Refinery (m³)") in
  let waterTotal := (waterGCS + waterRefinery)%float in
  let elecGenerated := safeFloat (get raw "Electrical Generated (kWh)") in
  let hsdPumps := safeFloat (get raw "HSD Consumption - Pumps (KL)") in
  let hsdGensets := safeFloat (get raw "HSD Consumption - Emergency Diesel Gensets (KL)") in
  let hsdTotalConsumed := (hsdPumps + hsdGensets)%float in
  let hsdIssuedFire := safeFloat (get raw "HSD Issued - Fire Section (KL)") in
  let hsdIssuedPSA := safeFloat (get raw "HSD Issued - PSA (KL)") in
  let hsdIssuedOthers := safeFloat (get raw "HSD Issued - Others (KL)") in
  let hsdTotalIssued := (hsdIssuedFire + hsdIssuedPSA + hsdIssuedOthers)%float in
  let energyFromGasMMBTU := (gasTotalInternal * CONVERSIONS.SCM_TO_MMBTU)%float in
  let energyFromHSDMMBTU := (hsdTotalConsumed * CONVERSIONS.KL_TO_MMBTU_HSD)%float in
  let totalEnergyExpendedMMBTU := (energyFromGasMMBTU + energyFromHSDMMBTU)%float in
  let gasProduced := safeFloat (get raw "Gas Production (SCM)") in
  let oilProduced := safeFloat (get raw "Oil Production (Barrels)") in
  let energyFromGasProdMMBTU := (gasProduced * CONVERSIONS.SCM_TO_MMBTU)%float in
  let energyFromOilProdMMBTU := (oilProduced * CONVERSIONS.BARREL_TO_MMBTU_OIL)%float in
  let totalEnergyProducedMMBTU := (energyFromGasProdMMBTU + energyFromOilProdMMBTU)%float in
  let elecImported := safeFloat (get raw "APSEB Electricity Imported (kWh)") in
  let scope1Tonnes :=
    ((gasTotalInternal * EMISSION_FACTORS.GAS_KGCO2_PER_SCM
      + hsdTotalConsumed * EMISSION_FACTORS.HSD_KGCO2_PER_KL) / 1000)%float in
  let scope2Tonnes := (elecImported * EMISSION_FACTORS.GRID_ELEC_KGCO2_PER_KWH / 1000)%float in
  let ghgTotal := (scope1Tonnes + scope2Tonnes)%float in
  let expectedEnergyMMBTU := safeFloat (get raw "Expected Energy Consumption (MMBTU)") in
  let sec :=
    if (0 <? totalEnergyProducedMMBTU)%float
    then (energyFromGasMMBTU / totalEnergyProducedMMBTU)%float else 0%float in
  let eii :=
    if (0 <? expectedEnergyMMBTU)%float
    then (totalEnergyExpendedMMBTU / expectedEnergyMMBTU * 100)%float else 0%float in
  let emissionIntensity :=
    if (0 <? gasProduced)%float then (ghgTotal / gasProduced)%float else 0%float in
  {| plantName := or_else (get raw "Plant Name") (JStr "Unknown Plant");
     date := or_else (get raw "Date") (JStr "Unknown Date");
     gasFlared := gasFlared;
     gasBoiler := gasBoiler; gasFurnace := gasFurnace; gasGDU := gasGDU;
     gasEngine := gasEngine; gasCompressor := gasCompressor;
     gasTotalInternal := gasTotalInternal;
     elecGCS := elecGCS; elecETP := elecETP; elecRefinery := elecRefinery;
     elecTotalConsumed := elecTotalConsumed;
     waterGCS := waterGCS; waterRefinery := waterRefinery; waterTotal := waterTotal;
     elecGenerated := elecGenerated;
     hsdPumps := hsdPumps; hsdGensets := hsdGensets; hsdTotalConsumed := hsdTotalConsumed;
     hsdIssuedFire := hsdIssuedFire; hsdIssuedPSA := hsdIssuedPSA;
     hsdIssuedOthers := hsdIssuedOthers; hsdTotalIssued := hsdTotalIssued;
     energyFromGasMMBTU := energyFromGasMMBTU; energyFromHSDMMBTU := energyFromHSDMMBTU;
     totalEnergyExpendedMMBTU := totalEnergyExpendedMMBTU;
     gasProduced := gasProduced; oilProduced := oilProduced;
     energyFromGasProdMMBTU := energyFromGasProdMMBTU;
     energyFromOilProdMMBTU := energyFromOilProdMMBTU;
     totalEnergyProducedMMBTU := totalEnergyProducedMMBTU;
     elecImported := elecImported;
     ghgScope1 := scope1Tonnes; ghgScope2 := scope2Tonnes; ghgTotal := ghgTotal;
     expectedEnergyMMBTU := expectedEnergyMMBTU;
     sec := sec; eii := eii; emissionIntensity := emissionIntensity |}.

Definition getBlankPlantData : ProcessedPlantData :=
  {| plantName := JStr "Select Plant"; date := JStr "Select Date";
     gasFlared := 0;
     gasBoiler := 0; gasFurnace := 0; gasGDU := 0; gasEngine := 0; gasCompressor := 0;
     gasTotalInternal := 0;
     elecGCS := 0; elecETP := 0; elecRefinery := 0; elecTotalConsumed := 0;
     waterGCS := 0; waterRefinery := 0; waterTotal := 0;
     elecGenerated := 0;
     hsdPumps := 0; hsdGensets := 0; hsdTotalConsumed := 0;
     hsdIssuedFire := 0; hsdIssuedPSA := 0; hsdIssuedOthers := 0; hsdTotalIssued := 0;
     energyFromGasMMBTU := 0; energyFromHSDMMBTU := 0; totalEnergyExpendedMMBTU := 0;
     gasProduced := 0; oilProduced := 0; energyFromGasProdMMBTU := 0;
     energyFromOilProdMMBTU := 0; totalEnergyProducedMMBTU := 0;
     elecImported := 0; ghgScope1 := 0; ghgScope2 := 0; ghgTotal := 0;
     expectedEnergyMMBTU := 0;
     sec := 0; eii := 0; emissionIntensity := 0 |}%float.

(** ** [App.tsx]: the sort key, the derived views and the upload handler *)

(** The outcome of evaluating an expression: a value, or a [TypeError]. *)
Inductive completion (A : Type) : Type :=
| Normal (value : A)
| Throw.
Arguments Normal {A} value.
Arguments Throw {A}.

#[global] Instance completion_bind : MBind completion :=
  fun A B k c =>
    match c with
    | Normal a => k a
    | Throw => Throw
    end.

(** What reading a property of the object literal [months] gives: one of its
    twelve numbers, a member inherited from [Object.prototype], or
    [undefined]. *)
Inductive property : Type :=
| Undefined
| Number (n : Z)
| Inherited.

Definition object_prototype : list string :=
  [ "constructor"; "hasOwnProperty"; "isPrototypeOf"; "propertyIsEnumerable";
    "toLocaleString"; "toString"; "valueOf"; "__proto__";
    "__defineGetter__"; "__defineSetter__"; "__lookupGetter__"; "__lookupSetter__" ].

Definition months : list (string * Z) :=
  [ ("Jan", 0); ("Feb", 1); ("Mar", 2); ("Apr", 3); ("May", 4); ("Jun", 5);
    ("Jul", 6); ("Aug", 7); ("Sep", 8); ("Oct", 9); ("Nov", 10); ("Dec", 11) ].

(** [months[key]]. *)
Definition months_get (key : string) : property :=
  match find (fun kv => String.eqb (fst kv) key) months with
  | Some kv => Number (snd kv)
  | None => if existsb (String.eqb key) object_prototype then Inherited else Undefined
  end.

(** [ToNumber] of such a property that is not [undefined]: a function or an
    object is [NaN]. *)
Definition property_number (p : property) : intnum :=
  match p with
  | Number n => Int n
  | Inherited | Undefined => NonFinite
  end.

(** The sort key of a date text [DD-Mon-YY].  Only a string has a method
    [split]. *)
Definition parseDateString (dateStr : JSValue) : completion intnum :=
  match dateStr with
  | JStr s =>
      let parts := split "-" s in
      if negb (length parts =? 3)%nat then Normal (Int 0)
      else
        let day := parseInt (nth 0 parts "") in
        let monthStr := nth 1 parts "" in
        let yearPart := parseInt (nth 2 parts "") in
        let year := add (Int 2000) yearPart in
        let month :=
          match months_get monthStr with
          | Undefined => Int 0
          | p => property_number p
          end in
        Normal (TimeClip (Date_UTC year month day))
  | _ => Throw
  end.

(** The comparator [(a, b) => parseDateString(a) - parseDateString(b)]. *)
Definition compareDates (a b : JSValue) : completion intnum :=
  ka ← parseDateString a;
  kb ← parseDateString b;
  Normal (sub ka kb).

(** [Array.prototype.sort] with a comparator.  The values that are
    [undefined] go to the end without being compared; the others are sorted.
    The sort is stable and a comparator result that is [NaN] counts as zero;
    the order of the calls is left to the engine, here that of an insertion
    sort from the right.  When the comparator is a consistent one, every
    engine returns this list. *)
Section Sort.

Variable comparefn : JSValue -> JSValue -> completion intnum.

Definition before (v : intnum) : bool :=
  match v with
  | Int z => z <=? 0
  | NonFinite => true
  end.

Fixpoint insert (x : JSValue) (l : list JSValue) : completion (list JSValue) :=
  match l with
  | [] => Normal [x]
  | y :: l' =>
      v ← comparefn x y;
      if before v then Normal (x :: y :: l')
      else (r ← insert x l'; Normal (y :: r))
  end.

Fixpoint sort_items (l : list JSValue) : completion (list JSValue) :=
  match l with
  | [] => Normal []
  | x :: l' => sorted ← sort_items l'; insert x sorted
  end.

Definition is_undefined (v : JSValue) : bool :=
  match v with
  | JUndefined => true
  | _ => false
  end.

Definition Array_sort (l : list JSValue) : completion (list JSValue) :=
  sorted ← sort_items (List.filter (fun v => negb (is_undefined v)) l);
  Normal (sorted ++ List.filter is_undefined l)%list.

End Sort.

(** The state of the component [App] that the handlers below read and write,
    and the number of [alert] boxes shown. *)
Record AppState : Type := {
  allData : list ProcessedPlantData;
  selectedDate : JSValue;
  selectedPlantName : JSValue;
  alerts : nat
}.

Definition setAllData (v : list ProcessedPlantData) (st : AppState) : AppState :=
  {| allData := v; selectedDate := selectedDate st;
     selectedPlantName := selectedPlantName st; alerts := alerts st |}.

Definition setSelectedDate (v : JSValue) (st : AppState) : AppState :=
  {| allData := allData st; selectedDate := v;
     selectedPlantName := selectedPlantName st; alerts := alerts st |}.

Definition setSelectedPlantName (v : JSValue) (st : AppState) : AppState :=
  {| allData := allData st; selectedDate := selectedDate st;
     selectedPlantName := v; alerts := alerts st |}.

Definition alert (st : AppState) : AppState :=
  {| allData := allData st; selectedDate := selectedDate st;
     selectedPlantName := selectedPlantName st; alerts := S (alerts st) |}.

(** 1. The unique dates, in the order of their sort keys. *)
Definition availableDates (allData : list ProcessedPlantData) : completion (list JSValue) :=
  let dates := unique (map date allData) in
  Array_sort compareDates dates.

(** 2. The plants of the selected date. *)
Definition availablePlants (allData : list ProcessedPlantData) (selectedDate : JSValue)
  : list JSValue :=
  if negb (truthy selectedDate) then []
  else map plantName (List.filter (fun d => strict_eq (date d) selectedDate) allData).

(** 3. The record of the selected date and plant, or the blank one. *)
Definition currentPlantData (allData : list ProcessedPlantData)
    (selectedDate selectedPlantName : JSValue) : ProcessedPlantData :=
  match find (fun d => strict_eq (date d) selectedDate
                       && strict_eq (plantName d) selectedPlantName) allData with
  | Some found => found
  | None => getBlankPlantData
  end.

(** One turn of the loop of [secStats]. *)
Definition secStats_step (acc : ProcessedPlantData * ProcessedPlantData)
    (d : ProcessedPlantData) : ProcessedPlantData * ProcessedPlantData :=
  let '(min, max) := acc in
  let min := if (sec d <? sec min)%float then d else min in
  let max := if (sec max <? sec d)%float then d else max in
  (min, max).

(** 4. The records of least and greatest SEC on the selected date; [None] is
    [null]. *)
Definition secStats (allData : list ProcessedPlantData) (selectedDate : JSValue)
  : option (ProcessedPlantData * ProcessedPlantData) :=
  if negb (truthy selectedDate) then None
  else
    let validData :=
      List.filter (fun d => (0 <? sec d)%float && strict_eq (date d) selectedDate) allData in
    match validData with
    | [] => None
    | first :: _ => Some (fold_left secStats_step validData (first, first))
    end.

Section Upload.

Variable tza : Z -> Z.

(** The selection made after a successful upload: the first date in sort
    order and the first plant recorded for it. *)
Definition autoSelect (processed : list ProcessedPlantData) (st : AppState)
  : completion AppState :=
  uniqueDates ← Array_sort compareDates (unique (map date processed));
  let firstDate := nth 0 uniqueDates JUndefined in
  let st := setSelectedDate firstDate st in
  let firstPlant :=
    match find (fun p => strict_eq (date p) firstDate) processed with
    | Some p => plantName p
    | None => JUndefined
    end in
  Normal (if truthy firstPlant then setSelectedPlantName firstPlant st else st).

(** [handleFileUpload]: [file] is [event.target.files?.[0]]. *)
Definition handleFileUpload (file : option File) (st : AppState) : AppState :=
  match file with
  | None => st
  | Some f =>
      match readDataFile tza f with
      | Reject => alert st
      | Resolve raw =>
          let processed := map processPlantData raw in
          let st := setAllData processed st in
          if (0 <? length processed)%nat then
            match autoSelect processed st with
            | Normal st' => st'
            | Throw => alert st
            end
          else st
      end
  end.

End Upload.

(** ** Calendar dates and their canonical text *)

Definition days_in_month (y m : Z) : Z :=
  match m with
  | 1 => 28 + leap_day y
  | 3 | 5 | 8 | 10 => 30
  | _ => 31
  end.

(** A day of the calendar in the years 2000 to 2099, the month counted from 0. *)
Definition valid_date (y m d : Z) : Prop :=
  2000 <= y <= 2099 /\ 0 <= m <= 11 /\ 1 <= d <= days_in_month y m.

(** The text [DD-Mon-YY] that [formatRow] writes for a day, month and year. *)
Definition DD_Mon_YY (y m d : Z) : string :=
  padStart 2 "0" (Number_toString (Int d)) ++ "-" ++ month_short m ++ "-"
  ++ slice_last 2 (Number_toString (Int y)).

(** The order of the calendar. *)
Definition calendar_lt (y1 m1 d1 y2 m2 d2 : Z) : Prop :=
  y1 < y2 \/ (y1 = y2 /\ (m1 < m2 \/ (m1 = m2 /\ d1 < d2))).

(** The time value of midnight UTC of a day. *)
Definition utc_midnight (y m d : Z) : Z :=
  (DayFromYear y + month_start m (leap_day y) + d - 1) * msPerDay.

(** A record field that holds the canonical text of a calendar day. *)
Definition canonical_date (v : JSValue) : Prop :=
  exists y m d, valid_date y m d /\ v = JStr (DD_Mon_YY y m d).

(** [a] is the text of an earlier day than [b]. *)
Definition chronological (a b : JSValue) : Prop :=
  exists y1 m1 d1 y2 m2 d2,
    valid_date y1 m1 d1 /\ valid_date y2 m2 d2 /\
    a = JStr (DD_Mon_YY y1 m1 d1) /\ b = JStr (DD_Mon_YY y2 m2 d2) /\
    calendar_lt y1 m1 d1 y2 m2 d2.

(** The sum invariants of a processed record. *)
Definition totals_are_sums (p : ProcessedPlantData) : Prop :=
  gasTotalInternal p
    = (gasBoiler p + gasFurnace p + gasGDU p + gasEngine p + gasCompressor p)%float
  /\ elecTotalConsumed p = (elecGCS p + elecETP p + elecRefinery p)%float
  /\ waterTotal p = (waterGCS p + waterRefinery p)%float
  /\ hsdTotalConsumed p = (hsdPumps p + hsdGensets p)%float
  /\ hsdTotalIssued p = (hsdIssuedFire p + hsdIssuedPSA p + hsdIssuedOthers p)%float.

(** A text with nothing numeric at its start: after the white space and an
    optional sign comes neither a digit, nor a point and a digit, nor
    [Infinity]. *)
Definition starts_with_digit (s : string) : bool :=
  match s with
  | String c _ => is_digit c
  | EmptyString => false
  end.

Definition non_numeric (s : string) : bool :=
  let r := snd (sign (trim_start s)) in
  negb (String.prefix "Infinity" r)
  && negb (starts_with_digit r)
  && match r with
     | String "." r' => negb (starts_with_digit r')
     | _ => true
     end.

(** A record that counts for the SEC statistic of a date. *)
Definition qualifies (allData : list ProcessedPlantData) (selectedDate : JSValue)
    (d : ProcessedPlantData) : Prop :=
  In d allData /\ (0 <? sec d)%float = true /\ strict_eq (date d) selectedDate = true.

(** The SEC of [d] lies between those of [mn] and [mx]. *)
Definition within (mn mx d : ProcessedPlantData) : Prop :=
  (sec mn <=? sec d)%float = true /\ (sec d <=? sec mx)%float = true.

(** [a] does not come after [b] in the order of a key. *)
Definition ascending (key : JSValue -> Z) (a b : JSValue) : Prop := key a <= key b.

(** ** The order of binary64 numbers *)

(** The comparison of two numbers follows the lexicographic order of these
    triples; [NaN] has none. *)
Definition rank (x : spec_float) : option (Z * Z * Z) :=
  match x with
  | S754_nan => None
  | S754_zero _ => Some (0, 0, 0)
  | S754_infinity s => Some (if s then -2 else 2, 0, 0)
  | S754_finite s m e => Some (if s then (-1, - e, Zneg m) else (1, e, Zpos m))
  end.

Definition lex_lt (a b : Z * Z * Z) : Prop :=
  let '(a1, a2, a3) := a in
  let '(b1, b2, b3) := b in
  a1 < b1 \/ (a1 = b1 /\ (a2 < b2 \/ (a2 = b2 /\ a3 < b3))).

(** [s] does not hold the character [c]. *)
Fixpoint lacks (c : ascii) (s : string) : bool :=
  match s with
  | EmptyString => true
  | String a r => negb (Ascii.eqb a c) && lacks c r
  end.

Definition Zrange (lo : Z) (n : nat) : list Z := map (fun i => lo + Z.of_nat i) (seq 0 n).

Definition intnum_eqb (a b : intnum) : bool :=
  match a, b with
  | NonFinite, NonFinite => true
  | Int x, Int y => x =? y
  | _, _ => false
  end.

(** The sort key of a date text, 0 where [parseDateString] gives no integer. *)
Definition date_key (v : JSValue) : Z :=
  match parseDateString v with
  | Normal (Int k) => k
  | _ => 0
  end.

Definition frank (x : float) : option (Z * Z * Z) := rank (Prim2SF x).

(** The two parts of a canonical text that hold numbers. *)
Definition day_text (d : Z) : string := padStart 2 "0" (Number_toString (Int d)).
Definition year_text (y : Z) : string := slice_last 2 (Number_toString (Int y)).

Definition is_text (v : JSValue) : Prop := exists s, v = JStr s.

(** ** Rows used as examples *)

(** The row of the specification's worked example. *)
Definition example_row : RawPlantData :=
  <["Plant Name" := JStr "A"]>
    (<["Date" := JStr "01-Oct-25"]>
       (<["Gas Consumption - Boiler (SCM)" := JNum 100]>
          (<["HSD Consumption - Pumps (KL)" := JNum 10]>
             (<["APSEB Electricity Imported (kWh)" := JNum 500]>
                (<["Gas Production (SCM)" := JNum 200]>
                   (<["Expected Energy Consumption (MMBTU)" := JNum 50]> ∅)))))).

(** A row without production, without an expected consumption. *)
Definition idle_row : RawPlantData :=
  <["Plant Name" := JStr "A"]>
    (<["Gas Consumption - Boiler (SCM)" := JNum 100]>
       (<["Gas Production (SCM)" := JStr ""]>
          (<["Expected Energy Consumption (MMBTU)" := JNum (-5)]> ∅))).

(** The moment of a serial day number: [round((serial - 25569) * 86400 * 1000)]
    plus twelve hours of milliseconds, as a time value. *)
Definition serial_moment (serial : float) : intnum :=
  TimeClip (add (Math_round (((serial - 25569) * 86400) * 1000)%float) (Int 43200000)).

(** The text of a moment: the day of the month on two digits, the short name
    of the month and the last two digits of the year, in local time. *)
Definition moment_text (tza : Z -> Z) (moment : intnum) : string :=
  padStart 2 "0" (Number_toString (getDate tza moment)) ++ "-"
  ++ toLocaleString_month_short tza moment ++ "-"
  ++ slice_last 2 (Number_toString (getFullYear tza moment)).

(** Time zones used as examples: UTC, India (+05:30), the Pacific coast
    (-08:00). *)
Definition utc (_ : Z) : Z := 0.
Definition ist (_ : Z) : Z := 19800000.
Definition pst (_ : Z) : Z := -28800000.

(** A row whose [Date] cell holds a number. *)
Definition serial_row (serial : float) : RawPlantData := <["Date" := JNum serial]> ∅.

(** A state with one record loaded and selected. *)
Definition loaded_state : AppState :=
  {| allData := [processPlantData example_row];
     selectedDate := JStr "01-Oct-25";
     selectedPlantName := JStr "A";
     alerts := 0 |}.

(** Three plants on one date: SEC 0.5, SEC 0.25, and no production. *)
Definition plant_row (name : string) (gas production : float) : RawPlantData :=
  <["Plant Name" := JStr name]>
    (<["Date" := JStr "01-Oct-25"]>
       (<["Gas Consumption - Boiler (SCM)" := JNum gas]>
          (<["Gas Production (SCM)" := JNum production]> ∅))).

Definition three_plants : list RawPlantData :=
  [plant_row "A" 100 200; plant_row "B" 100 400; plant_row "C" 100 0].

(** ** More of the built-ins *)

(** [TrimString(s, end)]: what is left of [s] before the white space that
    ends it. *)
Fixpoint trim_end (s : string) : string :=
  match s with
  | EmptyString => ""
  | String c r => if String.eqb (trim_start s) "" then "" else String c (trim_end r)
  end.

(** [s.trim()]. *)
Definition trim (s : string) : string := trim_end (trim_start s).

(** [Math.max(a, b)] and [Math.min(a, b)]: [NaN] when an argument is [NaN];
    of the two zeros the positive one is the larger. *)
Definition Math_max (a b : float) : float :=
  if is_nan a || is_nan b then nan
  else if (a <? b)%float then b
  else if (b <? a)%float then a
  else if get_sign a then b else a.

Definition Math_min (a b : float) : float :=
  if is_nan a || is_nan b then nan
  else if (a <? b)%float then a
  else if (b <? a)%float then b
  else if get_sign a then a else b.

(** ** [services/dataService.ts]: the text reader *)

(** The cell written for a header: the text for the two identity columns, a
    number for every other column. *)
Definition cell (header val : string) : JSValue :=
  if String.eqb header "Plant Name" || String.eqb header "Date" then JStr val
  else JNum (safeFloat (JStr val)).

(** [row[key] = v] on an object literal, [v] being a text or a number:
    assigning such a value to [__proto__] changes nothing. *)
Definition assign (row : RawPlantData) (key : string) (v : JSValue) : RawPlantData :=
  if String.eqb key "__proto__" then row else <[key := v]> row.

(** [headers.forEach((header, index) => ...)] from [index] on. *)
Fixpoint fill_row (values headers : list string) (index : nat) (row : RawPlantData)
  : RawPlantData :=
  match headers with
  | [] => row
  | header :: rest =>
      let val := nth index values "" in
      fill_row values rest (S index) (assign row header (cell header val))
  end.

(** The loop over the lines that follow the header line. *)
Fixpoint parse_lines (headers lines : list string) : list RawPlantData :=
  match lines with
  | [] => []
  | line :: rest =>
      let values := map trim (split "," line) in
      if (length values <? 2)%nat then parse_lines headers rest
      else fill_row values headers 0 ∅ :: parse_lines headers rest
  end.

Definition parseCSV (csvText : string) : list RawPlantData :=
  let lines := split "010" (trim csvText) in
  if (length lines <? 2)%nat then []
  else
    let headers := map trim (split "," (nth 0 lines "")) in
    parse_lines headers (tl lines).

(** ** [App.tsx]: the other handlers *)

(** The [onChange] of the date list: the date chosen, and no plant. *)
Definition handleDateChange (value : string) (st : AppState) : AppState :=
  setSelectedPlantName (JStr "") (setSelectedDate (JStr value) st).

(** [handleRunAnalysis] up to its call of the analysis service: the record
    and the peers it passes, [None] when it returns before the call. *)
Definition analysisRequest (st : AppState)
  : option (ProcessedPlantData * list ProcessedPlantData) :=
  let current := currentPlantData (allData st) (selectedDate st) (selectedPlantName st) in
  if negb (truthy (plantName current))
     || strict_eq (plantName current) (JStr "Select Plant")
  then None
  else
    let peerPlants :=
      List.filter (fun d => strict_eq (date d) (selectedDate st)) (allData st) in
    Some (current, peerPlants).

(** ** [components/GaugeChart.tsx] *)

(** The share of the dial that the needle covers, and its angle. *)
Definition percentage (value max : float) : float :=
  Math_min (Math_max (value / max)%float 0%float) 1%float.

Definition angle (value max : float) : float :=
  (180 - percentage value max * 180)%float.

(** ** Columns and fields *)

(** The headers of the columns that hold numbers. *)
Definition numeric_headers : list string :=
  [ "Gas Flared (SCM)";
    "Gas Consumption - Boiler (SCM)"; "Gas Consumption - Furnace (SCM)";
    "Gas Consumption - GDU (SCM)"; "Gas Consumption - Engine (SCM)";
    "Gas Consumption - Package Gas Compressor (SCM)";
    "Electrical Consumption - GCS (kWh)"; "Electrical Consumption - ETP (kWh)";
    "Electrical Consumption - Refinery (kWh)";
    "Water Consumption - GCS (m³)"; "Water Consumption - Refinery (m³)";
    "Electrical Generated (kWh)";
    "HSD Consumption - Pumps (KL)"; "HSD Consumption - Emergency Diesel Gensets (KL)";
    "HSD Issued - Fire Section (KL)"; "HSD Issued - PSA (KL)"; "HSD Issued - Others (KL)";
    "Gas Production (SCM)"; "Oil Production (Barrels)";
    "APSEB Electricity Imported (kWh)"; "Expected Energy Consumption (MMBTU)" ].

(** The fields of a record that hold the number of a column as it was read. *)
Definition read_fields : list (ProcessedPlantData -> float) :=
  [ gasFlared; gasBoiler; gasFurnace; gasGDU; gasEngine; gasCompressor;
    elecGCS; elecETP; elecRefinery; waterGCS; waterRefinery; elecGenerated;
    hsdPumps; hsdGensets; hsdIssuedFire; hsdIssuedPSA; hsdIssuedOthers;
    gasProduced; oilProduced; elecImported; expectedEnergyMMBTU ].

(** [p] with another plant name and date. *)
Definition with_identity (name day : JSValue) (p : ProcessedPlantData) : ProcessedPlantData :=
  {| plantName := name; date := day;
     gasFlared := gasFlared p;
     gasBoiler := gasBoiler p; gasFurnace := gasFurnace p; gasGDU := gasGDU p;
     gasEngine := gasEngine p; gasCompressor := gasCompressor p;
     gasTotalInternal := gasTotalInternal p;
     elecGCS := elecGCS p; elecETP := elecETP p; elecRefinery := elecRefinery p;
     elecTotalConsumed := elecTotalConsumed p;
     waterGCS := waterGCS p; waterRefinery := waterRefinery p; waterTotal := waterTotal p;
     elecGenerated := elecGenerated p;
     hsdPumps := hsdPumps p; hsdGensets := hsdGensets p;
     hsdTotalConsumed := hsdTotalConsumed p;
     hsdIssuedFire := hsdIssuedFire p; hsdIssuedPSA := hsdIssuedPSA p;
     hsdIssuedOthers := hsdIssuedOthers p; hsdTotalIssued := hsdTotalIssued p;
     energyFromGasMMBTU := energyFromGasMMBTU p;
     energyFromHSDMMBTU := energyFromHSDMMBTU p;
     totalEnergyExpendedMMBTU := totalEnergyExpendedMMBTU p;
     gasProduced := gasProduced p; oilProduced := oilProduced p;
     energyFromGasProdMMBTU := energyFromGasProdMMBTU p;
     energyFromOilProdMMBTU := energyFromOilProdMMBTU p;
     totalEnergyProducedMMBTU := totalEnergyProducedMMBTU p;
     elecImported := elecImported p;
     ghgScope1 := ghgScope1 p; ghgScope2 := ghgScope2 p; ghgTotal := ghgTotal p;
     expectedEnergyMMBTU := expectedEnergyMMBTU p;
     sec := sec p; eii := eii p; emissionIntensity := emissionIntensity p |}.

(** A value that is not the number [NaN]. *)
Definition not_NaN (v : JSValue) : Prop :=
  match v with
  | JNum x => is_nan x = false
  | _ => True
  end.

(** The lines of a text, its headers, and the row made of one line. *)
Definition csv_lines (csvText : string) : list string := split "010" (trim csvText).

Definition csv_headers (csvText : string) : list string :=
  map trim (split "," (nth 0 (csv_lines csvText) "")).

Definition csv_row (headers : list string) (line : string) : RawPlantData :=
  fill_row (map trim (split "," line)) headers 0 ∅.

Definition has_comma (line : string) : bool := negb (lacks "," line).

(** A record of the selected date and plant. *)
Definition matches (selectedDate selectedPlantName : JSValue) (d : ProcessedPlantData) : bool :=
  strict_eq (date d) selectedDate && strict_eq (plantName d) selectedPlantName.

(** A state that holds the records of [rows] and a selection. *)
Definition state_of (rows : list RawPlantData) (selectedDate selectedPlantName : JSValue)
  : AppState :=
  {| allData := map processPlantData rows;
     selectedDate := selectedDate;
     selectedPlantName := selectedPlantName;
     alerts := 0 |}.

(** A text that does not split into three segments. *)
Definition malformed_date (v : JSValue) : Prop :=
  exists s, v = JStr s /\ length (split "-" s) <> 3%nat.

(** Whether a value is a text. *)
Definition textb (v : JSValue) : bool :=
  match v with
  | JStr _ => true
  | _ => false
  end.

(** The records that an uploaded sheet makes. *)
Definition uploaded (tza : Z -> Z) (rows : list RawPlantData) : list ProcessedPlantData :=
  map processPlantData (map (formatRow tza) rows).

(** A text of three data lines under four headers: a full line, a short
    one, and one without a comma. *)
Definition sample_csv : string :=
  "Plant Name,Date,Gas Flared (SCM),Gas Production (SCM)" ++ String "010"
    ("A, 01-Oct-25 , 12.5,abc" ++ String "010"
       ("B,02-Oct-25" ++ String "010" "lonely")).

(** A row whose [Date] cell is a [Date] object: midnight UTC of the first
    of October 2025. *)
Definition dated_row : RawPlantData :=
  <["Date" := JDate 1 (Int 1759276800000)]> (<["Gas Flared (SCM)" := JNum 7]> ∅).

(** A sheet of two rows, the second with the number 5 as its date. *)
Definition numbered_sheet : list RawPlantData :=
  [example_row; <["Date" := JNum 5]> ∅].

(** A row of finite cells whose three KPIs overflow. *)
Definition overflow_row : RawPlantData :=
  <["Plant Name" := JStr "A"]>
    (<["Gas Consumption - Boiler (SCM)" := JNum 1e300]>
       (<["Gas Production (SCM)" := JNum 1e-300]>
          (<["Expected Energy Consumption (MMBTU)" := JNum 1e-300]> ∅))).

(** * Theorems *)

(** ** Comparisons of binary64 numbers *)

Section FloatOrder.

#[local] Open Scope float_scope.

Lemma SFcompare_rank (x y : spec_float) :
  match rank x, rank y with
  | Some a, Some b =>
      exists c, SFcompare x y = Some c /\
        match c with
        | Lt => lex_lt a b
        | Eq => a = b
        | Gt => lex_lt b a
        end
  | _, _ => SFcompare x y = None
  end.
Proof.
  destruct x as [sx | sx | | sx mx ex], y as [sy | sy | | sy my ey]; cbn;
    try reflexivity;
    try (destruct sx); try (destruct sy); cbn;
    try (eexists; split; [reflexivity | cbn; (reflexivity || lia)]).
  all: destruct (Z.compare_spec ex ey) as [He | He | He];
    try (eexists; split; [reflexivity | cbn; lia]).
  all: subst; change (Pos.compare_cont Eq mx my) with (Pos.compare mx my);
    destruct (Pos.compare_spec mx my) as [Hm | Hm | Hm];
    eexists; (split; [reflexivity | cbn; subst; (reflexivity || lia)]).
Qed.

Lemma ltb_rank (x y : float) :
  (x <? y) = true <-> exists a b, frank x = Some a /\ frank y = Some b /\ lex_lt a b.
Proof.
  rewrite FloatAxioms.ltb_spec. unfold SFltb, frank.
  pose proof (SFcompare_rank (Prim2SF x) (Prim2SF y)) as H.
  destruct (rank (Prim2SF x)) as [[[a1 a2] a3] |], (rank (Prim2SF y)) as [[[b1 b2] b3] |].
  - destruct H as (c & -> & Hc). split.
    + intros Hlt. destruct c; try discriminate. eauto.
    + intros (a & b & Ha & Hb & Hab). injection Ha as <-. injection Hb as <-.
      destruct c; [ injection Hc as -> -> -> | | ]; cbn in *; (reflexivity || lia).
  - rewrite H. split; [discriminate | intros (? & ? & ? & ? & _); discriminate].
  - rewrite H. split; [discriminate | intros (? & ? & ? & ? & _); discriminate].
  - rewrite H. split; [discriminate | intros (? & ? & ? & ? & _); discriminate].
Qed.

Lemma leb_rank (x y : float) :
  (x <=? y) = true <->
  exists a b, frank x = Some a /\ frank y = Some b /\ (lex_lt a b \/ a = b).
Proof.
  rewrite FloatAxioms.leb_spec. unfold SFleb, frank.
  pose proof (SFcompare_rank (Prim2SF x) (Prim2SF y)) as H.
  destruct (rank (Prim2SF x)) as [[[a1 a2] a3] |], (rank (Prim2SF y)) as [[[b1 b2] b3] |].
  - destruct H as (c & -> & Hc). split.
    + intros Hle. destruct c; try discriminate; eauto 6.
    + intros (a & b & Ha & Hb & Hab). injection Ha as <-. injection Hb as <-.
      destruct c; try reflexivity.
      destruct Hab as [Hab | Hab]; [ | injection Hab as -> -> -> ]; cbn in *; lia.
  - rewrite H. split; [discriminate | intros (? & ? & ? & ? & _); discriminate].
  - rewrite H. split; [discriminate | intros (? & ? & ? & ? & _); discriminate].
  - rewrite H. split; [discriminate | intros (? & ? & ? & ? & _); discriminate].
Qed.

Lemma eqb_rank (x y : float) :
  (x =? y) = true <-> exists a, frank x = Some a /\ frank y = Some a.
Proof.
  rewrite FloatAxioms.eqb_spec. unfold SFeqb, frank.
  pose proof (SFcompare_rank (Prim2SF x) (Prim2SF y)) as H.
  destruct (rank (Prim2SF x)) as [[[a1 a2] a3] |], (rank (Prim2SF y)) as [[[b1 b2] b3] |].
  - destruct H as (c & -> & Hc). split.
    + intros He. destruct c; try discriminate. rewrite Hc. eauto.
    + intros (a & Ha & Hb). rewrite <- Hb in Ha. injection Ha as -> -> ->.
      destruct c; try reflexivity; cbn in Hc; lia.
  - rewrite H. split; [discriminate | intros (? & ? & ?); discriminate].
  - rewrite H. split; [discriminate | intros (? & ? & ?); discriminate].
  - rewrite H. split; [discriminate | intros (? & ? & ?); discriminate].
Qed.

Lemma is_nan_rank (x : float) : is_nan x = false <-> exists a, frank x = Some a.
Proof.
  unfold is_nan. rewrite negb_false_iff, eqb_rank. split.
  - intros (a & Ha & _). eauto.
  - intros (a & Ha). eauto.
Qed.

(** A number that is zero or negative is not above zero. *)
Lemma leb_not_ltb (x y : float) : (x <=? y) = true -> (y <? x) = false.
Proof.
  intros H. apply leb_rank in H. destruct H as (a & b & Ha & Hb & Hab).
  apply not_true_is_false. intros H'. apply ltb_rank in H'.
  destruct H' as (b' & a' & Hb' & Ha' & Hba).
  rewrite Ha in Ha'. rewrite Hb in Hb'. injection Ha' as <-. injection Hb' as <-.
  destruct a as [[a1 a2] a3], b as [[b1 b2] b3]. cbn in *.
  destruct Hab as [Hab | Hab]; [ | injection Hab as -> -> -> ]; lia.
Qed.

Lemma ltb_not_nan_l (x y : float) : (x <? y) = true -> is_nan x = false.
Proof. rewrite ltb_rank, is_nan_rank. intros (a & b & Ha & _). eauto. Qed.

Lemma ltb_not_nan_r (x y : float) : (x <? y) = true -> is_nan y = false.
Proof. rewrite ltb_rank, is_nan_rank. intros (a & b & _ & Hb & _). eauto. Qed.

Lemma leb_refl (x : float) : is_nan x = false -> (x <=? x) = true.
Proof. rewrite is_nan_rank, leb_rank. intros (a & Ha). eauto 6. Qed.

Lemma ltb_leb_trans (x y z : float) :
  (x <? y) = true -> (y <=? z) = true -> (x <=? z) = true.
Proof.
  rewrite ltb_rank, !leb_rank.
  intros (a & b & Ha & Hb & Hab) (b' & c & Hb' & Hc & Hbc).
  rewrite Hb in Hb'. injection Hb' as <-.
  exists a, c. split; [assumption | split; [assumption | ] ].
  destruct a as [[a1 a2] a3], b as [[b1 b2] b3], c as [[c1 c2] c3]. cbn in *.
  left. destruct Hbc as [Hbc | Hbc]; [ | injection Hbc as <- <- <- ]; lia.
Qed.

Lemma leb_ltb_trans (x y z : float) :
  (x <=? y) = true -> (y <? z) = true -> (x <=? z) = true.
Proof.
  rewrite ltb_rank, !leb_rank.
  intros (a & b & Ha & Hb & Hab) (b' & c & Hb' & Hc & Hbc).
  rewrite Hb in Hb'. injection Hb' as <-.
  exists a, c. split; [assumption | split; [assumption | ] ].
  destruct a as [[a1 a2] a3], b as [[b1 b2] b3], c as [[c1 c2] c3]. cbn in *.
  left. destruct Hab as [Hab | Hab]; [ | injection Hab as -> -> -> ]; lia.
Qed.

Lemma not_ltb_leb (x y : float) :
  is_nan x = false -> is_nan y = false -> (x <? y) = false -> (y <=? x) = true.
Proof.
  rewrite !is_nan_rank, leb_rank. intros (a & Ha) (b & Hb) H.
  exists b, a. split; [assumption | split; [assumption | ] ].
  destruct a as [[a1 a2] a3], b as [[b1 b2] b3].
  destruct (Z.compare_spec a1 b1) as [H1 | H1 | H1];
    [ destruct (Z.compare_spec a2 b2) as [H2 | H2 | H2];
      [ destruct (Z.compare_spec a3 b3) as [H3 | H3 | H3] | | ] | | ];
    subst; try (right; reflexivity); try (left; cbn; lia).
  all: exfalso; apply not_true_iff_false in H; apply H; apply ltb_rank;
    do 2 eexists; (split; [eassumption | split; [eassumption | cbn; lia] ]).
Qed.

Lemma ltb_leb (x y : float) : (x <? y) = true -> (x <=? y) = true.
Proof.
  rewrite ltb_rank, leb_rank. intros (a & b & Ha & Hb & Hab). exists a, b. auto.
Qed.

Lemma leb_trans (x y z : float) :
  (x <=? y) = true -> (y <=? z) = true -> (x <=? z) = true.
Proof.
  rewrite !leb_rank.
  intros (a & b & Ha & Hb & Hab) (b' & c & Hb' & Hc & Hbc).
  rewrite Hb in Hb'. injection Hb' as <-.
  exists a, c. split; [assumption | split; [assumption | ] ].
  destruct Hab as [Hab | ->]; [ | assumption].
  destruct Hbc as [Hbc | <-]; [ | now left].
  destruct a as [[a1 a2] a3], b as [[b1 b2] b3], c as [[c1 c2] c3]. cbn in *.
  left. lia.
Qed.

(** Numbers that are equal are both zero, or both [NaN], or neither. *)
Lemma eqb_is_zero (x y : float) : (x =? y) = true -> is_zero x = is_zero y.
Proof.
  intros H. apply eqb_rank in H. destruct H as (a & Ha & Hb). unfold is_zero.
  destruct (x =? zero) eqn:Ex.
  - apply eqb_rank in Ex. destruct Ex as (z & Hx & Hz). symmetry. apply eqb_rank.
    exists z. split; [congruence | assumption].
  - symmetry. apply not_true_is_false. intros Ey. apply eqb_rank in Ey.
    destruct Ey as (z & Hy & Hz). apply not_true_iff_false in Ex. apply Ex, eqb_rank.
    exists z. split; [congruence | assumption].
Qed.

Lemma eqb_not_nan (x y : float) : (x =? y) = true -> is_nan x = false /\ is_nan y = false.
Proof.
  intros H. apply eqb_rank in H. destruct H as (a & Ha & Hb).
  split; apply is_nan_rank; eauto.
Qed.

End FloatOrder.

(** ** [safeFloat] and [processPlantData] *)

Lemma digits_none (acc : Z) (s : string) :
  starts_with_digit s = false -> digits acc s = (acc, O, s).
Proof.
  destruct s as [ | c r]; cbn; [reflexivity | ]. now intros ->.
Qed.

(** The parser finds no number in a text that has nothing numeric at its
    start. *)
Lemma parseFloat_string_non_numeric (s : string) :
  non_numeric s = true -> parseFloat_string s = nan.
Proof.
  unfold non_numeric, parseFloat_string.
  destruct (sign (trim_start s)) as [neg r]. cbn [snd].
  rewrite !andb_true_iff, !negb_true_iff. intros [[-> Hd] Hp].
  rewrite (digits_none _ _ Hd).
  destruct r as [ | c r']; [reflexivity | ].
  destruct (Ascii.eqb_spec c ".") as [-> | Hc].
  - apply negb_true_iff in Hp. now rewrite (digits_none _ _ Hp).
  - destruct c as [[] [] [] [] [] [] [] []]; try reflexivity. now contradiction Hc.
Qed.

Lemma safeFloat_not_number (val : JSValue) :
  (forall x, val <> JNum x) ->
  safeFloat val = if is_nan (parseFloat val) then 0%float else parseFloat val.
Proof.
  intros H. destruct val; try reflexivity. now contradiction (H x).
Qed.

(** C4 fails as stated: a text can parse to an infinity, a number that is
    [NaN] is returned as it is, and finite inputs can overflow in a record:
    two boilers at 1e308 give an infinite total, and with a production as
    large the SEC is [NaN]. *)
Lemma safeFloat_not_always_finite :
  is_finite (safeFloat (JStr "1e999")) = false
  /\ is_finite (safeFloat (JStr "-Infinity")) = false
  /\ is_nan (safeFloat (JNum nan)) = true
  /\ (let raw : RawPlantData :=
        <["Gas Consumption - Boiler (SCM)" := JNum 1e308]>
          (<["Gas Consumption - Furnace (SCM)" := JStr "1e308"]>
             (<["Oil Production (Barrels)" := JNum 1e308]> ∅)) in
      is_finite (safeFloat (get raw "Gas Consumption - Boiler (SCM)")) = true
      /\ is_finite (safeFloat (get raw "Gas Consumption - Furnace (SCM)")) = true
      /\ is_finite (safeFloat (get raw "Oil Production (Barrels)")) = true
      /\ is_finite (gasTotalInternal (processPlantData raw)) = false
      /\ is_nan (sec (processPlantData raw)) = true).
Proof. vm_compute. repeat split. Qed.

(** C4, amended: a number is returned unchanged, so a finite number stays
    finite; for every other value the result is what [parseFloat] finds, and 0
    when that is [NaN], hence never [NaN]; [null], [undefined], the booleans,
    the empty text, and every text with nothing numeric at its start (blanks,
    words) give exactly 0. *)
Theorem safeFloat_spec :
  (forall x, safeFloat (JNum x) = x)
  /\ (forall val, (forall x, val <> JNum x) ->
        is_nan (safeFloat val) = false
        /\ (is_nan (parseFloat val) = true -> safeFloat val = 0%float)
        /\ (is_nan (parseFloat val) = false -> safeFloat val = parseFloat val))
  /\ safeFloat JNull = 0%float
  /\ safeFloat JUndefined = 0%float
  /\ (forall b, safeFloat (JBool b) = 0%float)
  /\ (forall r tv, safeFloat (JDate r tv) = 0%float)
  /\ safeFloat (JStr "") = 0%float
  /\ (forall s, non_numeric s = true -> safeFloat (JStr s) = 0%float).
Proof.
  split; [reflexivity | ]. split.
  - intros val H. rewrite (safeFloat_not_number val H).
    destruct (is_nan (parseFloat val)) eqn:E; repeat split; auto; discriminate.
  - split; [reflexivity | ]. split; [reflexivity | ].
    split; [now intros [] | ]. split; [reflexivity | ]. split; [reflexivity | ].
    intros s Hs. cbn. now rewrite (parseFloat_string_non_numeric s Hs).
Qed.

Lemma safeFloat_spec_witness :
  non_numeric "   n/a" = true /\ safeFloat (JStr "   n/a") = 0%float.
Proof.
  split; [reflexivity | ].
  exact (proj2 (proj2 (proj2 (proj2 (proj2 (proj2 (proj2 safeFloat_spec))))))
           "   n/a" eq_refl).
Defined.

(** C1: in every record that [processPlantData] returns, and in the blank
    record of [getBlankPlantData], each total is the sum of its parts, added
    in the order of the source. *)
Theorem processPlantData_totals :
  (forall raw : RawPlantData, totals_are_sums (processPlantData raw))
  /\ totals_are_sums getBlankPlantData.
Proof.
  split.
  - intros raw. repeat split.
  - repeat split.
Qed.

Lemma sec_guard (raw : RawPlantData) :
  (0 <? totalEnergyProducedMMBTU (processPlantData raw))%float = false ->
  sec (processPlantData raw) = 0%float.
Proof.
  cbv beta zeta iota delta [processPlantData sec totalEnergyProducedMMBTU].
  now intros ->.
Qed.

Lemma eii_guard (raw : RawPlantData) :
  (0 <? expectedEnergyMMBTU (processPlantData raw))%float = false ->
  eii (processPlantData raw) = 0%float.
Proof.
  cbv beta zeta iota delta [processPlantData eii expectedEnergyMMBTU].
  now intros ->.
Qed.

Lemma emissionIntensity_guard (raw : RawPlantData) :
  (0 <? gasProduced (processPlantData raw))%float = false ->
  emissionIntensity (processPlantData raw) = 0%float.
Proof.
  cbv beta zeta iota delta [processPlantData emissionIntensity gasProduced].
  now intros ->.
Qed.

(** C2 fails as stated: a KPI can be infinite. With finite cells and the
    three denominators above zero, a boiler reading of 1e300 over a gas
    production and an expected consumption of 1e-300 overflows in each of the
    three divisions. *)
Lemma kpi_not_always_finite :
  let p := processPlantData overflow_row in
  is_finite (safeFloat (get overflow_row "Gas Consumption - Boiler (SCM)")) = true
  /\ is_finite (safeFloat (get overflow_row "Gas Production (SCM)")) = true
  /\ is_finite (safeFloat (get overflow_row "Expected Energy Consumption (MMBTU)")) = true
  /\ (0 <? totalEnergyProducedMMBTU p)%float = true
  /\ (0 <? expectedEnergyMMBTU p)%float = true
  /\ (0 <? gasProduced p)%float = true
  /\ sec p = infinity
  /\ eii p = infinity
  /\ emissionIntensity p = infinity
  /\ is_finite (sec p) = false
  /\ is_finite (eii p) = false
  /\ is_finite (emissionIntensity p) = false.
Proof. vm_compute. repeat split. Qed.

(** C2, amended: the three denominators are read from the row, the energy
    produced from the cells of the gas and oil production, the expected
    energy and the gas produced from their cells; a denominator that is zero
    or negative gives the KPI 0, a finite number, for the SEC, the EII and
    the emission intensity alike; a denominator above zero gives the
    quotient, which nothing bounds; a KPI that is not 0 comes from a
    division by a denominator above zero; [processPlantData] is a total
    function, it raises nothing. *)
Theorem kpi_guards (raw : RawPlantData) :
  let p := processPlantData raw in
  let produced :=
    (safeFloat (get raw "Gas Production (SCM)") * CONVERSIONS.SCM_TO_MMBTU
     + safeFloat (get raw "Oil Production (Barrels)") * CONVERSIONS.BARREL_TO_MMBTU_OIL)%float in
  let expected := safeFloat (get raw "Expected Energy Consumption (MMBTU)") in
  let gas := safeFloat (get raw "Gas Production (SCM)") in
  (totalEnergyProducedMMBTU p = produced
   /\ expectedEnergyMMBTU p = expected
   /\ gasProduced p = gas)
  /\ ((produced <=? 0)%float = true ->
        sec p = 0%float /\ is_finite (sec p) = true)
  /\ ((expected <=? 0)%float = true ->
        eii p = 0%float /\ is_finite (eii p) = true)
  /\ ((gas <=? 0)%float = true ->
        emissionIntensity p = 0%float /\ is_finite (emissionIntensity p) = true)
  /\ ((0 <? produced)%float = true ->
        sec p = (energyFromGasMMBTU p / produced)%float)
  /\ ((0 <? expected)%float = true ->
        eii p = (totalEnergyExpendedMMBTU p / expected * 100)%float)
  /\ ((0 <? gas)%float = true ->
        emissionIntensity p = (ghgTotal p / gas)%float)
  /\ (sec p = 0%float \/ (0 <? produced)%float = true)
  /\ (eii p = 0%float \/ (0 <? expected)%float = true)
  /\ (emissionIntensity p = 0%float \/ (0 <? gas)%float = true).
Proof.
  cbv zeta. split; [repeat split | ].
  change (safeFloat (get raw "Gas Production (SCM)") * CONVERSIONS.SCM_TO_MMBTU
          + safeFloat (get raw "Oil Production (Barrels)")
            * CONVERSIONS.BARREL_TO_MMBTU_OIL)%float
    with (totalEnergyProducedMMBTU (processPlantData raw)).
  change (safeFloat (get raw "Expected Energy Consumption (MMBTU)"))
    with (expectedEnergyMMBTU (processPlantData raw)).
  change (safeFloat (get raw "Gas Production (SCM)"))
    with (gasProduced (processPlantData raw)).
  repeat apply conj.
  - intros Hle. apply leb_not_ltb in Hle. rewrite (sec_guard raw Hle). now split.
  - intros Hle. apply leb_not_ltb in Hle. rewrite (eii_guard raw Hle). now split.
  - intros Hle. apply leb_not_ltb in Hle. rewrite (emissionIntensity_guard raw Hle).
    now split.
  - cbv beta zeta iota delta
      [processPlantData sec totalEnergyProducedMMBTU energyFromGasMMBTU].
    now intros ->.
  - cbv beta zeta iota delta
      [processPlantData eii expectedEnergyMMBTU totalEnergyExpendedMMBTU].
    now intros ->.
  - cbv beta zeta iota delta [processPlantData emissionIntensity gasProduced ghgTotal].
    now intros ->.
  - destruct (0 <? totalEnergyProducedMMBTU (processPlantData raw))%float eqn:E;
      [now right | left; now apply sec_guard].
  - destruct (0 <? expectedEnergyMMBTU (processPlantData raw))%float eqn:E;
      [now right | left; now apply eii_guard].
  - destruct (0 <? gasProduced (processPlantData raw))%float eqn:E;
      [now right | left; now apply emissionIntensity_guard].
Qed.

Lemma kpi_guards_witness :
  let p := processPlantData idle_row in
  sec p = 0%float /\ eii p = 0%float /\ emissionIntensity p = 0%float.
Proof.
  pose proof (kpi_guards idle_row) as (_ & Hs & He & Hi & _). cbv zeta.
  split; [ | split].
  - exact (proj1 (Hs eq_refl)).
  - exact (proj1 (He eq_refl)).
  - exact (proj1 (Hi eq_refl)).
Defined.

(** The SEC of a record, from the cells of its row. *)
Lemma sec_columns (raw : RawPlantData) :
  sec (processPlantData raw)
  = (let gasTotal :=
       safeFloat (get raw "Gas Consumption - Boiler (SCM)")
       + safeFloat (get raw "Gas Consumption - Furnace (SCM)")
       + safeFloat (get raw "Gas Consumption - GDU (SCM)")
       + safeFloat (get raw "Gas Consumption - Engine (SCM)")
       + safeFloat (get raw "Gas Consumption - Package Gas Compressor (SCM)") in
     let produced :=
       safeFloat (get raw "Gas Production (SCM)") * CONVERSIONS.SCM_TO_MMBTU
       + safeFloat (get raw "Oil Production (Barrels)") * CONVERSIONS.BARREL_TO_MMBTU_OIL in
     if 0 <? produced then gasTotal * CONVERSIONS.SCM_TO_MMBTU / produced else 0)%float.
Proof. reflexivity. Qed.

Lemma get_insert_ne (raw : RawPlantData) (key key' : string) (v : JSValue) :
  key <> key' -> get (<[key := v]> raw) key' = get raw key'.
Proof. intros H. unfold get. now rewrite lookup_insert_ne. Qed.

(** The SEC does not read a given column that is none of the seven it is
    made from. *)
Lemma sec_ignores (raw : RawPlantData) (key : string) (v : JSValue) :
  ~ In key ["Gas Consumption - Boiler (SCM)"; "Gas Consumption - Furnace (SCM)";
            "Gas Consumption - GDU (SCM)"; "Gas Consumption - Engine (SCM)";
            "Gas Consumption - Package Gas Compressor (SCM)";
            "Gas Production (SCM)"; "Oil Production (Barrels)"] ->
  sec (processPlantData (<[key := v]> raw)) = sec (processPlantData raw).
Proof.
  intros H. rewrite !sec_columns. cbv zeta.
  assert (Hget : forall k, In k ["Gas Consumption - Boiler (SCM)";
                                  "Gas Consumption - Furnace (SCM)";
                                  "Gas Consumption - GDU (SCM)";
                                  "Gas Consumption - Engine (SCM)";
                                  "Gas Consumption - Package Gas Compressor (SCM)";
                                  "Gas Production (SCM)"; "Oil Production (Barrels)"] ->
                     get (<[key := v]> raw) k = get raw k).
  { intros k Hk. apply get_insert_ne. now intros <-. }
  rewrite !Hget by (cbn; tauto). reflexivity.
Qed.

(** C3: for every row whose energy produced, the gas production times
    [SCM_TO_MMBTU] plus the oil production times [BARREL_TO_MMBTU_OIL], is
    above zero, the SEC of its record is the energy of the gas consumed, the
    sum of the five gas consumption cells times [SCM_TO_MMBTU], over the
    energy produced; the fields of the record that enter the formula are
    those values of the row; the diesel consumed does not enter: whatever is
    written in the two cells of the diesel consumption, the SEC is the
    same. *)
Theorem sec_formula (raw : RawPlantData) :
  let p := processPlantData raw in
  let gasTotal :=
    (safeFloat (get raw "Gas Consumption - Boiler (SCM)")
     + safeFloat (get raw "Gas Consumption - Furnace (SCM)")
     + safeFloat (get raw "Gas Consumption - GDU (SCM)")
     + safeFloat (get raw "Gas Consumption - Engine (SCM)")
     + safeFloat (get raw "Gas Consumption - Package Gas Compressor (SCM)"))%float in
  let gas := safeFloat (get raw "Gas Production (SCM)") in
  let oil := safeFloat (get raw "Oil Production (Barrels)") in
  let produced :=
    (gas * CONVERSIONS.SCM_TO_MMBTU + oil * CONVERSIONS.BARREL_TO_MMBTU_OIL)%float in
  (0 <? produced)%float = true ->
  sec p = (gasTotal * CONVERSIONS.SCM_TO_MMBTU / produced)%float
  /\ gasTotalInternal p = gasTotal
  /\ gasProduced p = gas
  /\ oilProduced p = oil
  /\ totalEnergyProducedMMBTU p = produced
  /\ sec p = (energyFromGasMMBTU p / totalEnergyProducedMMBTU p)%float
  /\ energyFromGasMMBTU p = (gasTotalInternal p * CONVERSIONS.SCM_TO_MMBTU)%float
  /\ totalEnergyProducedMMBTU p
     = (gasProduced p * CONVERSIONS.SCM_TO_MMBTU
        + oilProduced p * CONVERSIONS.BARREL_TO_MMBTU_OIL)%float
  /\ (forall v, sec (processPlantData (<["HSD Consumption - Pumps (KL)" := v]> raw)) = sec p)
  /\ (forall v, sec (processPlantData
                       (<["HSD Consumption - Emergency Diesel Gensets (KL)" := v]> raw))
                = sec p).
Proof.
  cbv zeta. intros Hpos.
  assert (Hsec := sec_columns raw). cbv zeta in Hsec. rewrite Hpos in Hsec.
  split; [exact Hsec | ]. do 4 (split; [reflexivity | ]).
  split; [exact Hsec | ]. do 2 (split; [reflexivity | ]).
  split; intros v; apply sec_ignores; cbn; intros H;
    repeat (destruct H as [H | H]; [discriminate H | ]); exact H.
Qed.

Lemma sec_formula_witness :
  (0 <? totalEnergyProducedMMBTU (processPlantData example_row))%float = true
  /\ sec (processPlantData example_row) = 0.5%float.
Proof.
  split; [reflexivity | ].
  destruct (sec_formula example_row eq_refl) as (Hsec & _).
  rewrite Hsec. reflexivity.
Defined.

(** ** Days and years *)

Lemma DayFromYear_succ (y : Z) : DayFromYear (y + 1) = DayFromYear y + DaysInYear y.
Proof.
  unfold DayFromYear, DaysInYear, is_leap.
  destruct (y mod 4 =? 0) eqn:E4; destruct (y mod 100 =? 0) eqn:E100;
    destruct (y mod 400 =? 0) eqn:E400; cbn [andb orb negb];
    rewrite ?Z.eqb_eq, ?Z.eqb_neq in *; Z.div_mod_to_equations; lia.
Qed.

Lemma DayFromYear_mono (y y' : Z) : y <= y' -> DayFromYear y <= DayFromYear y'.
Proof. unfold DayFromYear. intros H. Z.div_mod_to_equations. lia. Qed.

Lemma DayFromYear_next (y y' : Z) : y < y' -> DayFromYear y + DaysInYear y <= DayFromYear y'.
Proof.
  intros H. rewrite <- DayFromYear_succ. apply DayFromYear_mono. lia.
Qed.

(** [YearFromTime t] is the year whose days hold the day of [t]. *)
Lemma YearFromTime_spec (t : Z) :
  DayFromYear (YearFromTime t) <= Day t < DayFromYear (YearFromTime t + 1).
Proof.
  unfold YearFromTime. set (d := Day t). set (y := 1970 + 400 * d / 146097).
  assert (Hlo : DayFromYear (y - 1) <= d)
    by (unfold DayFromYear, y; Z.div_mod_to_equations; lia).
  assert (Hhi : d < DayFromYear (y + 2))
    by (unfold DayFromYear, y; Z.div_mod_to_equations; lia).
  destruct (Z.leb_spec (DayFromYear (y + 1)) d) as [H1 | H1].
  - replace (y + 1 + 1) with (y + 2) by lia. lia.
  - destruct (Z.leb_spec (DayFromYear y) d) as [H0 | H0].
    + lia.
    + replace (y - 1 + 1) with y by lia. lia.
Qed.

Lemma TimeClip_idem (t : intnum) : TimeClip (TimeClip t) = TimeClip t.
Proof.
  destruct t as [ | z]; [reflexivity | ]. cbn.
  destruct (Z.abs z <=? 8640000000000000) eqn:E; [ | reflexivity ]. cbn. now rewrite E.
Qed.

Lemma month_start_bounds (m l : Z) : 0 <= l <= 1 -> 0 <= m <= 11 -> 0 <= month_start m l <= 335.
Proof.
  intros Hl Hm.
  assert (H : m = 0 \/ m = 1 \/ m = 2 \/ m = 3 \/ m = 4 \/ m = 5 \/ m = 6 \/ m = 7
              \/ m = 8 \/ m = 9 \/ m = 10 \/ m = 11) by lia.
  repeat (destruct H as [-> | H]; [cbn; lia | ]). subst. cbn. lia.
Qed.

Lemma leap_day_bounds (y : Z) : 0 <= leap_day y <= 1.
Proof. unfold leap_day. destruct (is_leap y); lia. Qed.

(** [Date.UTC] of a year from 100 on, a month from 0 to 11 and a day that
    is not negative: midnight of that day, when that is a time value. *)
Lemma Date_UTC_midnight (y m d : Z) :
  100 <= y -> 0 <= m <= 11 -> 0 <= d ->
  Date_UTC (Int y) (Int m) (Int d) = TimeClip (Int (utc_midnight y m d)).
Proof.
  intros Hy Hm Hd. unfold Date_UTC, MakeFullYear, MakeDay, utc_midnight.
  replace ((0 <=? y) && (y <=? 99)) with false by (symmetry; apply andb_false_iff; lia).
  rewrite (Z.div_small m 12), (Z.mod_small m 12), Z.add_0_r by lia.
  pose proof (month_start_bounds m (leap_day y) (leap_day_bounds y) Hm) as Hs.
  set (first := DayFromYear y + month_start m (leap_day y)) in *.
  cbn [TimeClip]. destruct (Z.leb_spec (Z.abs (first * msPerDay)) 8640000000000000) as [Hin | Hout].
  - cbn [MakeDate]. now rewrite Z.add_0_r.
  - cbn [MakeDate TimeClip].
    assert (Hfirst : 100000002 <= first).
    { assert (Hlow : -684000 <= DayFromYear y)
        by (unfold DayFromYear; Z.div_mod_to_equations; lia).
      assert (H1 : 100000000 < first) by (unfold msPerDay in Hout; lia).
      destruct (Z.le_gt_cases y 275759) as [Hle | Hgt].
      - pose proof (DayFromYear_mono y 275759 Hle) as Hmono.
        change (DayFromYear 275759) with 99999379 in Hmono. lia.
      - destruct (Z.eq_dec y 275760) as [-> | Hne].
        + change (DayFromYear 275760) with 99999744 in first.
          change (leap_day 275760) with 1 in *. subst first.
          assert (H : m = 0 \/ m = 1 \/ m = 2 \/ m = 3 \/ m = 4 \/ m = 5 \/ m = 6 \/ m = 7
                      \/ m = 8 \/ m = 9 \/ m = 10 \/ m = 11) by lia.
          repeat (destruct H as [-> | H]; [cbn in *; lia | ]). subst. cbn in *. lia.
        + pose proof (DayFromYear_mono 275761 y ltac:(lia)) as Hmono.
          change (DayFromYear 275761) with 100000110 in Hmono. lia. }
    destruct (Z.leb_spec (Z.abs ((first + d - 1) * msPerDay)) 8640000000000000) as [Hin' | Hout'];
      [ unfold msPerDay in Hin'; lia | reflexivity ].
Qed.

(** ** Splitting and reading a date text *)

Lemma append_String (c : ascii) (a b : string) : String c a ++ b = String c (a ++ b).
Proof. reflexivity. Qed.

Lemma append_empty (b : string) : "" ++ b = b.
Proof. reflexivity. Qed.

Lemma split_lacks (sep : ascii) (a : string) : lacks sep a = true -> split sep a = [a].
Proof.
  induction a as [ | c a IH]; cbn [split lacks]; [reflexivity | ].
  rewrite andb_true_iff, negb_true_iff. intros [-> Ha]. now rewrite (IH Ha).
Qed.

Lemma split_app (sep : ascii) (a r : string) :
  lacks sep a = true -> split sep (a ++ String sep r) = a :: split sep r.
Proof.
  induction a as [ | c a IH]; rewrite ?append_empty, ?append_String; cbn [split lacks].
  - intros _. now rewrite Ascii.eqb_refl.
  - rewrite andb_true_iff, negb_true_iff. intros [-> Ha]. now rewrite (IH Ha).
Qed.

Lemma split_segments (sep : ascii) (s : string) :
  split sep s <> [] /\ Forall (fun segment => lacks sep segment = true) (split sep s).
Proof.
  induction s as [ | c s [IHne IH]]; cbn [split].
  - split; [discriminate | now repeat constructor].
  - destruct (Ascii.eqb c sep) eqn:E.
    + split; [discriminate | now constructor].
    + destruct (split sep s) as [ | segment segments]; [now contradiction IHne | ].
      split; [discriminate | ]. inversion IH; subst. constructor; [ | assumption].
      cbn [lacks]. now rewrite E.
Qed.

(** The key of a text of three segments. *)
Lemma parseDateString_parts (s a b c : string) :
  split "-" s = [a; b; c] ->
  parseDateString (JStr s)
  = Normal (TimeClip (Date_UTC (add (Int 2000) (parseInt c))
                        match months_get b with
                        | Undefined => Int 0
                        | p => property_number p
                        end
                        (parseInt a))).
Proof. intros H. unfold parseDateString. now rewrite H. Qed.


Lemma In_Zrange (lo : Z) (n : nat) (x : Z) :
  lo <= x < lo + Z.of_nat n -> In x (Zrange lo n).
Proof.
  intros H. unfold Zrange. apply in_map_iff. exists (Z.to_nat (x - lo)).
  split; [lia | ]. apply in_seq. lia.
Qed.

Lemma day_text_spec (d : Z) :
  1 <= d <= 31 -> lacks "-" (day_text d) = true /\ parseInt (day_text d) = Int d.
Proof.
  intros H.
  assert (T : forallb (fun d => lacks "-" (day_text d)
                                && intnum_eqb (parseInt (day_text d)) (Int d))
                (Zrange 1 31) = true) by (vm_compute; reflexivity).
  rewrite forallb_forall in T. specialize (T d (In_Zrange 1 31 d ltac:(lia))).
  apply andb_true_iff in T. destruct T as [T1 T2]. split; [assumption | ].
  destruct (parseInt (day_text d)) as [ | z]; [discriminate | ]. cbn in T2.
  apply Z.eqb_eq in T2. now subst.
Qed.

Lemma year_text_spec (y : Z) :
  2000 <= y <= 2099 -> lacks "-" (year_text y) = true /\ parseInt (year_text y) = Int (y - 2000).
Proof.
  intros H.
  assert (T : forallb (fun y => lacks "-" (year_text y)
                                && intnum_eqb (parseInt (year_text y)) (Int (y - 2000)))
                (Zrange 2000 100) = true) by (vm_compute; reflexivity).
  rewrite forallb_forall in T. specialize (T y (In_Zrange 2000 100 y ltac:(lia))).
  apply andb_true_iff in T. destruct T as [T1 T2]. split; [assumption | ].
  destruct (parseInt (year_text y)) as [ | z]; [discriminate | ]. cbn in T2.
  apply Z.eqb_eq in T2. now subst.
Qed.

Lemma month_short_spec (m : Z) :
  0 <= m <= 11 -> lacks "-" (month_short m) = true /\ months_get (month_short m) = Number m.
Proof.
  intros Hm.
  assert (H : m = 0 \/ m = 1 \/ m = 2 \/ m = 3 \/ m = 4 \/ m = 5 \/ m = 6 \/ m = 7
              \/ m = 8 \/ m = 9 \/ m = 10 \/ m = 11) by lia.
  repeat (destruct H as [-> | H]; [now split | ]). subst. now split.
Qed.

(** The key of the canonical text of a day is midnight UTC of that day. *)
Lemma parseDateString_canonical (y m d : Z) :
  2000 <= y <= 2099 -> 0 <= m <= 11 -> 1 <= d <= 31 ->
  parseDateString (JStr (DD_Mon_YY y m d)) = Normal (Int (utc_midnight y m d)).
Proof.
  intros Hy Hm Hd.
  destruct (day_text_spec d Hd) as [Ld Pd].
  destruct (month_short_spec m Hm) as [Lm Pm].
  destruct (year_text_spec y Hy) as [Ly Py].
  assert (Hs : split "-" (DD_Mon_YY y m d) = [day_text d; month_short m; year_text y]).
  { unfold DD_Mon_YY. fold (day_text d). fold (year_text y).
    rewrite !append_String, !append_empty.
    rewrite (split_app _ _ _ Ld). f_equal.
    rewrite (split_app _ _ _ Lm). f_equal. apply split_lacks, Ly. }
  rewrite (parseDateString_parts _ _ _ _ Hs), Pd, Pm, Py. cbn [add property_number].
  replace (2000 + (y - 2000)) with y by lia.
  rewrite Date_UTC_midnight, TimeClip_idem by lia. f_equal.
  pose proof (month_start_bounds m (leap_day y) (leap_day_bounds y) Hm) as Hs'.
  assert (Hlo : 10957 <= DayFromYear y <= 47117)
    by (unfold DayFromYear; Z.div_mod_to_equations; lia).
  unfold utc_midnight, TimeClip, msPerDay.
  destruct (Z.leb_spec (Z.abs ((DayFromYear y + month_start m (leap_day y) + d - 1) * 86400000))
              8640000000000000); [reflexivity | lia].
Qed.

(** ** The order of the keys *)

Lemma month_start_next (y m m' : Z) :
  0 <= m -> m < m' -> m' <= 11 ->
  month_start m (leap_day y) + days_in_month y m <= month_start m' (leap_day y).
Proof.
  intros H0 Hlt H11. pose proof (leap_day_bounds y) as Hl.
  assert (H : m = 0 \/ m = 1 \/ m = 2 \/ m = 3 \/ m = 4 \/ m = 5 \/ m = 6 \/ m = 7
              \/ m = 8 \/ m = 9 \/ m = 10) by lia.
  assert (H' : m' = 1 \/ m' = 2 \/ m' = 3 \/ m' = 4 \/ m' = 5 \/ m' = 6 \/ m' = 7
               \/ m' = 8 \/ m' = 9 \/ m' = 10 \/ m' = 11) by lia.
  repeat (destruct H as [-> | H]);
    try subst m; repeat (destruct H' as [-> | H']); try subst m';
    cbn [month_start days_in_month]; lia.
Qed.

Lemma month_start_last (y m : Z) :
  0 <= m <= 11 -> month_start m (leap_day y) + days_in_month y m <= DaysInYear y.
Proof.
  intros Hm. unfold DaysInYear, leap_day.
  assert (H : m = 0 \/ m = 1 \/ m = 2 \/ m = 3 \/ m = 4 \/ m = 5 \/ m = 6 \/ m = 7
              \/ m = 8 \/ m = 9 \/ m = 10 \/ m = 11) by lia.
  repeat (destruct H as [-> | H]); try subst m;
    cbn [month_start days_in_month]; unfold leap_day; destruct (is_leap y); lia.
Qed.

(** Midnight of an earlier day of the calendar is an earlier time. *)
Lemma utc_midnight_lt (y1 m1 d1 y2 m2 d2 : Z) :
  valid_date y1 m1 d1 -> valid_date y2 m2 d2 ->
  calendar_lt y1 m1 d1 y2 m2 d2 -> utc_midnight y1 m1 d1 < utc_midnight y2 m2 d2.
Proof.
  intros (Hy1 & Hm1 & Hd1) (Hy2 & Hm2 & Hd2) Hlt. unfold utc_midnight, msPerDay.
  apply Z.mul_lt_mono_pos_r; [lia | ].
  pose proof (month_start_bounds m2 _ (leap_day_bounds y2) Hm2) as Hs2.
  destruct Hlt as [Hy | (-> & [Hm | (-> & Hd)])].
  - pose proof (DayFromYear_next y1 y2 Hy) as Hn.
    pose proof (month_start_last y1 m1 Hm1) as Hl. lia.
  - pose proof (month_start_next y2 m1 m2 ltac:(lia) Hm ltac:(lia)) as Hn. lia.
  - lia.
Qed.

Lemma calendar_trichotomy (y1 m1 d1 y2 m2 d2 : Z) :
  calendar_lt y1 m1 d1 y2 m2 d2 \/ (y1 = y2 /\ m1 = m2 /\ d1 = d2)
  \/ calendar_lt y2 m2 d2 y1 m1 d1.
Proof. unfold calendar_lt. lia. Qed.

Lemma utc_midnight_lt_iff (y1 m1 d1 y2 m2 d2 : Z) :
  valid_date y1 m1 d1 -> valid_date y2 m2 d2 ->
  (calendar_lt y1 m1 d1 y2 m2 d2 <-> utc_midnight y1 m1 d1 < utc_midnight y2 m2 d2).
Proof.
  intros H1 H2. split; [now apply utc_midnight_lt | ]. intros Hlt.
  destruct (calendar_trichotomy y1 m1 d1 y2 m2 d2) as [H | [(-> & -> & ->) | H]].
  - assumption.
  - lia.
  - pose proof (utc_midnight_lt _ _ _ _ _ _ H2 H1 H). lia.
Qed.

Lemma valid_date_day (y m d : Z) : valid_date y m d -> 1 <= d <= 31.
Proof.
  intros (_ & Hm & Hd). pose proof (leap_day_bounds y) as Hl.
  assert (days_in_month y m <= 31); [ | lia]. unfold days_in_month.
  assert (H : m = 0 \/ m = 1 \/ m = 2 \/ m = 3 \/ m = 4 \/ m = 5 \/ m = 6 \/ m = 7
              \/ m = 8 \/ m = 9 \/ m = 10 \/ m = 11) by lia.
  repeat (destruct H as [-> | H]); try subst m; lia.
Qed.

Lemma date_key_canonical (y m d : Z) :
  valid_date y m d ->
  parseDateString (JStr (DD_Mon_YY y m d)) = Normal (Int (utc_midnight y m d))
  /\ date_key (JStr (DD_Mon_YY y m d)) = utc_midnight y m d.
Proof.
  intros H. pose proof (valid_date_day y m d H) as Hd. destruct H as (Hy & Hm & _).
  unfold date_key. now rewrite (parseDateString_canonical y m d Hy Hm Hd).
Qed.

Lemma utc_midnight_pos (y m d : Z) : valid_date y m d -> 0 < utc_midnight y m d.
Proof.
  intros H. pose proof (valid_date_day y m d H) as Hd. destruct H as (Hy & Hm & _).
  pose proof (month_start_bounds m (leap_day y) (leap_day_bounds y) Hm) as Hs.
  assert (Hlo : 10957 <= DayFromYear y) by (unfold DayFromYear; Z.div_mod_to_equations; lia).
  unfold utc_midnight, msPerDay. lia.
Qed.

(** ** Sorting by a key *)

Section SortByKey.

Variable comparefn : JSValue -> JSValue -> completion intnum.
Variable key : JSValue -> Z.
Variable P : JSValue -> Prop.
Hypothesis comparefn_key :
  forall x y, P x -> P y -> comparefn x y = Normal (Int (key x - key y)).
Hypothesis P_defined : forall x, P x -> is_undefined x = false.

Lemma insert_sorted (x : JSValue) (l : list JSValue) :
  P x -> Forall P l -> StronglySorted (ascending key) l ->
  exists l', insert comparefn x l = Normal l' /\ Permutation (x :: l) l'
             /\ StronglySorted (ascending key) l'.
Proof.
  intros Hx. induction l as [ | y l IH]; intros HP Hs.
  - exists [x]. repeat split; [reflexivity | ]. repeat constructor.
  - inversion HP as [ | ? ? Hy HPl]; subst. inversion Hs as [ | ? ? Hsl Hyl]; subst.
    cbn [insert]. rewrite (comparefn_key x y Hx Hy). cbn [mbind completion_bind before].
    destruct (Z.leb_spec (key x - key y) 0) as [Hle | Hgt].
    + exists (x :: y :: l). repeat split; [reflexivity | ].
      constructor; [assumption | ]. constructor; [unfold ascending; lia | ].
      eapply Forall_impl; [exact Hyl | ]. unfold ascending. intros a Ha. lia.
    + destruct (IH HPl Hsl) as (l' & -> & Hperm & Hs'). cbn [mbind completion_bind].
      exists (y :: l'). repeat split.
      * rewrite perm_swap. now constructor.
      * constructor; [assumption | ].
        eapply Permutation_Forall; [exact Hperm | ].
        constructor; [unfold ascending; lia | assumption].
Qed.

Lemma sort_items_sorted (l : list JSValue) :
  Forall P l ->
  exists l', sort_items comparefn l = Normal l' /\ Permutation l l'
             /\ StronglySorted (ascending key) l'.
Proof.
  induction l as [ | x l IH]; intros HP.
  - exists []. repeat split; [reflexivity | constructor].
  - inversion HP as [ | ? ? Hx HPl]; subst.
    destruct (IH HPl) as (l1 & H1 & Hperm1 & Hs1). cbn [sort_items]. rewrite H1.
    cbn [mbind completion_bind].
    destruct (insert_sorted x l1 Hx (Permutation_Forall Hperm1 HPl) Hs1)
      as (l2 & H2 & Hperm2 & Hs2).
    exists l2. repeat split; [assumption | | assumption].
    etransitivity; [ | exact Hperm2]. now constructor.
Qed.

Lemma filter_defined (l : list JSValue) :
  Forall P l ->
  List.filter (fun v => negb (is_undefined v)) l = l /\ List.filter is_undefined l = [].
Proof.
  induction l as [ | x l IH]; intros HP; [now split | ].
  inversion HP as [ | ? ? Hx HPl]; subst. destruct (IH HPl) as [IH1 IH2].
  cbn [List.filter]. rewrite (P_defined x Hx). cbn [negb]. now rewrite IH1, IH2.
Qed.

Lemma Array_sort_sorted (l : list JSValue) :
  Forall P l ->
  exists l', Array_sort comparefn l = Normal l' /\ Permutation l l'
             /\ StronglySorted (ascending key) l'.
Proof.
  intros HP. unfold Array_sort. destruct (filter_defined l HP) as [-> ->].
  destruct (sort_items_sorted l HP) as (l' & -> & Hperm & Hs).
  cbn [mbind completion_bind]. rewrite app_nil_r. now exists l'.
Qed.

End SortByKey.

(** ** The set of the dates *)


Lemma same_value_zero_text (s : string) (v : JSValue) :
  same_value_zero (JStr s) v = true <-> v = JStr s.
Proof.
  destruct v; cbn; try (split; [discriminate | intros H; discriminate H]).
  rewrite String.eqb_eq. split; [now intros -> | now intros [= ->]].
Qed.

Lemma existsb_same_value_zero (s : string) (seen : list JSValue) :
  existsb (same_value_zero (JStr s)) seen = true <-> In (JStr s) seen.
Proof.
  rewrite existsb_exists. split.
  - intros (v & Hin & Hv). apply same_value_zero_text in Hv. now subst.
  - intros Hin. exists (JStr s). split; [assumption | now apply same_value_zero_text].
Qed.

Lemma set_add_spec (l seen : list JSValue) :
  Forall is_text l ->
  List.NoDup (set_add seen l)
  /\ forall v, In v (set_add seen l) <-> In v l /\ ~ In v seen.
Proof.
  revert seen. induction l as [ | v l IH]; intros seen Ht.
  - split; [constructor | ]. intros v. cbn. tauto.
  - inversion Ht as [ | ? ? [s ->] Htl]; subst. cbn [set_add].
    destruct (existsb (same_value_zero (JStr s)) seen) eqn:E.
    + apply existsb_same_value_zero in E. destruct (IH seen Htl) as [Hnd Hin].
      split; [assumption | ]. intros v. rewrite Hin. cbn. split.
      * tauto.
      * intros [[<- | Hv] Hn]; [contradiction | tauto].
    + assert (Hn : ~ In (JStr s) seen).
      { intros Hin. apply existsb_same_value_zero in Hin. congruence. }
      destruct (IH (JStr s :: seen) Htl) as [Hnd Hin]. split.
      * constructor; [ | assumption]. rewrite Hin. cbn. tauto.
      * intros v. cbn [In]. rewrite Hin. cbn [In]. split.
        -- intros [<- | [Hv Hs]]; tauto.
        -- intros [[<- | Hv] Hs]; [tauto | ].
           destruct (proj1 (List.Forall_forall _ _) Htl v Hv) as [s' ->].
           destruct (String.eqb_spec s s') as [-> | Hne]; [tauto | ].
           right. split; [assumption | ]. intros [[= Heq] | Hin']; tauto.
Qed.

Lemma unique_spec (l : list JSValue) :
  Forall is_text l -> List.NoDup (unique l) /\ forall v, In v (unique l) <-> In v l.
Proof.
  intros H. destruct (set_add_spec l [] H) as [Hnd Hin]. split; [assumption | ].
  intros v. rewrite Hin. cbn. tauto.
Qed.

Lemma StronglySorted_strengthen {A : Type} (R R' : A -> A -> Prop) (l : list A) :
  (forall a b, In a l -> In b l -> a <> b -> R a b -> R' a b) ->
  List.NoDup l -> StronglySorted R l -> StronglySorted R' l.
Proof.
  induction l as [ | x l IH]; intros HR Hnd Hs; [constructor | ].
  inversion Hnd as [ | ? ? Hx Hnd']; subst. inversion Hs as [ | ? ? Hs' Hall]; subst.
  constructor.
  - apply IH; [ | assumption | assumption]. intros a b Ha Hb. apply HR; now right.
  - rewrite List.Forall_forall in *. intros b Hb. apply HR; [now left | now right | | auto].
    intros ->. contradiction.
Qed.

Lemma canonical_is_text (v : JSValue) : canonical_date v -> is_text v.
Proof. intros (y & m & d & _ & ->). now eexists. Qed.

Lemma compareDates_canonical (a b : JSValue) :
  canonical_date a -> canonical_date b ->
  compareDates a b = Normal (Int (date_key a - date_key b)).
Proof.
  intros (y1 & m1 & d1 & H1 & ->) (y2 & m2 & d2 & H2 & ->). unfold compareDates.
  destruct (date_key_canonical _ _ _ H1) as [P1 K1].
  destruct (date_key_canonical _ _ _ H2) as [P2 K2].
  rewrite P1, P2, K1, K2. reflexivity.
Qed.

Lemma canonical_chronological (a b : JSValue) :
  canonical_date a -> canonical_date b -> a <> b -> date_key a <= date_key b ->
  chronological a b.
Proof.
  intros (y1 & m1 & d1 & H1 & ->) (y2 & m2 & d2 & H2 & ->) Hne Hle.
  destruct (date_key_canonical _ _ _ H1) as [_ K1].
  destruct (date_key_canonical _ _ _ H2) as [_ K2].
  rewrite K1, K2 in Hle.
  exists y1, m1, d1, y2, m2, d2. repeat (split; [assumption || reflexivity | ]).
  destruct (calendar_trichotomy y1 m1 d1 y2 m2 d2) as [H | [(-> & -> & ->) | H]].
  - assumption.
  - now contradiction Hne.
  - pose proof (utc_midnight_lt _ _ _ _ _ _ H2 H1 H). lia.
Qed.

(** The dates of a dataset whose records all hold canonical dates come out
    of [availableDates] without repetition and in the order of the calendar. *)
Lemma availableDates_chronological (allData : list ProcessedPlantData) :
  Forall (fun p => canonical_date (date p)) allData ->
  exists dates,
    availableDates allData = Normal dates
    /\ StronglySorted chronological dates
    /\ forall v, In v dates <-> In v (map date allData).
Proof.
  intros Hc.
  assert (Hd : Forall canonical_date (map date allData)).
  { rewrite List.Forall_forall in *. intros v Hv. apply in_map_iff in Hv.
    destruct Hv as (p & <- & Hp). now apply Hc. }
  assert (Ht : Forall is_text (map date allData))
    by (eapply Forall_impl; [exact Hd | exact canonical_is_text]).
  destruct (unique_spec _ Ht) as [Hnd Hin].
  assert (Hu : Forall canonical_date (unique (map date allData))).
  { rewrite List.Forall_forall in *. intros v Hv. apply Hd. now apply Hin. }
  assert (Hdef : forall v, canonical_date v -> is_undefined v = false)
    by (intros v (y & m & d & _ & ->); reflexivity).
  destruct (Array_sort_sorted compareDates date_key canonical_date
              compareDates_canonical Hdef _ Hu) as (dates & Hsort & Hperm & Hs).
  exists dates. split; [exact Hsort | ]. split.
  - assert (Hcd : forall v, In v dates -> canonical_date v).
    { intros v Hv. apply (proj1 (List.Forall_forall _ _) Hu).
      eapply Permutation_in; [symmetry; exact Hperm | exact Hv]. }
    eapply StronglySorted_strengthen; [ | | exact Hs].
    + intros a b Ha Hb Hne Hle. apply canonical_chronological; auto.
    + eapply Permutation_NoDup; [exact Hperm | exact Hnd].
  - intros v. rewrite <- Hin. split; intros Hv.
    + eapply Permutation_in; [symmetry; exact Hperm | exact Hv].
    + eapply Permutation_in; [exact Hperm | exact Hv].
Qed.

(** C6: the keys of the canonical texts of two days of the calendar are in
    the order of the days, within a year and across years; so are those of
    the four dates of the specification; and the dates that
    [availableDates] returns are in the order of the calendar. *)
Theorem parseDateString_monotonic :
  (forall y1 m1 d1 y2 m2 d2,
     valid_date y1 m1 d1 -> valid_date y2 m2 d2 ->
     exists k1 k2,
       parseDateString (JStr (DD_Mon_YY y1 m1 d1)) = Normal (Int k1)
       /\ parseDateString (JStr (DD_Mon_YY y2 m2 d2)) = Normal (Int k2)
       /\ (calendar_lt y1 m1 d1 y2 m2 d2 <-> k1 < k2))
  /\ (exists k1 k2 k3 k4,
        parseDateString (JStr "01-Oct-25") = Normal (Int k1)
        /\ parseDateString (JStr "05-Oct-25") = Normal (Int k2)
        /\ parseDateString (JStr "01-Nov-25") = Normal (Int k3)
        /\ parseDateString (JStr "01-Oct-26") = Normal (Int k4)
        /\ k1 < k2 < k3 /\ k3 < k4)
  /\ (forall allData,
        Forall (fun p => canonical_date (date p)) allData ->
        exists dates,
          availableDates allData = Normal dates
          /\ StronglySorted chronological dates
          /\ forall v, In v dates <-> In v (map date allData)).
Proof.
  split; [ | split].
  - intros y1 m1 d1 y2 m2 d2 H1 H2.
    exists (utc_midnight y1 m1 d1), (utc_midnight y2 m2 d2).
    split; [apply date_key_canonical, H1 | ].
    split; [apply date_key_canonical, H2 | ].
    now apply utc_midnight_lt_iff.
  - exists 1759276800000, 1759622400000, 1761955200000, 1790812800000.
    repeat (split; [reflexivity | ]). lia.
  - exact availableDates_chronological.
Qed.

Lemma parseDateString_monotonic_witness :
  valid_date 2025 9 5 /\ valid_date 2026 0 1
  /\ DD_Mon_YY 2025 9 5 = "05-Oct-25" /\ DD_Mon_YY 2026 0 1 = "01-Jan-26"
  /\ exists k1 k2,
       parseDateString (JStr "05-Oct-25") = Normal (Int k1)
       /\ parseDateString (JStr "01-Jan-26") = Normal (Int k2)
       /\ (calendar_lt 2025 9 5 2026 0 1 <-> k1 < k2).
Proof.
  assert (H1 : valid_date 2025 9 5) by (unfold valid_date; cbn; lia).
  assert (H2 : valid_date 2026 0 1) by (unfold valid_date; cbn; lia).
  split; [exact H1 | ]. split; [exact H2 | ]. split; [reflexivity | ]. split; [reflexivity | ].
  exact (proj1 parseDateString_monotonic 2025 9 5 2026 0 1 H1 H2).
Defined.

(** ** Texts that are not dates *)

Lemma lacks_app (c : ascii) (a b : string) :
  lacks c (a ++ b) = lacks c a && lacks c b.
Proof.
  induction a as [ | x a IH]; [reflexivity | ].
  rewrite append_String. cbn [lacks]. now rewrite IH, andb_assoc.
Qed.

Lemma trim_start_suffix (s : string) : exists p, s = p ++ trim_start s.
Proof.
  remember (String.length s) as n eqn:Hn.
  revert s Hn. induction n as [n IH] using lt_wf_ind. intros s Hn.
  destruct s as [ | a r1]; [now exists "" | ]. cbn [trim_start].
  destruct (is_space a).
  { destruct (IH (String.length r1) ltac:(subst; cbn; lia) r1 eq_refl) as [p Hp].
    exists (String a p). rewrite append_String. now f_equal. }
  destruct r1 as [ | b r2]; [now exists "" | ].
  destruct (is_space2 a b).
  { destruct (IH (String.length r2) ltac:(subst; cbn; lia) r2 eq_refl) as [p Hp].
    exists (String a (String b p)). rewrite !append_String. now do 2 f_equal. }
  destruct r2 as [ | c r3]; [now exists "" | ].
  destruct (is_space3 a b c); [ | now exists ""].
  destruct (IH (String.length r3) ltac:(subst; cbn; lia) r3 eq_refl) as [p Hp].
  exists (String a (String b (String c p))). rewrite !append_String. now do 3 f_equal.
Qed.

Lemma trim_start_lacks (c : ascii) (s : string) :
  lacks c s = true -> lacks c (trim_start s) = true.
Proof.
  destruct (trim_start_suffix s) as [p Hp]. rewrite Hp at 1.
  rewrite lacks_app, andb_true_iff. tauto.
Qed.

Lemma digit_value_nonneg (c : ascii) : is_digit c = true -> 0 <= digit_value c.
Proof.
  unfold is_digit, digit_value. rewrite andb_true_iff, !N.leb_le. lia.
Qed.

Lemma digits_nonneg (s : string) (acc : Z) :
  0 <= acc -> acc <= fst (fst (digits acc s)).
Proof.
  revert acc. induction s as [ | c r IH]; intros acc Hacc; cbn [digits]; [cbn; lia | ].
  destruct (is_digit c) eqn:E; [ | cbn; lia].
  pose proof (digit_value_nonneg c E) as Hd.
  specialize (IH (10 * acc + digit_value c) ltac:(lia)).
  destruct (digits (10 * acc + digit_value c) r) as [[v n] rest]. cbn in *. lia.
Qed.

(** A text without a minus sign is read as no number, or as one that is not
    negative. *)
Lemma parseInt_nonneg (s : string) :
  lacks "-" s = true -> parseInt s = NonFinite \/ exists v, parseInt s = Int v /\ 0 <= v.
Proof.
  intros H. apply trim_start_lacks in H. unfold parseInt.
  assert (Hs : fst (sign (trim_start s)) = false).
  { destruct (trim_start s) as [ | c r]; [reflexivity | ]. cbn [lacks] in H.
    apply andb_true_iff in H. destruct H as [H _]. apply negb_true_iff in H.
    destruct (Ascii.eqb_spec c "-") as [-> | Hc]; [discriminate | ].
    destruct c as [[] [] [] [] [] [] [] []]; try reflexivity. now contradiction Hc. }
  destruct (sign (trim_start s)) as [neg r]. cbn in Hs. subst neg.
  pose proof (digits_nonneg r 0 ltac:(lia)) as Hd.
  destruct (digits 0 r) as [[v n] rest]. cbn in Hd.
  destruct n; [now left | right]. now exists v.
Qed.

Lemma months_get_cases (b : string) :
  (exists n, months_get b = Number n /\ In b (map fst months))
  \/ (months_get b = Inherited /\ In b object_prototype)
  \/ months_get b = Undefined.
Proof.
  unfold months_get. destruct (find _ months) as [[k n] | ] eqn:E.
  - left. exists n. split; [reflexivity | ]. apply find_some in E. destruct E as [Hin Heq].
    cbn [fst] in Heq. apply String.eqb_eq in Heq. subst. now apply (in_map fst) in Hin.
  - right. destruct (existsb (String.eqb b) object_prototype) eqn:E'; [left | now right].
    split; [reflexivity | ]. apply existsb_exists in E'. destruct E' as (x & Hin & Heq).
    apply String.eqb_eq in Heq. now subst.
Qed.

Lemma Date_UTC_NonFinite_month (year day : intnum) :
  Date_UTC year NonFinite day = NonFinite.
Proof.
  unfold Date_UTC, MakeDay. destruct (MakeFullYear year); reflexivity.
Qed.

Lemma Date_UTC_NonFinite_day (year month : intnum) :
  Date_UTC year month NonFinite = NonFinite.
Proof.
  unfold Date_UTC, MakeDay. destruct (MakeFullYear year), month; reflexivity.
Qed.

Lemma Date_UTC_NonFinite_year (month day : intnum) :
  Date_UTC NonFinite month day = NonFinite.
Proof. reflexivity. Qed.

(** C10 fails as stated: with a day that is not a number, or a middle
    segment that names a member every object inherits, the key of a text of
    three segments is [NaN], not the time of a day in January. *)
Lemma parseDateString_unknown_month_NaN :
  split "-" "xx-Foo-25" = ["xx"; "Foo"; "25"]
  /\ ~ In "Foo" (map fst months)
  /\ parseDateString (JStr "xx-Foo-25") = Normal NonFinite
  /\ split "-" "01-constructor-25" = ["01"; "constructor"; "25"]
  /\ ~ In "constructor" (map fst months)
  /\ parseDateString (JStr "01-constructor-25") = Normal NonFinite.
Proof.
  repeat split; try reflexivity.
  all: cbn; intros H; repeat (destruct H as [H | H]; [discriminate H | ]); exact H.
Qed.

(** C10, amended: for a text of three segments whose middle one is none of
    the twelve month names, the key is never the sentinel 0.  When the
    middle segment names no property of the table of months at all, and the
    day and the year are read as numbers, the month is taken as January:
    the key is midnight UTC of that day of January of the year 2000 plus
    the year read, a time above zero, or [NaN] beyond the range of time
    values.  When the day or the year is not read as a number the key is
    [NaN]. *)
Theorem parseDateString_unknown_month (s a b c : string) :
  split "-" s = [a; b; c] ->
  ~ In b (map fst months) ->
  parseDateString (JStr s) <> Normal (Int 0)
  /\ (months_get b = Undefined ->
      forall day yy, parseInt a = Int day -> parseInt c = Int yy ->
        parseDateString (JStr s) = Normal (TimeClip (Int (utc_midnight (2000 + yy) 0 day)))
        /\ 0 < utc_midnight (2000 + yy) 0 day)
  /\ (parseInt a = NonFinite \/ parseInt c = NonFinite ->
      parseDateString (JStr s) = Normal NonFinite).
Proof.
  intros Hs Hb. rewrite (parseDateString_parts s a b c Hs).
  pose proof (proj2 (split_segments "-" s)) as Hl. rewrite Hs in Hl.
  inversion Hl as [ | ? ? La Hl1]; subst. inversion Hl1 as [ | ? ? _ Hl2]; subst.
  inversion Hl2 as [ | ? ? Lc _]; subst.
  assert (Hjan : forall day yy, parseInt a = Int day -> parseInt c = Int yy ->
            Date_UTC (add (Int 2000) (parseInt c)) (Int 0) (parseInt a)
            = TimeClip (Int (utc_midnight (2000 + yy) 0 day))
            /\ 0 < utc_midnight (2000 + yy) 0 day).
  { intros day yy Ha Hc.
    destruct (parseInt_nonneg a La) as [Hn | (v & Hv & Hday)]; [congruence | ].
    destruct (parseInt_nonneg c Lc) as [Hn | (w & Hw & Hyy)]; [congruence | ].
    rewrite Ha in Hv. rewrite Hc in Hw. injection Hv as <-. injection Hw as <-.
    rewrite Ha, Hc. cbn [add]. split; [apply Date_UTC_midnight; lia | ].
    assert (Hlo : 10957 <= DayFromYear (2000 + yy))
      by (unfold DayFromYear; Z.div_mod_to_equations; lia).
    unfold utc_midnight, msPerDay. cbn [month_start]. lia. }
  assert (Hnan : months_get b = Inherited \/ parseInt a = NonFinite \/ parseInt c = NonFinite ->
            TimeClip (Date_UTC (add (Int 2000) (parseInt c))
                        match months_get b with
                        | Undefined => Int 0
                        | p => property_number p
                        end (parseInt a)) = NonFinite).
  { intros [-> | [-> | ->]].
    - cbn [property_number]. now rewrite Date_UTC_NonFinite_month.
    - now rewrite Date_UTC_NonFinite_day.
    - reflexivity. }
  split; [ | split].
  - destruct (months_get_cases b) as [(n & _ & Hin) | [[Hi _] | Hu]]; [contradiction | | ].
    + rewrite (Hnan (or_introl Hi)). discriminate.
    + assert (Hda : parseInt a = NonFinite \/ exists day, parseInt a = Int day)
        by (destruct (parseInt a); eauto).
      assert (Hdc : parseInt c = NonFinite \/ exists yy, parseInt c = Int yy)
        by (destruct (parseInt c); eauto).
      destruct Hda as [Ha | [day Ha]];
        [rewrite (Hnan (or_intror (or_introl Ha))); discriminate | ].
      destruct Hdc as [Hc | [yy Hc]];
        [rewrite (Hnan (or_intror (or_intror Hc))); discriminate | ].
      rewrite Hu.
      destruct (Hjan day yy Ha Hc) as [-> Hpos]. rewrite TimeClip_idem.
      cbn [TimeClip]. destruct (Z.abs _ <=? _); [ | discriminate].
      intros [= H0]. lia.
  - intros Hu day yy Ha Hc. rewrite Hu.
    destruct (Hjan day yy Ha Hc) as [-> Hpos]. now rewrite TimeClip_idem.
  - intros H. now rewrite (Hnan (or_intror H)).
Qed.

Lemma parseDateString_unknown_month_witness :
  split "-" "05-Okt-25" = ["05"; "Okt"; "25"]
  /\ parseDateString (JStr "05-Okt-25") = Normal (Int (utc_midnight 2025 0 5)).
Proof.
  split; [reflexivity | ].
  assert (Hb : ~ In "Okt" (map fst months)).
  { cbn. intros H. repeat (destruct H as [H | H]; [discriminate H | ]). exact H. }
  destruct (parseDateString_unknown_month "05-Okt-25" "05" "Okt" "25" eq_refl Hb)
    as (_ & Hjan & _).
  destruct (Hjan eq_refl 5 25 eq_refl eq_refl) as [-> _]. reflexivity.
Defined.

(** C7: a text that does not split into three segments has the key 0 (a
    value: nothing is raised), and the comparator puts it before every
    canonical date, whose key is above 0. *)
Theorem parseDateString_malformed (s : string) :
  length (split "-" s) <> 3%nat ->
  parseDateString (JStr s) = Normal (Int 0)
  /\ forall v, canonical_date v ->
       0 < date_key v
       /\ compareDates (JStr s) v = Normal (Int (0 - date_key v))
       /\ before (Int (0 - date_key v)) = true
       /\ compareDates v (JStr s) = Normal (Int (date_key v - 0))
       /\ before (Int (date_key v - 0)) = false.
Proof.
  intros H.
  assert (Hs : parseDateString (JStr s) = Normal (Int 0)).
  { unfold parseDateString. apply Nat.eqb_neq in H. now rewrite H. }
  split; [exact Hs | ]. intros v (y & m & d & Hv & ->).
  destruct (date_key_canonical _ _ _ Hv) as [P K]. pose proof (utc_midnight_pos _ _ _ Hv) as Hp.
  unfold compareDates. rewrite Hs, P, K. cbn [mbind completion_bind sub before].
  repeat split; try lia; try (apply Z.leb_le; lia); try (apply Z.leb_gt; lia).
Qed.

Lemma parseDateString_malformed_witness :
  length (split "-" "Unknown Date") = 1%nat
  /\ parseDateString (JStr "Unknown Date") = Normal (Int 0)
  /\ length (split "-" "2025-10-01T00:00-05:00") = 4%nat
  /\ parseDateString (JStr "2025-10-01T00:00-05:00") = Normal (Int 0).
Proof.
  assert (H1 : length (split "-" "Unknown Date") <> 3%nat)
    by (vm_compute; intros H; discriminate H).
  assert (H2 : length (split "-" "2025-10-01T00:00-05:00") <> 3%nat)
    by (vm_compute; intros H; discriminate H).
  split; [reflexivity | ].
  split; [exact (proj1 (parseDateString_malformed "Unknown Date" H1)) | ].
  split; [reflexivity | ].
  exact (proj1 (parseDateString_malformed "2025-10-01T00:00-05:00" H2)).
Defined.

(** ** The serial dates of [formatRow] *)

Lemma above_30000_truthy (serial : float) :
  (30000 <? serial)%float = true -> truthy (JNum serial) = true.
Proof.
  intros H. cbn [truthy]. rewrite (ltb_not_nan_r _ _ H), orb_false_r.
  apply negb_true_iff, not_true_is_false. unfold is_zero. intros Hz.
  apply ltb_rank in H. destruct H as (a & b & Ha & Hb & Hab).
  apply eqb_rank in Hz. destruct Hz as (z & Hs & Hz).
  rewrite Hb in Hs. injection Hs as ->.
  vm_compute in Ha, Hz. injection Ha as <-. injection Hz as <-. cbn in Hab. lia.
Qed.

Lemma moment_text_valid (tza : Z -> Z) (t : Z) :
  moment_text tza (Int t)
  = DD_Mon_YY (YearFromTime (LocalTime tza t)) (MonthFromTime (LocalTime tza t))
      (DateFromTime (LocalTime tza t)).
Proof. reflexivity. Qed.

Lemma formatRow_above (tza : Z -> Z) (row : RawPlantData) (serial : float) :
  get row "Date" = JNum serial -> (30000 <? serial)%float = true ->
  formatRow tza row = <["Date" := JStr (moment_text tza (serial_moment serial))]> row.
Proof.
  intros Hget Habove. unfold formatRow.
  now rewrite Hget, (above_30000_truthy serial Habove), Habove.
Qed.

(** C8: a [Date] cell that holds a number is rewritten only when the number
    is above 30000, the row being left as it is otherwise; the text written
    is that of the moment [round((serial - 25569) * 86400 * 1000)] plus
    twelve hours: day on two digits, short month, last two digits of the
    year. *)
Theorem formatRow_serial (tza : Z -> Z) (row : RawPlantData) (serial : float) :
  get row "Date" = JNum serial ->
  ((30000 <? serial)%float = true ->
     formatRow tza row = <["Date" := JStr (moment_text tza (serial_moment serial))]> row)
  /\ ((30000 <? serial)%float = false -> formatRow tza row = row)
  /\ (forall t, serial_moment serial = Int t ->
        moment_text tza (serial_moment serial)
        = DD_Mon_YY (YearFromTime (LocalTime tza t)) (MonthFromTime (LocalTime tza t))
            (DateFromTime (LocalTime tza t))).
Proof.
  intros Hget. split; [ | split].
  - now apply formatRow_above.
  - intros Hbelow. unfold formatRow. rewrite Hget, Hbelow.
    now destruct (truthy (JNum serial)).
  - intros t ->. apply moment_text_valid.
Qed.

Lemma formatRow_serial_witness :
  get (formatRow pst (serial_row 45901)) "Date" = JStr "01-Sep-25"
  /\ get (formatRow ist (serial_row 45901)) "Date" = JStr "01-Sep-25"
  /\ get (formatRow utc (serial_row 25569)) "Date" = JNum 25569.
Proof.
  split; [ | split].
  - destruct (formatRow_serial pst (serial_row 45901) 45901 eq_refl) as (H & _ & _).
    rewrite (H eq_refl). reflexivity.
  - destruct (formatRow_serial ist (serial_row 45901) 45901 eq_refl) as (H & _ & _).
    rewrite (H eq_refl). reflexivity.
  - destruct (formatRow_serial utc (serial_row 25569) 25569 eq_refl) as (_ & H & _).
    rewrite (H eq_refl). reflexivity.
Defined.

Lemma YearFromTime_Day (t t' : Z) : Day t = Day t' -> YearFromTime t = YearFromTime t'.
Proof. unfold YearFromTime. now intros ->. Qed.

Lemma MonthFromTime_Day (t t' : Z) : Day t = Day t' -> MonthFromTime t = MonthFromTime t'.
Proof.
  intros H. unfold MonthFromTime, DayWithinYear. now rewrite H, (YearFromTime_Day t t' H).
Qed.

Lemma DateFromTime_Day (t t' : Z) : Day t = Day t' -> DateFromTime t = DateFromTime t'.
Proof.
  intros H. unfold DateFromTime, DayWithinYear.
  now rewrite H, (YearFromTime_Day t t' H), (MonthFromTime_Day t t' H).
Qed.

(** The serial number 45901 is written as the first of September 2025 in
    every time zone less than twelve hours from UTC: the shift to noon keeps
    the day. *)
Lemma serial_45901_any_zone (tza : Z -> Z) :
  (forall t, - 43200000 <= tza t < 43200000) ->
  get (formatRow tza (serial_row 45901)) "Date" = JStr "01-Sep-25".
Proof.
  intros Hz.
  rewrite (formatRow_above tza (serial_row 45901) 45901 eq_refl eq_refl).
  unfold get. rewrite lookup_insert_eq. cbn [default]. f_equal.
  change (serial_moment 45901) with (Int 1756728000000). rewrite moment_text_valid.
  assert (Hd : Day (LocalTime tza 1756728000000) = Day 1756728000000).
  { unfold Day, LocalTime, msPerDay. specialize (Hz 1756728000000).
    Z.div_mod_to_equations. lia. }
  rewrite (YearFromTime_Day _ _ Hd), (MonthFromTime_Day _ _ Hd), (DateFromTime_Day _ _ Hd).
  reflexivity.
Qed.

(** The year, month and day of a time in the years 2000 to 2099 make a day
    of the calendar, whose midnight is the start of the day of that time. *)
Lemma civil_of_time (t : Z) :
  946684800000 <= t < 4102444800000 ->
  valid_date (YearFromTime t) (MonthFromTime t) (DateFromTime t)
  /\ utc_midnight (YearFromTime t) (MonthFromTime t) (DateFromTime t) = Day t * msPerDay.
Proof.
  intros Ht.
  assert (Hday : 10957 <= Day t < 47482)
    by (unfold Day, msPerDay; Z.div_mod_to_equations; lia).
  pose proof (YearFromTime_spec t) as Hy. rewrite DayFromYear_succ in Hy.
  assert (Hyear : 2000 <= YearFromTime t <= 2099).
  { split.
    - destruct (Z.le_gt_cases 2000 (YearFromTime t)) as [H | H]; [exact H | ].
      pose proof (DayFromYear_next (YearFromTime t) 2000 H) as Hn.
      change (DayFromYear 2000) with 10957 in Hn. lia.
    - destruct (Z.le_gt_cases (YearFromTime t) 2099) as [H | H]; [exact H | ].
      pose proof (DayFromYear_mono 2100 (YearFromTime t) ltac:(lia)) as Hn.
      change (DayFromYear 2100) with 47482 in Hn. lia. }
  unfold valid_date, utc_midnight, DateFromTime, MonthFromTime, DayWithinYear.
  set (y := YearFromTime t) in *.
  remember (Day t - DayFromYear y) as dwy eqn:Edwy.
  assert (Hdwy : 0 <= dwy < DaysInYear y) by lia.
  assert (Heq : Day t = DayFromYear y + dwy) by lia.
  unfold DaysInYear in Hdwy. unfold days_in_month, leap_day.
  destruct (is_leap y);
    repeat (match goal with
            | |- context [Z.ltb ?a ?b] => destruct (Z.ltb_spec a b)
            end; cbv iota);
    cbn [month_start]; lia.
Qed.

(** Round trip: the text that [formatRow] writes for a moment of the years
    2000 to 2099 of the local clock has the midnight UTC of that local day
    as its key. *)
Lemma moment_text_key (tza : Z -> Z) (t : Z) :
  946684800000 <= LocalTime tza t < 4102444800000 ->
  canonical_date (JStr (moment_text tza (Int t)))
  /\ parseDateString (JStr (moment_text tza (Int t)))
     = Normal (Int (Day (LocalTime tza t) * msPerDay)).
Proof.
  intros Ht. destruct (civil_of_time _ Ht) as [Hv Hk]. rewrite moment_text_valid.
  split; [do 3 eexists; split; [exact Hv | reflexivity] | ].
  destruct (date_key_canonical _ _ _ Hv) as [-> _]. now rewrite Hk.
Qed.

(** ** The SEC statistic *)

Lemma strict_eq_truthy (a b : JSValue) : strict_eq a b = true -> truthy a = truthy b.
Proof.
  destruct a, b; cbn [strict_eq truthy]; try discriminate; try reflexivity.
  - intros H. apply Bool.eqb_prop in H. now subst.
  - intros H. destruct (eqb_not_nan _ _ H) as [-> ->]. now rewrite (eqb_is_zero _ _ H).
  - intros H. apply String.eqb_eq in H. now subst.
Qed.

(** The date of a processed record is never a value that counts as false. *)
Lemma processPlantData_date_truthy (raw : RawPlantData) :
  truthy (date (processPlantData raw)) = true.
Proof.
  cbv beta zeta iota delta [processPlantData date]. unfold or_else.
  destruct (truthy (get raw "Date")) eqn:E; [exact E | reflexivity].
Qed.

(** The loop of [secStats] over records whose SEC is a number: the two it
    ends with are among those it started with and those it saw, and hold the
    SEC of all of them between theirs. *)
Lemma secStats_loop (l : list ProcessedPlantData) (mn mx : ProcessedPlantData) :
  Forall (fun d => is_nan (sec d) = false) l ->
  is_nan (sec mn) = false -> is_nan (sec mx) = false ->
  forall mn' mx', fold_left secStats_step l (mn, mx) = (mn', mx') ->
    (mn' = mn \/ In mn' l) /\ (mx' = mx \/ In mx' l)
    /\ (sec mn' <=? sec mn)%float = true /\ (sec mx <=? sec mx')%float = true
    /\ Forall (within mn' mx') l.
Proof.
  revert mn mx. induction l as [ | d l IH]; intros mn mx Hl Hmn Hmx mn' mx' Hfold.
  - cbn in Hfold. injection Hfold as <- <-.
    repeat split; auto using leb_refl.
  - inversion Hl as [ | ? ? Hd Hl']; subst. cbn [fold_left secStats_step] in Hfold.
    set (mn1 := if (sec d <? sec mn)%float then d else mn) in Hfold.
    set (mx1 := if (sec mx <? sec d)%float then d else mx) in Hfold.
    assert (Hmn1 : is_nan (sec mn1) = false) by (unfold mn1; now destruct (sec d <? sec mn)%float).
    assert (Hmx1 : is_nan (sec mx1) = false) by (unfold mx1; now destruct (sec mx <? sec d)%float).
    destruct (IH mn1 mx1 Hl' Hmn1 Hmx1 mn' mx' Hfold) as (Imn & Imx & Lmn & Lmx & Hall).
    assert (Amn : (mn1 = mn \/ mn1 = d) /\ (sec mn1 <=? sec mn)%float = true
                  /\ (sec mn1 <=? sec d)%float = true).
    { unfold mn1. destruct (sec d <? sec mn)%float eqn:E.
      - split; [now right | ]. split; [now apply ltb_leb | now apply leb_refl].
      - split; [now left | ]. split; [now apply leb_refl | now apply not_ltb_leb]. }
    assert (Amx : (mx1 = mx \/ mx1 = d) /\ (sec mx <=? sec mx1)%float = true
                  /\ (sec d <=? sec mx1)%float = true).
    { unfold mx1. destruct (sec mx <? sec d)%float eqn:E.
      - split; [now right | ]. split; [now apply ltb_leb | now apply leb_refl].
      - split; [now left | ]. split; [now apply leb_refl | now apply not_ltb_leb]. }
    destruct Amn as (Cmn & Lmn1 & Lmnd). destruct Amx as (Cmx & Lmx1 & Lmxd).
    split; [ | split; [ | split; [ | split] ] ].
    + destruct Imn as [-> | Hin]; [ | right; now right].
      destruct Cmn as [-> | ->]; [now left | right; now left].
    + destruct Imx as [-> | Hin]; [ | right; now right].
      destruct Cmx as [-> | ->]; [now left | right; now left].
    + eapply leb_trans; eassumption.
    + eapply leb_trans; eassumption.
    + constructor; [ | assumption]. split; eapply leb_trans; eassumption.
Qed.

(** The statistic of a dataset whose dates all count as true. *)
Lemma secStats_qualifying (allData : list ProcessedPlantData) (selectedDate : JSValue) :
  Forall (fun d => truthy (date d) = true) allData ->
  match secStats allData selectedDate with
  | None => forall d, ~ qualifies allData selectedDate d
  | Some (mn, mx) =>
      qualifies allData selectedDate mn /\ qualifies allData selectedDate mx
      /\ forall d, qualifies allData selectedDate d -> within mn mx d
  end.
Proof.
  intros Hdates. unfold secStats.
  destruct (truthy selectedDate) eqn:Hsel; cbn [negb].
  2: { intros d (Hin & _ & Heq). apply strict_eq_truthy in Heq.
       rewrite (proj1 (List.Forall_forall _ _) Hdates d Hin) in Heq. congruence. }
  set (f := fun d => (0 <? sec d)%float && strict_eq (date d) selectedDate).
  assert (Hq : forall d, In d (List.filter f allData) <-> qualifies allData selectedDate d).
  { intros d. rewrite filter_In. unfold f, qualifies. rewrite andb_true_iff. tauto. }
  destruct (List.filter f allData) as [ | first rest] eqn:Ef.
  - intros d Hd. apply Hq in Hd. contradiction.
  - destruct (fold_left secStats_step (first :: rest) (first, first)) as [mn mx] eqn:Efold.
    assert (Hnan : Forall (fun d => is_nan (sec d) = false) (first :: rest)).
    { apply List.Forall_forall. intros d Hd. apply Hq in Hd. destruct Hd as (_ & Hpos & _).
      exact (ltb_not_nan_r _ _ Hpos). }
    inversion Hnan as [ | ? ? Hfirst _]; subst.
    destruct (secStats_loop _ _ _ Hnan Hfirst Hfirst _ _ Efold) as (Imn & Imx & _ & _ & Hall).
    split; [ | split].
    + apply Hq. destruct Imn as [-> | Hin]; [now left | assumption].
    + apply Hq. destruct Imx as [-> | Hin]; [now left | assumption].
    + intros d Hd. apply Hq in Hd. exact (proj1 (List.Forall_forall _ _) Hall d Hd).
Qed.

(** C9: over the dataset that the records of any rows make, and for any
    selected date, [secStats] is [null] exactly when no record of that date
    has an SEC above zero; otherwise it returns two records of that date
    with an SEC above zero, and the SEC of every such record lies between
    theirs. *)
Theorem secStats_spec (rows : list RawPlantData) (selectedDate : JSValue) :
  let allData := map processPlantData rows in
  match secStats allData selectedDate with
  | None => forall d, ~ qualifies allData selectedDate d
  | Some (mn, mx) =>
      qualifies allData selectedDate mn /\ qualifies allData selectedDate mx
      /\ forall d, qualifies allData selectedDate d ->
           (sec mn <=? sec d)%float = true /\ (sec d <=? sec mx)%float = true
  end.
Proof.
  cbv zeta. apply secStats_qualifying. apply List.Forall_forall.
  intros d Hd. apply in_map_iff in Hd. destruct Hd as (raw & <- & _).
  apply processPlantData_date_truthy.
Qed.

(** ** The upload *)

Lemma autoSelect_allData (processed : list ProcessedPlantData) (st st' : AppState) :
  autoSelect processed st = Normal st' -> allData st' = allData st.
Proof.
  unfold autoSelect.
  destruct (Array_sort compareDates (unique (map date processed))) as [uniqueDates | ];
    cbn [mbind completion_bind]; [ | discriminate].
  intros [= <-]. now destruct (truthy _).
Qed.

(** C5 fails as stated: a file that is read but cannot be parsed comes
    back as an empty list of rows, and that list replaces the dataset that
    was active, without an alert. *)
Lemma handleFileUpload_parse_error_replaces :
  allData loaded_state <> []
  /\ allData (handleFileUpload utc (Some ParseError) loaded_state) = []
  /\ alerts (handleFileUpload utc (Some ParseError) loaded_state) = alerts loaded_state.
Proof. split; [discriminate | split; reflexivity]. Qed.

(** C5, amended: when the reader fails, the upload fails as a whole: one
    alert, the dataset and the selection as they were.  When the file
    cannot be parsed or nothing was loaded, the dataset becomes the empty
    one, the selection stays, and no alert is shown.  In every case the
    dataset afterwards is the previous one or the records of all the rows
    read, never a part of them. *)
Theorem handleFileUpload_failure (tza : Z -> Z) (st : AppState) :
  handleFileUpload tza (Some ReaderError) st = alert st
  /\ handleFileUpload tza (Some ParseError) st = setAllData [] st
  /\ handleFileUpload tza (Some NoResult) st = setAllData [] st
  /\ forall file,
       allData (handleFileUpload tza file st) = allData st
       \/ exists f raw,
            file = Some f /\ readDataFile tza f = Resolve raw
            /\ allData (handleFileUpload tza file st) = map processPlantData raw.
Proof.
  split; [reflexivity | ]. split; [reflexivity | ]. split; [reflexivity | ].
  intros [f | ]; [ | now left]. unfold handleFileUpload.
  destruct (readDataFile tza f) as [raw | ] eqn:Eread; [right | now left].
  exists f, raw. split; [reflexivity | ]. split; [exact Eread | ].
  set (st1 := setAllData (map processPlantData raw) st).
  destruct (0 <? length (map processPlantData raw))%nat; [ | reflexivity].
  destruct (autoSelect (map processPlantData raw) st1) as [st' | ] eqn:Esel; [ | reflexivity].
  now rewrite (autoSelect_allData _ _ _ Esel).
Qed.

(** On the date of the three plants the statistic names the plants B and A;
    on a date where only the plant without production reports, and on a
    date without records, it is [null]. *)
Example secStats_three_plants :
  option_map (fun '(mn, mx) => (plantName mn, sec mn, plantName mx, sec mx))
    (secStats (map processPlantData three_plants) (JStr "01-Oct-25"))
  = Some (JStr "B", 0.25%float, JStr "A", 0.5%float)
  /\ secStats (map processPlantData [plant_row "C" 100 0]) (JStr "01-Oct-25") = None
  /\ secStats (map processPlantData three_plants) (JStr "02-Oct-25") = None
  /\ secStats (map processPlantData three_plants) (JStr "") = None.
Proof. repeat split; reflexivity. Qed.

(** ** The text reader *)

Lemma split_short (sep : ascii) (s : string) :
  (length (split sep s) <? 2)%nat = lacks sep s.
Proof.
  induction s as [ | c s IH]; [reflexivity | ]. cbn [split lacks].
  destruct (Ascii.eqb c sep) eqn:E; cbn [negb andb].
  - destruct (split_segments sep s) as [Hne _].
    destruct (split sep s); [now contradiction Hne | reflexivity].
  - rewrite <- IH. destruct (split_segments sep s) as [Hne _].
    destruct (split sep s); [now contradiction Hne | reflexivity].
Qed.

Lemma parse_lines_spec (headers lines : list string) :
  parse_lines headers lines = map (csv_row headers) (List.filter has_comma lines).
Proof.
  induction lines as [ | line rest IH]; [reflexivity | ].
  cbn [parse_lines List.filter]. rewrite length_map, split_short. unfold has_comma.
  destruct (lacks "," line); cbn [negb]; [exact IH | ]. cbn [map]. now rewrite IH.
Qed.

Lemma parseCSV_spec (csvText : string) :
  parseCSV csvText
  = map (csv_row (csv_headers csvText)) (List.filter has_comma (tl (csv_lines csvText))).
Proof.
  unfold parseCSV. fold (csv_lines csvText). fold (csv_headers csvText).
  destruct (length (csv_lines csvText) <? 2)%nat eqn:E; [ | apply parse_lines_spec].
  destruct (csv_lines csvText) as [ | l1 [ | l2 rest]]; try reflexivity. discriminate.
Qed.

(** X1: the rows of [parseCSV] are those of the lines after the first that
    hold a comma, in their order; the first line only gives the headers, and
    a line without a comma, a blank one among them, gives no row. *)
Theorem parseCSV_rows (csvText : string) :
  parseCSV csvText
  = map (csv_row (csv_headers csvText)) (List.filter has_comma (tl (csv_lines csvText)))
  /\ (length (parseCSV csvText) <= length (csv_lines csvText) - 1)%nat
  /\ (lacks "010" (trim csvText) = true -> parseCSV csvText = []).
Proof.
  split; [apply parseCSV_spec | split].
  - rewrite parseCSV_spec, length_map.
    etransitivity; [apply List.filter_length_le | ].
    destruct (csv_lines csvText); cbn; lia.
  - intros H. rewrite parseCSV_spec. unfold csv_lines. now rewrite (split_lacks _ _ H).
Qed.

Lemma parseCSV_rows_witness :
  lacks "010" (trim "Plant Name,Date,Gas Flared (SCM)") = true
  /\ parseCSV "Plant Name,Date,Gas Flared (SCM)" = [].
Proof.
  split; [reflexivity | ].
  exact (proj2 (proj2 (parseCSV_rows "Plant Name,Date,Gas Flared (SCM)")) eq_refl).
Defined.

Lemma assign_lookup (row : RawPlantData) (key k : string) (v : JSValue) :
  assign row key v !! k
  = if String.eqb key "__proto__" then row !! k
    else if String.eqb key k then Some v else row !! k.
Proof.
  unfold assign. destruct (String.eqb key "__proto__"); [reflexivity | ].
  destruct (String.eqb_spec key k) as [-> | Hne].
  - apply lookup_insert_eq.
  - now apply lookup_insert_ne.
Qed.

Lemma fill_row_keys (values headers : list string) (index : nat) (row : RawPlantData)
    (key : string) :
  is_Some (fill_row values headers index row !! key)
  <-> is_Some (row !! key) \/ (In key headers /\ key <> "__proto__").
Proof.
  revert index row. induction headers as [ | header rest IH]; intros index row.
  - cbn. tauto.
  - cbn [fill_row In]. rewrite IH, assign_lookup.
    destruct (String.eqb_spec header "__proto__") as [-> | Hp].
    + split; [tauto | ]. intros [H | [[<- | H] Hk]]; tauto.
    + destruct (String.eqb_spec header key) as [-> | Hne].
      * split; [tauto | ]. intros _. left. eauto.
      * split; [tauto | ]. intros [H | [[H | H] Hk]]; tauto.
Qed.

Lemma parseCSV_In (csvText : string) (row : RawPlantData) :
  In row (parseCSV csvText) ->
  exists line, In line (tl (csv_lines csvText)) /\ has_comma line = true
               /\ row = csv_row (csv_headers csvText) line.
Proof.
  rewrite parseCSV_spec, in_map_iff. intros (line & <- & Hin).
  apply filter_In in Hin. destruct Hin as [Hin Hc]. now exists line.
Qed.

(** X2: every row of [parseCSV] has the headers of the first line as its
    keys, all of them and nothing else, however many values its own line
    holds; a header [__proto__] alone makes no key. *)
Theorem parseCSV_keys (csvText : string) (row : RawPlantData) (key : string) :
  In row (parseCSV csvText) ->
  (is_Some (row !! key) <-> In key (csv_headers csvText) /\ key <> "__proto__").
Proof.
  intros Hin. destruct (parseCSV_In _ _ Hin) as (line & _ & _ & ->).
  unfold csv_row. rewrite fill_row_keys, lookup_empty.
  split; [intros [[x Hx] | H]; [discriminate | exact H] | now right].
Qed.

Lemma sample_csv_row (line : string) :
  In line (List.filter has_comma (tl (csv_lines sample_csv))) ->
  In (csv_row (csv_headers sample_csv) line) (parseCSV sample_csv).
Proof. intros H. rewrite parseCSV_spec. now apply in_map. Qed.

Lemma parseCSV_keys_witness :
  exists row,
    In row (parseCSV sample_csv)
    /\ is_Some (row !! "Gas Production (SCM)") /\ ~ is_Some (row !! "Oil Production (Barrels)").
Proof.
  assert (Hin : In (csv_row (csv_headers sample_csv) "B,02-Oct-25") (parseCSV sample_csv))
    by (apply sample_csv_row; vm_compute; tauto).
  exists (csv_row (csv_headers sample_csv) "B,02-Oct-25"). split; [exact Hin | split].
  - apply (parseCSV_keys sample_csv _ "Gas Production (SCM)" Hin).
    split; [vm_compute; tauto | discriminate].
  - intros H. apply (parseCSV_keys sample_csv _ "Oil Production (Barrels)" Hin) in H.
    destruct H as [H _]. vm_compute in H.
    repeat (destruct H as [H | H]; [discriminate H | ]). exact H.
Defined.

Lemma fill_row_other (values headers : list string) (index : nat) (row : RawPlantData)
    (key : string) :
  ~ In key headers -> fill_row values headers index row !! key = row !! key.
Proof.
  revert index row. induction headers as [ | header rest IH]; intros index row Hk.
  - reflexivity.
  - cbn [fill_row]. rewrite IH by (intros H; apply Hk; now right).
    rewrite assign_lookup. destruct (String.eqb header "__proto__"); [reflexivity | ].
    destruct (String.eqb_spec header key) as [-> | Hne]; [ | reflexivity].
    contradiction Hk. now left.
Qed.

Lemma fill_row_lookup (values headers : list string) (index j : nat) (row : RawPlantData)
    (header : string) :
  List.NoDup headers -> nth_error headers j = Some header -> header <> "__proto__" ->
  fill_row values headers index row !! header
  = Some (cell header (nth (index + j) values "")).
Proof.
  revert index j row. induction headers as [ | h rest IH]; intros index j row Hnd Hj Hp.
  - destruct j; discriminate.
  - inversion Hnd as [ | ? ? Hh Hnd']; subst. cbn [fill_row]. destruct j as [ | j].
    + injection Hj as ->. rewrite fill_row_other by assumption.
      rewrite assign_lookup. apply String.eqb_neq in Hp. rewrite Hp, String.eqb_refl.
      now rewrite Nat.add_0_r.
    + cbn [nth_error] in Hj. rewrite (IH (S index) j _ Hnd' Hj Hp).
      now replace (S index + j)%nat with (index + S j)%nat by lia.
Qed.

(** X3: with headers that differ from one another, the cell of a row under
    the header at a position is made of the value at that position of the
    row's line, trimmed: the text itself under [Plant Name] and [Date], the
    number [safeFloat] reads under every other header.  A line with fewer
    values than headers gets the empty text, or 0, in the columns it lacks. *)
Theorem parseCSV_cells (csvText : string) (row : RawPlantData) :
  List.NoDup (csv_headers csvText) ->
  In row (parseCSV csvText) ->
  exists line,
    In line (tl (csv_lines csvText))
    /\ forall j header,
         nth_error (csv_headers csvText) j = Some header -> header <> "__proto__" ->
         get row header = cell header (trim (nth j (split "," line) ""))
         /\ ((length (split "," line) <= j)%nat ->
             get row header
             = if String.eqb header "Plant Name" || String.eqb header "Date"
               then JStr "" else JNum 0).
Proof.
  intros Hnd Hin. destruct (parseCSV_In _ _ Hin) as (line & Hline & _ & ->).
  exists line. split; [exact Hline | ]. intros j header Hj Hp.
  assert (Hget : get (csv_row (csv_headers csvText) line) header
                 = cell header (trim (nth j (split "," line) ""))).
  { assert (Hn : nth j (map trim (split "," line)) "" = trim (nth j (split "," line) ""))
      by exact (map_nth trim (split "," line) "" j).
    unfold get, csv_row. rewrite (fill_row_lookup _ _ 0 j _ _ Hnd Hj Hp).
    rewrite Nat.add_0_l, Hn. reflexivity. }
  split; [exact Hget | ]. intros Hshort. rewrite Hget, nth_overflow by exact Hshort.
  unfold cell. now destruct (String.eqb header "Plant Name" || String.eqb header "Date").
Qed.

Lemma parseCSV_cells_witness :
  exists row line,
    In row (parseCSV sample_csv)
    /\ In line (tl (csv_lines sample_csv))
    /\ get row "Gas Flared (SCM)"
       = cell "Gas Flared (SCM)" (trim (nth 2 (split "," line) "")).
Proof.
  assert (Hnd : List.NoDup (csv_headers sample_csv)).
  { vm_compute.
    repeat (constructor;
            [cbn; intros H; repeat (destruct H as [H | H]; [discriminate H | ]); exact H | ]).
    constructor. }
  assert (Hin : In (csv_row (csv_headers sample_csv) "A, 01-Oct-25 , 12.5,abc")
                  (parseCSV sample_csv))
    by (apply sample_csv_row; vm_compute; tauto).
  destruct (parseCSV_cells sample_csv _ Hnd Hin) as (line & Hline & Hcells).
  exists (csv_row (csv_headers sample_csv) "A, 01-Oct-25 , 12.5,abc"), line.
  split; [exact Hin | ]. split; [exact Hline | ].
  exact (proj1 (Hcells 2%nat "Gas Flared (SCM)" eq_refl ltac:(discriminate))).
Defined.

(** ** Numbers that are read are numbers *)

Lemma safeFloat_not_nan (v : JSValue) : not_NaN v -> is_nan (safeFloat v) = false.
Proof.
  destruct v; cbn [not_NaN safeFloat]; intros H; try exact H; cbv zeta;
    destruct (is_nan (parseFloat _)) eqn:E; (reflexivity || exact E).
Qed.

Lemma read_fields_safe (raw : RawPlantData) :
  (forall key, In key numeric_headers -> not_NaN (get raw key)) ->
  Forall (fun f => is_nan (f (processPlantData raw)) = false) read_fields.
Proof.
  intros H. unfold read_fields.
  repeat (constructor;
          [cbv beta zeta iota delta
             [processPlantData gasFlared gasBoiler gasFurnace gasGDU gasEngine
              gasCompressor elecGCS elecETP elecRefinery waterGCS waterRefinery
              elecGenerated hsdPumps hsdGensets hsdIssuedFire hsdIssuedPSA
              hsdIssuedOthers gasProduced oilProduced elecImported expectedEnergyMMBTU];
           apply safeFloat_not_nan, H; cbn; auto 30 | ]).
  constructor.
Qed.

(** X4: in a record made from a row that holds no number that is [NaN],
    none of the twenty-one quantities read from the row is [NaN]: a cell
    that is missing, blank or not numeric has become 0. *)
Theorem processPlantData_reads_numbers (raw : RawPlantData) :
  (forall key, In key numeric_headers -> not_NaN (get raw key)) ->
  Forall (fun f => is_nan (f (processPlantData raw)) = false) read_fields.
Proof. exact (read_fields_safe raw). Qed.

Lemma processPlantData_reads_numbers_witness :
  Forall (fun f => is_nan (f (processPlantData idle_row)) = false) read_fields.
Proof.
  apply processPlantData_reads_numbers. intros key Hkey. cbn in Hkey.
  repeat (destruct Hkey as [<- | Hkey]; [exact I || reflexivity | ]). contradiction.
Defined.

Lemma cell_not_NaN (header val : string) : not_NaN (cell header val).
Proof.
  unfold cell. destruct (String.eqb header "Plant Name" || String.eqb header "Date");
    [exact I | ]. cbn [not_NaN]. now apply safeFloat_not_nan.
Qed.

Lemma fill_row_not_NaN (values headers : list string) (index : nat) (row : RawPlantData) :
  (forall key, not_NaN (get row key)) ->
  forall key, not_NaN (get (fill_row values headers index row) key).
Proof.
  revert index row. induction headers as [ | header rest IH]; intros index row H key.
  - apply H.
  - cbn [fill_row]. apply IH. intros k. unfold get. rewrite assign_lookup.
    destruct (String.eqb header "__proto__"); [apply H | ].
    destruct (String.eqb header k); [apply cell_not_NaN | apply H].
Qed.

(** X5: a row of [parseCSV] holds texts and numbers that are not [NaN], so
    none of the quantities that [processPlantData] reads from it is [NaN]. *)
Theorem parseCSV_numbers (csvText : string) (row : RawPlantData) :
  In row (parseCSV csvText) ->
  (forall key v, row !! key = Some v ->
     (exists s, v = JStr s) \/ (exists x, v = JNum x /\ is_nan x = false))
  /\ Forall (fun f => is_nan (f (processPlantData row)) = false) read_fields.
Proof.
  intros Hin. destruct (parseCSV_In _ _ Hin) as (line & _ & _ & ->). split.
  - unfold csv_row. generalize (map trim (split "," line)) as values.
    generalize 0%nat as index. intros index values.
    assert (G : forall headers index (row : RawPlantData),
              (forall key v, row !! key = Some v ->
                 (exists s, v = JStr s) \/ (exists x, v = JNum x /\ is_nan x = false)) ->
              forall key v, fill_row values headers index row !! key = Some v ->
                (exists s, v = JStr s) \/ (exists x, v = JNum x /\ is_nan x = false)).
    { induction headers as [ | header rest IH]; intros i row H key v; [apply H | ].
      cbn [fill_row]. apply IH. intros k w. rewrite assign_lookup.
      destruct (String.eqb header "__proto__"); [apply H | ].
      destruct (String.eqb header k); [ | apply H]. intros [= <-]. unfold cell.
      destruct (String.eqb header "Plant Name" || String.eqb header "Date"); [eauto | ].
      right. eexists. split; [reflexivity | ]. now apply safeFloat_not_nan. }
    apply G. intros key v. rewrite lookup_empty. discriminate.
  - apply read_fields_safe. intros key _. unfold csv_row. apply fill_row_not_NaN.
    intros k. unfold get. now rewrite lookup_empty.
Qed.

Lemma parseCSV_numbers_witness :
  exists row,
    In row (parseCSV sample_csv)
    /\ Forall (fun f => is_nan (f (processPlantData row)) = false) read_fields.
Proof.
  assert (Hin : In (csv_row (csv_headers sample_csv) "A, 01-Oct-25 , 12.5,abc")
                  (parseCSV sample_csv))
    by (apply sample_csv_row; vm_compute; tauto).
  exists (csv_row (csv_headers sample_csv) "A, 01-Oct-25 , 12.5,abc").
  split; [exact Hin | ]. exact (proj2 (parseCSV_numbers sample_csv _ Hin)).
Defined.

(** ** The rows after [formatRow] *)

Lemma formatRow_cases (tza : Z -> Z) (row : RawPlantData) :
  formatRow tza row = row
  \/ exists s, is_Some (row !! "Date") /\ formatRow tza row = <["Date" := JStr s]> row.
Proof.
  unfold formatRow, get.
  destruct (row !! "Date") as [v | ] eqn:E; [ | now left].
  change (default JUndefined (Some v)) with v.
  destruct (truthy v); [ | now left].
  destruct v; try (now left).
  - destruct (30000 <? x)%float; [right | now left]. eauto.
  - right. eauto.
Qed.

(** X6: [formatRow] touches the [Date] cell only: every other cell is as
    it was, and the row has the keys it had. *)
Theorem formatRow_other_cells (tza : Z -> Z) (row : RawPlantData) (key : string) :
  (key <> "Date" -> formatRow tza row !! key = row !! key)
  /\ (is_Some (formatRow tza row !! key) <-> is_Some (row !! key)).
Proof.
  destruct (formatRow_cases tza row) as [-> | (s & Hd & ->)]; [tauto | ]. split.
  - intros Hk. now apply lookup_insert_ne.
  - destruct (String.eqb_spec "Date" key) as [<- | Hne].
    + rewrite lookup_insert_eq. split; [intros _; exact Hd | eauto].
    + now rewrite lookup_insert_ne.
Qed.

Lemma formatRow_other_cells_witness :
  formatRow pst dated_row !! "Gas Flared (SCM)" = Some (JNum 7).
Proof.
  rewrite (proj1 (formatRow_other_cells pst dated_row "Gas Flared (SCM)") ltac:(discriminate)).
  reflexivity.
Defined.

Lemma formatRow_text (tza : Z -> Z) (row : RawPlantData) (s : string) :
  get row "Date" = JStr s -> formatRow tza row = row.
Proof. intros H. unfold formatRow. rewrite H. now destruct (truthy (JStr s)). Qed.

(** X7: [formatRow] is idempotent, and the [Date] cell it leaves is never
    a [Date] object. *)
Theorem formatRow_idempotent (tza : Z -> Z) (row : RawPlantData) :
  formatRow tza (formatRow tza row) = formatRow tza row
  /\ forall r tv, get (formatRow tza row) "Date" <> JDate r tv.
Proof.
  assert (H : (exists s, get (formatRow tza row) "Date" = JStr s)
              \/ (formatRow tza row = row /\ forall r tv, get row "Date" <> JDate r tv)).
  { unfold formatRow. destruct (get row "Date") as [ | | b | x | s | r tv] eqn:E;
      cbn [truthy]; try (right; split; [reflexivity | intros; congruence]).
    - destruct b; right; (split; [reflexivity | intros; congruence]).
    - destruct (negb (is_zero x || is_nan x));
        [ | right; split; [reflexivity | intros; congruence] ].
      destruct (30000 <? x)%float;
        [ | right; split; [reflexivity | intros; congruence] ].
      left. eexists. unfold get. rewrite lookup_insert_eq. reflexivity.
    - destruct (negb (s =? "")%string); right; (split; [reflexivity | intros; congruence]).
    - left. eexists. unfold get. rewrite lookup_insert_eq. reflexivity. }
  destruct H as [[s Hs] | [Heq Hno]].
  - split; [now apply (formatRow_text tza _ s) | ]. intros r tv. rewrite Hs. discriminate.
  - rewrite !Heq. split; [reflexivity | exact Hno].
Qed.

Lemma Day_noon (tza : Z -> Z) (t : Z) :
  t mod msPerDay = 0 ->
  (forall u, - 43200000 <= tza u < 43200000) ->
  Day (LocalTime tza (t + 43200000)) = Day t.
Proof.
  intros Hmid Hz. unfold Day, LocalTime, msPerDay in *. specialize (Hz (t + 43200000)).
  Z.div_mod_to_equations. lia.
Qed.

(** X8: a [Date] object that stands at midnight UTC of a day is written as
    the text of that very day in every time zone less than twelve hours
    away from UTC: the shift to noon keeps the day. *)
Theorem formatRow_date_object (tza : Z -> Z) (row : RawPlantData) (r : positive) (t : Z) :
  get row "Date" = JDate r (Int t) ->
  t mod msPerDay = 0 ->
  Z.abs (t + 43200000) <= 8640000000000000 ->
  (forall u, - 43200000 <= tza u < 43200000) ->
  formatRow tza row
  = <["Date" := JStr (DD_Mon_YY (YearFromTime t) (MonthFromTime t) (DateFromTime t))]> row.
Proof.
  intros Hget Hmid Hrange Hz. unfold formatRow. rewrite Hget. cbn [truthy add].
  change (12 * 60 * 60 * 1000) with 43200000. cbn [TimeClip].
  apply Z.leb_le in Hrange. rewrite Hrange.
  cbn [getDate getFullYear toLocaleString_month_short].
  pose proof (Day_noon tza t Hmid Hz) as Hd.
  rewrite (YearFromTime_Day _ _ Hd), (MonthFromTime_Day _ _ Hd), (DateFromTime_Day _ _ Hd).
  reflexivity.
Qed.

Lemma formatRow_date_object_witness :
  get (formatRow pst dated_row) "Date" = JStr "01-Oct-25"
  /\ get (formatRow ist dated_row) "Date" = JStr "01-Oct-25".
Proof.
  split.
  - rewrite (formatRow_date_object pst dated_row 1 1759276800000 eq_refl eq_refl
               ltac:(vm_compute; discriminate) ltac:(intros u; unfold pst; lia)).
    reflexivity.
  - rewrite (formatRow_date_object ist dated_row 1 1759276800000 eq_refl eq_refl
               ltac:(vm_compute; discriminate) ltac:(intros u; unfold ist; lia)).
    reflexivity.
Defined.

Lemma append_not_empty (a b d : string) (c : ascii) :
  truthy (JStr (a ++ String c b ++ d)) = true.
Proof. now destruct a. Qed.

(** X9: end to end for a [Date] cell that is a [Date] object whose local
    day, after the shift to noon, falls in the years 2000 to 2099: the date
    of the record made from the formatted row is a canonical text, and its
    sort key is midnight UTC of that local day. *)
Theorem date_object_key (tza : Z -> Z) (row : RawPlantData) (r : positive) (t : Z) :
  get row "Date" = JDate r (Int t) ->
  Z.abs (t + 43200000) <= 8640000000000000 ->
  946684800000 <= LocalTime tza (t + 43200000) < 4102444800000 ->
  let day := date (processPlantData (formatRow tza row)) in
  canonical_date day
  /\ parseDateString day = Normal (Int (Day (LocalTime tza (t + 43200000)) * msPerDay)).
Proof.
  intros Hget Hrange Hlocal. cbv zeta.
  assert (Hday : date (processPlantData (formatRow tza row))
                 = JStr (moment_text tza (Int (t + 43200000)))).
  { cbv beta zeta iota delta [processPlantData date]. unfold formatRow. rewrite Hget.
    cbn [truthy add]. change (12 * 60 * 60 * 1000) with 43200000. cbn [TimeClip].
    apply Z.leb_le in Hrange. rewrite Hrange. unfold get at 1. rewrite lookup_insert_eq.
    cbn [default]. unfold or_else.
    unfold id. now rewrite append_not_empty. }
  rewrite Hday. exact (moment_text_key tza (t + 43200000) Hlocal).
Qed.

Lemma date_object_key_witness :
  parseDateString (date (processPlantData (formatRow pst dated_row)))
  = Normal (Int 1759276800000).
Proof.
  exact (proj2 (date_object_key pst dated_row 1 1759276800000 eq_refl
                  ltac:(vm_compute; discriminate) ltac:(unfold LocalTime, pst; lia))).
Defined.

(** ** Records of rows *)

Lemma get_formatRow (tza : Z -> Z) (row : RawPlantData) (key : string) :
  key <> "Date" -> get (formatRow tza row) key = get row key.
Proof.
  intros H. unfold get.
  destruct (formatRow_cases tza row) as [-> | (s & _ & ->)]; [reflexivity | ].
  now rewrite lookup_insert_ne.
Qed.

(** X10: normalizing the date of a row changes nothing else of its record:
    the record of [formatRow tza row] is the record of [row] with the date
    read from the new [Date] cell. *)
Theorem processPlantData_formatRow (tza : Z -> Z) (row : RawPlantData) :
  processPlantData (formatRow tza row)
  = with_identity (plantName (processPlantData row))
      (or_else (get (formatRow tza row) "Date") (JStr "Unknown Date"))
      (processPlantData row).
Proof.
  unfold processPlantData at 1.
  repeat match goal with
         | |- context [get (formatRow tza row) ?k] =>
             rewrite (get_formatRow tza row k) by discriminate
         end.
  reflexivity.
Qed.

(** X11: the plant name and the date of a record are never a value that
    counts as false: a cell that is missing, empty, 0 or [NaN] gives the
    label [Unknown Plant] or [Unknown Date], any other cell is kept. *)
Theorem processPlantData_identity (raw : RawPlantData) :
  let p := processPlantData raw in
  truthy (plantName p) = true /\ truthy (date p) = true
  /\ plantName p = (if truthy (get raw "Plant Name") then get raw "Plant Name"
                    else JStr "Unknown Plant")
  /\ date p = (if truthy (get raw "Date") then get raw "Date" else JStr "Unknown Date").
Proof.
  cbv beta zeta iota delta [processPlantData plantName date]. unfold or_else.
  destruct (truthy (get raw "Plant Name")) eqn:E1, (truthy (get raw "Date")) eqn:E2;
    repeat split; assumption || reflexivity.
Qed.

(** X12: a row in which no numeric column holds a usable number gives the
    blank record under its own plant name and date: every quantity, every
    energy, every emission and every KPI is 0. *)
Theorem processPlantData_no_numbers (raw : RawPlantData) :
  (forall key, In key numeric_headers -> safeFloat (get raw key) = 0%float) ->
  processPlantData raw
  = with_identity (plantName (processPlantData raw)) (date (processPlantData raw))
      getBlankPlantData.
Proof.
  intros H. unfold processPlantData.
  repeat match goal with
         | |- context [safeFloat (get raw ?k)] =>
             rewrite (H k) by (cbn; auto 30)
         end.
  reflexivity.
Qed.

Lemma processPlantData_no_numbers_witness :
  let raw : RawPlantData :=
    <["Plant Name" := JStr "A"]> (<["Gas Flared (SCM)" := JStr "n/a"]> ∅) in
  processPlantData raw = with_identity (JStr "A") (JStr "Unknown Date") getBlankPlantData.
Proof.
  cbv zeta. rewrite processPlantData_no_numbers; [reflexivity | ].
  intros key Hkey. cbn in Hkey.
  repeat (destruct Hkey as [<- | Hkey]; [reflexivity | ]). contradiction.
Defined.

(** ** The views of a dataset *)

Lemma strict_eq_refl (v : JSValue) : truthy v = true -> strict_eq v v = true.
Proof.
  destruct v; cbn [truthy strict_eq]; try reflexivity; try discriminate.
  - intros _. apply Bool.eqb_reflx.
  - rewrite negb_true_iff, orb_false_iff. intros [_ Hn]. unfold is_nan in Hn.
    now apply negb_false_iff in Hn.
  - intros _. apply String.eqb_refl.
  - intros _. apply Pos.eqb_refl.
Qed.

Lemma find_first {A : Type} (f : A -> bool) (l : list A) (x : A) :
  find f l = Some x ->
  exists l1 l2, l = (l1 ++ x :: l2)%list /\ f x = true /\ forall y, In y l1 -> f y = false.
Proof.
  induction l as [ | a l IH]; [discriminate | ]. cbn [find].
  destruct (f a) eqn:E.
  - intros [= ->]. exists [], l. repeat split; [assumption | intros y []].
  - intros H. destruct (IH H) as (l1 & l2 & -> & Hx & Hl1).
    exists (a :: l1), l2. repeat split; [assumption | ].
    intros y [<- | Hy]; [assumption | now apply Hl1].
Qed.

Lemma processed_truthy (rows : list RawPlantData) (d : ProcessedPlantData) :
  In d (map processPlantData rows) ->
  truthy (plantName d) = true /\ truthy (date d) = true.
Proof.
  intros H. apply in_map_iff in H. destruct H as (raw & <- & _).
  cbv beta zeta iota delta [processPlantData plantName date]. unfold or_else.
  split.
  - destruct (truthy (get raw "Plant Name")) eqn:E; [exact E | reflexivity].
  - destruct (truthy (get raw "Date")) eqn:E; [exact E | reflexivity].
Qed.

Lemma currentPlantData_cases (allData : list ProcessedPlantData) (sel name : JSValue) :
  let found := currentPlantData allData sel name in
  (found = getBlankPlantData /\ forall d, In d allData -> matches sel name d = false)
  \/ (exists before after,
        allData = (before ++ found :: after)%list
        /\ matches sel name found = true
        /\ forall d, In d before -> matches sel name d = false).
Proof.
  cbv zeta. unfold currentPlantData. fold (matches sel name).
  destruct (find (matches sel name) allData) as [found | ] eqn:E.
  - right. now apply find_first.
  - left. split; [reflexivity | ]. intros d Hd. exact (find_none _ _ E d Hd).
Qed.

(** X13: the record shown for a selection is the first record of the
    dataset with that date and that plant name, and the blank record when
    the dataset has none. *)
Theorem currentPlantData_first (allData : list ProcessedPlantData)
    (selectedDate selectedPlantName : JSValue) :
  let found := currentPlantData allData selectedDate selectedPlantName in
  (found = getBlankPlantData
   /\ forall d, In d allData -> matches selectedDate selectedPlantName d = false)
  \/ (exists before after,
        allData = (before ++ found :: after)%list
        /\ matches selectedDate selectedPlantName found = true
        /\ forall d, In d before -> matches selectedDate selectedPlantName d = false).
Proof. exact (currentPlantData_cases allData selectedDate selectedPlantName). Qed.

Lemma currentPlantData_found (allData : list ProcessedPlantData) (sel name : JSValue)
    (d : ProcessedPlantData) :
  In d allData -> matches sel name d = true ->
  let found := currentPlantData allData sel name in
  In found allData /\ matches sel name found = true.
Proof.
  intros Hd Hm. cbv zeta. unfold currentPlantData. fold (matches sel name).
  destruct (find (matches sel name) allData) as [found | ] eqn:E.
  - apply find_some in E. exact E.
  - rewrite (find_none _ _ E d Hd) in Hm. discriminate.
Qed.

(** X14: over the records of any rows, the plants listed for a date are
    the plant names of the records of that date, and looking up any plant
    that is listed gives a record of the dataset with that date and that
    name, never the blank one's labels. *)
Theorem availablePlants_lookup (rows : list RawPlantData) (selectedDate : JSValue) :
  let allData := map processPlantData rows in
  (forall name,
     In name (availablePlants allData selectedDate)
     <-> exists d, In d allData /\ strict_eq (date d) selectedDate = true
                   /\ plantName d = name)
  /\ (forall name,
        In name (availablePlants allData selectedDate) ->
        let found := currentPlantData allData selectedDate name in
        In found allData
        /\ strict_eq (date found) selectedDate = true
        /\ strict_eq (plantName found) name = true).
Proof.
  cbv zeta. set (allData := map processPlantData rows).
  assert (Hlist : forall name,
            In name (availablePlants allData selectedDate)
            <-> exists d, In d allData /\ strict_eq (date d) selectedDate = true
                          /\ plantName d = name).
  { intros name. unfold availablePlants.
    destruct (truthy selectedDate) eqn:Hsel; cbn [negb].
    - rewrite in_map_iff. split.
      + intros (d & <- & Hd). apply filter_In in Hd. destruct Hd as [Hd Hm]. eauto.
      + intros (d & Hd & Hm & <-). exists d. split; [reflexivity | ].
        apply filter_In. now split.
    - split; [intros [] | ]. intros (d & Hd & Hm & _).
      apply strict_eq_truthy in Hm. destruct (processed_truthy rows d Hd) as [_ Ht].
      congruence. }
  split; [exact Hlist | ]. intros name Hname. apply Hlist in Hname.
  destruct Hname as (d & Hd & Hm & <-).
  destruct (processed_truthy rows d Hd) as [Hn _].
  destruct (currentPlantData_found allData selectedDate (plantName d) d Hd) as [Hin Hf].
  { unfold matches. now rewrite Hm, (strict_eq_refl _ Hn). }
  cbv zeta in *. unfold matches in Hf. apply andb_true_iff in Hf. tauto.
Qed.

Lemma no_plant_blank (rows : list RawPlantData) (sel : JSValue) :
  currentPlantData (map processPlantData rows) sel (JStr "") = getBlankPlantData.
Proof.
  unfold currentPlantData.
  destruct (find _ (map processPlantData rows)) as [found | ] eqn:E; [ | reflexivity].
  apply find_some in E. destruct E as [Hin Hm].
  apply andb_true_iff in Hm. destruct Hm as [_ Hm].
  apply strict_eq_truthy in Hm. destruct (processed_truthy rows found Hin) as [Ht _].
  rewrite Ht in Hm. discriminate.
Qed.

(** X15: over the records of any rows, choosing a date in the list clears
    the plant, so that the record shown is the blank one and no analysis
    can be asked for, until a plant is chosen. *)
Theorem handleDateChange_blank (rows : list RawPlantData) (value : string)
    (selectedDate0 selectedPlantName0 : JSValue) :
  let st := handleDateChange value (state_of rows selectedDate0 selectedPlantName0) in
  allData st = map processPlantData rows
  /\ selectedDate st = JStr value
  /\ selectedPlantName st = JStr ""
  /\ currentPlantData (allData st) (selectedDate st) (selectedPlantName st)
     = getBlankPlantData
  /\ analysisRequest st = None.
Proof.
  cbv zeta. split; [reflexivity | ]. split; [reflexivity | ]. split; [reflexivity | ].
  split; [apply no_plant_blank | ].
  unfold analysisRequest. cbn [handleDateChange state_of allData selectedDate
    selectedPlantName setSelectedPlantName setSelectedDate].
  now rewrite no_plant_blank.
Qed.

(** A plant of the sheet that is named [Select Plant] is shown when it is
    selected, with its own figures, and no analysis is asked for it. *)
Lemma analysisRequest_named_select_plant :
  let row : RawPlantData := <["Plant Name" := JStr "Select Plant"]> example_row in
  let st := state_of [row] (JStr "01-Oct-25") (JStr "Select Plant") in
  let shown := currentPlantData (allData st) (selectedDate st) (selectedPlantName st) in
  shown = processPlantData row
  /\ shown <> getBlankPlantData
  /\ analysisRequest st = None.
Proof.
  cbv zeta. split; [reflexivity | ]. split; [ | reflexivity].
  intros H. apply (f_equal date) in H. discriminate H.
Qed.

(** X16: over the records of any rows and for any selection, no analysis is
    asked for exactly when the record shown is named [Select Plant]: so none
    for the blank record, and none either for a record of the dataset whose
    plant has that name. When an analysis is asked for, the record passed is
    the record shown, it is not the blank record, it is a record of the
    dataset with the selected date and plant, it is among the peers passed
    along, and the peers are the records of the selected date. *)
Theorem analysisRequest_spec (rows : list RawPlantData)
    (selectedDate0 selectedPlantName0 : JSValue) :
  let st := state_of rows selectedDate0 selectedPlantName0 in
  let shown := currentPlantData (allData st) selectedDate0 selectedPlantName0 in
  (analysisRequest st = None <-> plantName shown = JStr "Select Plant")
  /\ (shown = getBlankPlantData -> analysisRequest st = None)
  /\ match analysisRequest st with
     | None => plantName shown = JStr "Select Plant"
     | Some (current, peerPlants) =>
         current = shown
         /\ current <> getBlankPlantData
         /\ plantName current <> JStr "Select Plant"
         /\ In current (allData st)
         /\ matches selectedDate0 selectedPlantName0 current = true
         /\ In current peerPlants
         /\ forall d, In d peerPlants
                      <-> In d (allData st) /\ strict_eq (date d) selectedDate0 = true
     end.
Proof.
  cbv zeta. unfold analysisRequest.
  cbn [state_of allData selectedDate selectedPlantName].
  set (allData0 := map processPlantData rows).
  set (shown := currentPlantData allData0 selectedDate0 selectedPlantName0).
  assert (Ht : truthy (plantName shown) = true).
  { destruct (currentPlantData_cases allData0 selectedDate0 selectedPlantName0)
      as [[Hb _] | (l1 & l2 & Hl & _ & _)]; fold shown in Hb || fold shown in Hl.
    - now rewrite Hb.
    - apply (processed_truthy rows). fold allData0. rewrite Hl. apply in_elt. }
  rewrite Ht. cbn [negb orb].
  destruct (strict_eq (plantName shown) (JStr "Select Plant")) eqn:Es.
  - assert (Hname : plantName shown = JStr "Select Plant").
    { destruct (plantName shown); cbn in Es; try discriminate.
      apply String.eqb_eq in Es. now subst. }
    split; [now split | ]. split; [reflexivity | exact Hname].
  - assert (Hne : plantName shown <> JStr "Select Plant").
    { intros Heq. rewrite Heq in Es. discriminate. }
    split; [split; [discriminate | intros Heq; now contradiction Hne] | ].
    split; [intros Hb; rewrite Hb in Hne; now contradiction Hne | ].
    destruct (currentPlantData_cases allData0 selectedDate0 selectedPlantName0)
      as [[Hb _] | (l1 & l2 & Hl & Hm & _)]; fold shown in Hb || fold shown in Hl, Hm.
    { rewrite Hb in Hne. now contradiction Hne. }
    assert (Hin : In shown allData0) by (rewrite Hl; apply in_elt).
    split; [reflexivity | ].
    split; [intros Hb; rewrite Hb in Hne; now contradiction Hne | ].
    split; [exact Hne | ]. split; [exact Hin | ].
    split; [exact Hm | ]. split.
    + apply filter_In. split; [exact Hin | ]. unfold matches in Hm.
      apply andb_true_iff in Hm. tauto.
    + intros d. apply filter_In.
Qed.

(** ** Sorting dates that are texts *)

Lemma parseDateString_text (s : string) : exists k, parseDateString (JStr s) = Normal k.
Proof.
  unfold parseDateString. destruct (negb (length (split "-" s) =? 3)%nat); eauto.
Qed.

Lemma compareDates_text (a b : JSValue) :
  is_text a -> is_text b -> exists v, compareDates a b = Normal v.
Proof.
  intros [s ->] [s' ->]. unfold compareDates.
  destruct (parseDateString_text s) as [k ->], (parseDateString_text s') as [k' ->].
  cbn [mbind completion_bind]. eauto.
Qed.

Lemma insert_text (x : JSValue) (l : list JSValue) :
  is_text x -> Forall is_text l ->
  exists l', insert compareDates x l = Normal l' /\ Permutation (x :: l) l'.
Proof.
  intros Hx. induction l as [ | y l IH]; intros Hl.
  - exists [x]. now split.
  - inversion Hl as [ | ? ? Hy Hl']; subst. cbn [insert].
    destruct (compareDates_text x y Hx Hy) as [v ->]. cbn [mbind completion_bind].
    destruct (before v).
    + exists (x :: y :: l). now split.
    + destruct (IH Hl') as (l' & -> & Hperm). cbn [mbind completion_bind].
      exists (y :: l'). split; [reflexivity | ]. rewrite perm_swap. now constructor.
Qed.

Lemma sort_items_text (l : list JSValue) :
  Forall is_text l ->
  exists l', sort_items compareDates l = Normal l' /\ Permutation l l'.
Proof.
  induction l as [ | x l IH]; intros Hl.
  - exists []. now split.
  - inversion Hl as [ | ? ? Hx Hl']; subst.
    destruct (IH Hl') as (l1 & H1 & Hperm1). cbn [sort_items]. rewrite H1.
    cbn [mbind completion_bind].
    destruct (insert_text x l1 Hx (Permutation_Forall Hperm1 Hl')) as (l2 & H2 & Hperm2).
    exists l2. split; [exact H2 | ]. etransitivity; [ | exact Hperm2]. now constructor.
Qed.

Lemma text_defined (v : JSValue) : is_text v -> is_undefined v = false.
Proof. now intros [s ->]. Qed.

Lemma Array_sort_text (l : list JSValue) :
  Forall is_text l ->
  exists l', Array_sort compareDates l = Normal l' /\ Permutation l l'.
Proof.
  intros Hl. unfold Array_sort. destruct (filter_defined is_text text_defined l Hl) as [-> ->].
  destruct (sort_items_text l Hl) as (l' & -> & Hperm). cbn [mbind completion_bind].
  rewrite app_nil_r. now exists l'.
Qed.

Lemma dates_text (allData : list ProcessedPlantData) :
  Forall (fun p => is_text (date p)) allData -> Forall is_text (map date allData).
Proof.
  intros H. apply List.Forall_forall. intros v Hv. apply in_map_iff in Hv.
  destruct Hv as (p & <- & Hp). exact (proj1 (List.Forall_forall _ _) H p Hp).
Qed.

(** X17: for a dataset whose dates are all texts, whatever the texts,
    [availableDates] raises nothing and returns every date of the dataset
    once. *)
Theorem availableDates_text (allData : list ProcessedPlantData) :
  Forall (fun p => is_text (date p)) allData ->
  exists dates,
    availableDates allData = Normal dates
    /\ List.NoDup dates
    /\ forall v, In v dates <-> In v (map date allData).
Proof.
  intros H. pose proof (dates_text allData H) as Ht.
  destruct (unique_spec _ Ht) as [Hnd Hin].
  assert (Hu : Forall is_text (unique (map date allData))).
  { apply List.Forall_forall. intros v Hv. apply Hin in Hv.
    exact (proj1 (List.Forall_forall _ _) Ht v Hv). }
  destruct (Array_sort_text _ Hu) as (dates & Hs & Hperm).
  exists dates. split; [exact Hs | ]. split.
  - eapply Permutation_NoDup; [exact Hperm | exact Hnd].
  - intros v. rewrite <- Hin. split; intros Hv.
    + eapply Permutation_in; [symmetry; exact Hperm | exact Hv].
    + eapply Permutation_in; [exact Hperm | exact Hv].
Qed.

Lemma availableDates_text_witness :
  exists dates,
    availableDates (map processPlantData [example_row; ∅; idle_row]) = Normal dates
    /\ List.NoDup dates
    /\ forall v, In v dates
                 <-> In v (map date (map processPlantData [example_row; ∅; idle_row])).
Proof.
  apply availableDates_text. repeat constructor; eexists; reflexivity.
Defined.

Lemma keyed_date (v : JSValue) :
  canonical_date v \/ malformed_date v ->
  parseDateString v = Normal (Int (date_key v)) /\ is_undefined v = false.
Proof.
  intros [(y & m & d & Hv & ->) | (s & -> & Hs)].
  - destruct (date_key_canonical _ _ _ Hv) as [P K]. now rewrite P, K.
  - unfold date_key, parseDateString. apply Nat.eqb_neq in Hs. now rewrite Hs.
Qed.

Lemma compareDates_keyed (a b : JSValue) :
  canonical_date a \/ malformed_date a -> canonical_date b \/ malformed_date b ->
  compareDates a b = Normal (Int (date_key a - date_key b)).
Proof.
  intros Ha Hb. unfold compareDates.
  destruct (keyed_date a Ha) as [-> _], (keyed_date b Hb) as [-> _]. reflexivity.
Qed.

(** X18: for a dataset in which every date is a canonical text or a text
    that does not split into three segments, such as the label
    [Unknown Date], the dates come out of [availableDates] in the order of
    their keys: the texts that are no dates first, with the key 0, then the
    days in the order of the calendar, with keys above 0. *)
Theorem availableDates_ascending (allData : list ProcessedPlantData) :
  Forall (fun p => canonical_date (date p) \/ malformed_date (date p)) allData ->
  exists dates,
    availableDates allData = Normal dates
    /\ StronglySorted (ascending date_key) dates
    /\ (forall v, In v dates <-> In v (map date allData))
    /\ (forall v, In v dates ->
          (malformed_date v -> date_key v = 0) /\ (canonical_date v -> 0 < date_key v)).
Proof.
  intros H.
  assert (Hd : Forall (fun v => canonical_date v \/ malformed_date v) (map date allData)).
  { apply List.Forall_forall. intros v Hv. apply in_map_iff in Hv.
    destruct Hv as (p & <- & Hp). exact (proj1 (List.Forall_forall _ _) H p Hp). }
  assert (Ht : Forall is_text (map date allData)).
  { eapply Forall_impl; [exact Hd | ].
    intros v [Hv | (s & -> & _)]; [now apply canonical_is_text | now eexists]. }
  destruct (unique_spec _ Ht) as [_ Hin].
  assert (Hu : Forall (fun v => canonical_date v \/ malformed_date v)
                 (unique (map date allData))).
  { apply List.Forall_forall. intros v Hv. apply Hin in Hv.
    exact (proj1 (List.Forall_forall _ _) Hd v Hv). }
  destruct (Array_sort_sorted compareDates date_key _ compareDates_keyed
              (fun v Hv => proj2 (keyed_date v Hv)) _ Hu) as (dates & Hs & Hperm & Hsorted).
  exists dates. split; [exact Hs | ]. split; [exact Hsorted | ]. split.
  - intros v. rewrite <- Hin. split; intros Hv.
    + eapply Permutation_in; [symmetry; exact Hperm | exact Hv].
    + eapply Permutation_in; [exact Hperm | exact Hv].
  - intros v _. split.
    + intros (s & -> & Hs'). unfold date_key, parseDateString.
      apply Nat.eqb_neq in Hs'. now rewrite Hs'.
    + intros (y & m & d & Hv & ->). destruct (date_key_canonical _ _ _ Hv) as [_ ->].
      now apply utc_midnight_pos.
Qed.

Lemma availableDates_ascending_witness :
  exists dates,
    availableDates (map processPlantData [example_row; ∅]) = Normal dates
    /\ StronglySorted (ascending date_key) dates.
Proof.
  assert (H : Forall (fun p => canonical_date (date p) \/ malformed_date (date p))
                (map processPlantData [example_row; ∅])).
  { constructor; [left | constructor; [right | constructor] ].
    - exists 2025, 9, 1. split; [unfold valid_date; cbn; lia | reflexivity].
    - exists "Unknown Date". split; [reflexivity | ]. vm_compute. intros E. discriminate E. }
  destruct (availableDates_ascending _ H) as (dates & Hs & Hsorted & _).
  exists dates. now split.
Defined.

(** ** The selection after an upload *)

Lemma find_app_first {A : Type} (f : A -> bool) (l1 l2 : list A) (x : A) :
  (forall y, In y l1 -> f y = false) -> f x = true -> find f (l1 ++ x :: l2) = Some x.
Proof.
  intros H Hx. induction l1 as [ | a l1 IH]; cbn [app find].
  - now rewrite Hx.
  - rewrite (H a (or_introl eq_refl)). apply IH. intros y Hy. apply H. now right.
Qed.

Lemma uploaded_truthy (tza : Z -> Z) (rows : list RawPlantData) (d : ProcessedPlantData) :
  In d (uploaded tza rows) -> truthy (plantName d) = true /\ truthy (date d) = true.
Proof. apply processed_truthy. Qed.

(** X19: after the upload of a sheet with at least one row whose records
    all have a text as their date, no alert is shown, the dataset is that of
    the sheet, the date selected is the first of [availableDates], and the
    record shown for the selection is a record of the sheet with the date
    and the plant selected, not the blank one. *)
Theorem handleFileUpload_selects (tza : Z -> Z) (rows : list RawPlantData) (st : AppState) :
  rows <> [] ->
  Forall (fun p => is_text (date p)) (uploaded tza rows) ->
  let st' := handleFileUpload tza (Some (Sheet rows)) st in
  let shown := currentPlantData (allData st') (selectedDate st') (selectedPlantName st') in
  allData st' = uploaded tza rows
  /\ alerts st' = alerts st
  /\ (exists rest, availableDates (allData st') = Normal (selectedDate st' :: rest))
  /\ In shown (allData st')
  /\ date shown = selectedDate st'
  /\ plantName shown = selectedPlantName st'.
Proof.
  intros Hrows Htext. cbv zeta.
  unfold handleFileUpload, readDataFile. fold (uploaded tza rows).
  set (processed := uploaded tza rows) in *.
  assert (Hlen : (0 <? length processed)%nat = true).
  { apply Nat.ltb_lt. unfold processed, uploaded. rewrite !length_map.
    destruct rows; [now contradiction Hrows | cbn; lia]. }
  rewrite Hlen. unfold autoSelect.
  pose proof (dates_text processed Htext) as Ht.
  destruct (unique_spec _ Ht) as [_ Hin].
  assert (Hu : Forall is_text (unique (map date processed))).
  { apply List.Forall_forall. intros v Hv. apply Hin in Hv.
    exact (proj1 (List.Forall_forall _ _) Ht v Hv). }
  destruct (Array_sort_text _ Hu) as (uniqueDates & Hsort & Hperm).
  rewrite Hsort. cbn [mbind completion_bind].
  destruct uniqueDates as [ | firstDate rest].
  { apply Permutation_sym, Permutation_nil in Hperm.
    destruct processed as [ | p l]; [discriminate Hlen | ]. discriminate Hperm. }
  cbn [nth].
  assert (Hfirst : In firstDate (map date processed)).
  { apply Hin. eapply Permutation_in; [symmetry; exact Hperm | now left]. }
  apply in_map_iff in Hfirst. destruct Hfirst as (p0 & Hp0 & Hin0).
  destruct (find (fun p => strict_eq (date p) firstDate) processed) as [p1 | ] eqn:Efind.
  2: { pose proof (find_none _ _ Efind p0 Hin0) as Hno. cbn beta in Hno.
       rewrite Hp0, (strict_eq_refl firstDate) in Hno; [discriminate | ].
       rewrite <- Hp0. exact (proj2 (uploaded_truthy tza rows p0 Hin0)). }
  destruct (find_first _ _ _ Efind) as (l1 & l2 & Hl & Hd1 & Hl1).
  assert (Hin1 : In p1 processed) by (rewrite Hl; apply in_elt).
  destruct (uploaded_truthy tza rows p1 Hin1) as [Hn1 _].
  rewrite Hn1.
  cbn [allData alerts selectedDate selectedPlantName setSelectedPlantName
       setSelectedDate setAllData].
  assert (Hshown : currentPlantData processed firstDate (plantName p1) = p1).
  { unfold currentPlantData. rewrite Hl at 1. rewrite find_app_first; [reflexivity | | ].
    - intros y Hy. now rewrite (Hl1 y Hy).
    - now rewrite Hd1, (strict_eq_refl _ Hn1). }
  rewrite Hshown. split; [reflexivity | ]. split; [reflexivity | ].
  split; [exists rest; exact Hsort | ]. split; [exact Hin1 | ]. split; [ | reflexivity].
  destruct (proj1 (List.Forall_forall _ _) Htext p1 Hin1) as [s Hs].
  rewrite Hs in Hd1 |- *. destruct firstDate; cbn in Hd1; try discriminate.
  apply String.eqb_eq in Hd1. now subst.
Qed.

Lemma handleFileUpload_selects_witness :
  let st' := handleFileUpload pst (Some (Sheet three_plants)) loaded_state in
  In (currentPlantData (allData st') (selectedDate st') (selectedPlantName st'))
    (allData st').
Proof.
  assert (H : Forall (fun p => is_text (date p)) (uploaded pst three_plants))
    by (repeat constructor; eexists; reflexivity).
  exact (proj1 (proj2 (proj2 (proj2
           (handleFileUpload_selects pst three_plants loaded_state
              ltac:(discriminate) H))))).
Defined.

(** ** Dates that are no texts *)

Lemma same_value_zero_refl (v : JSValue) : same_value_zero v v = true.
Proof.
  destruct v; cbn; try reflexivity.
  - apply Bool.eqb_reflx.
  - unfold is_nan. now destruct (x =? x)%float.
  - apply String.eqb_refl.
  - apply Pos.eqb_refl.
Qed.

Lemma number_same (x y u : float) :
  (x =? u)%float || (is_nan x && is_nan u) = true ->
  (y =? u)%float || (is_nan y && is_nan u) = true ->
  (x =? y)%float || (is_nan x && is_nan y) = true.
Proof.
  rewrite !orb_true_iff, !andb_true_iff.
  intros [Hx | [Hx Hu]] [Hy | [Hy Hu']].
  - left. apply eqb_rank in Hx, Hy. destruct Hx as (a & Hxa & Hua), Hy as (b & Hyb & Hub).
    apply eqb_rank. exists a. split; [assumption | congruence].
  - destruct (eqb_not_nan _ _ Hx) as [_ Hn]. congruence.
  - destruct (eqb_not_nan _ _ Hy) as [_ Hn]. congruence.
  - now right.
Qed.

Lemma same_value_zero_euclid (a b u : JSValue) :
  same_value_zero a u = true -> same_value_zero b u = true -> same_value_zero a b = true.
Proof.
  destruct a, u; cbn [same_value_zero strict_eq]; try discriminate;
    destruct b; cbn [same_value_zero strict_eq]; try discriminate; try reflexivity.
  - intros H1 H2. apply Bool.eqb_prop in H1, H2. subst. apply Bool.eqb_reflx.
  - apply number_same.
  - intros H1 H2. apply String.eqb_eq in H1, H2. subst. apply String.eqb_refl.
  - intros H1 H2. apply Pos.eqb_eq in H1, H2. subst. apply Pos.eqb_refl.
Qed.

Lemma same_value_zero_textb (a u : JSValue) :
  same_value_zero a u = true -> textb u = textb a.
Proof. destruct a, u; cbn; try discriminate; reflexivity. Qed.

Lemma set_add_subset (l seen : list JSValue) (v : JSValue) :
  In v (set_add seen l) -> In v l.
Proof.
  revert seen. induction l as [ | x l IH]; intros seen; [intros [] | ]. cbn [set_add].
  destruct (existsb (same_value_zero x) seen).
  - intros H. right. exact (IH _ H).
  - intros [<- | H]; [now left | right; exact (IH _ H)].
Qed.

Lemma set_add_cover (l seen : list JSValue) (v : JSValue) :
  In v l ->
  (exists u, In u seen /\ same_value_zero v u = true)
  \/ (exists u, In u (set_add seen l) /\ same_value_zero v u = true).
Proof.
  revert seen. induction l as [ | x l IH]; intros seen; [intros [] | ]. cbn [set_add].
  intros [<- | Hv].
  - destruct (existsb (same_value_zero x) seen) eqn:E.
    + left. apply existsb_exists in E. exact E.
    + right. exists x. split; [now left | apply same_value_zero_refl].
  - destruct (existsb (same_value_zero x) seen) eqn:E.
    + exact (IH seen Hv).
    + destruct (IH (x :: seen) Hv) as [(u & [<- | Hu] & Hs) | (u & Hu & Hs)].
      * right. exists x. split; [now left | exact Hs].
      * left. eauto.
      * right. exists u. split; [now right | exact Hs].
Qed.

Lemma compareDates_not_text (a b : JSValue) :
  textb a = false \/ textb b = false -> compareDates a b = Throw.
Proof.
  unfold compareDates. intros [H | H].
  - destruct a; try reflexivity. discriminate.
  - destruct a; try reflexivity. destruct (parseDateString_text s) as [k ->].
    cbn [mbind completion_bind]. destruct b; try reflexivity. discriminate.
Qed.

Lemma forallb_text (l : list JSValue) : forallb textb l = true -> Forall is_text l.
Proof.
  intros H. apply List.Forall_forall. intros v Hv.
  pose proof (proj1 (forallb_forall _ _) H v Hv) as Ht. destruct v; try discriminate.
  now eexists.
Qed.

(** Sorting two or more values, one of which is no text, raises. *)
Lemma sort_items_not_text (l : list JSValue) :
  (2 <= length l)%nat -> forallb textb l = false -> sort_items compareDates l = Throw.
Proof.
  induction l as [ | x l IH]; [cbn; lia | ]. intros Hlen Hno. cbn [sort_items].
  destruct l as [ | y l]; [cbn in Hlen; lia | ].
  destruct (forallb textb (y :: l)) eqn:Et.
  - destruct (sort_items_text _ (forallb_text _ Et)) as (sorted & -> & Hperm).
    cbn [mbind completion_bind].
    destruct sorted as [ | z sorted]; [apply Permutation_sym, Permutation_nil in Hperm; discriminate | ].
    cbn [insert]. rewrite compareDates_not_text; [reflexivity | ]. left.
    change (forallb textb (x :: y :: l)) with (textb x && forallb textb (y :: l)) in Hno.
    rewrite Et, andb_true_r in Hno. exact Hno.
  - destruct l as [ | y' l].
    + cbn [sort_items insert mbind completion_bind].
      rewrite compareDates_not_text; [reflexivity | ]. right.
      cbn [forallb] in Et. now rewrite andb_true_r in Et.
    + rewrite IH; [reflexivity | cbn; lia | reflexivity].
Qed.

(** X20: when an uploaded sheet makes records of two different dates, one
    of which is not a text (a number of 30000 or less, a boolean), the new
    dataset is committed all the same, the alert is shown, and the
    selection stays what it was. *)
Theorem handleFileUpload_date_not_text (tza : Z -> Z) (rows : list RawPlantData)
    (st : AppState) (p q : ProcessedPlantData) :
  In p (uploaded tza rows) -> In q (uploaded tza rows) ->
  textb (date p) = false -> same_value_zero (date p) (date q) = false ->
  handleFileUpload tza (Some (Sheet rows)) st = alert (setAllData (uploaded tza rows) st).
Proof.
  intros Hp Hq Htext Hdiff.
  unfold handleFileUpload, readDataFile. fold (uploaded tza rows).
  set (processed := uploaded tza rows) in *.
  assert (Hlen : (0 <? length processed)%nat = true).
  { apply Nat.ltb_lt. destruct processed; [destruct Hp | cbn; lia]. }
  rewrite Hlen. unfold autoSelect, Array_sort.
  set (dates := unique (map date processed)).
  assert (Hdef : Forall (fun v => truthy v = true) dates).
  { apply List.Forall_forall. intros v Hv. apply set_add_subset, in_map_iff in Hv.
    destruct Hv as (d & <- & Hd). exact (proj2 (uploaded_truthy tza rows d Hd)). }
  destruct (filter_defined (fun v => truthy v = true)
              (fun v Hv => ltac:(now destruct v)) dates Hdef) as [-> ->].
  assert (Hcover : forall d, In d processed ->
            exists u, In u dates /\ same_value_zero (date d) u = true).
  { intros d Hd.
    destruct (set_add_cover (map date processed) [] (date d) (in_map date _ _ Hd))
      as [(u & [] & _) | H]; exact H. }
  destruct (Hcover p Hp) as (u & Hu & Hpu). destruct (Hcover q Hq) as (w & Hw & Hqw).
  assert (Hne : u <> w).
  { intros ->. rewrite (same_value_zero_euclid _ _ _ Hpu Hqw) in Hdiff. discriminate. }
  rewrite sort_items_not_text; [reflexivity | | ].
  - destruct dates as [ | a [ | b l]]; cbn; try lia.
    + destruct Hu.
    + destruct Hu as [<- | []], Hw as [<- | []]. now contradiction Hne.
  - apply not_true_is_false. intros Hall.
    pose proof (proj1 (forallb_forall _ _) Hall u Hu) as Htu.
    rewrite (same_value_zero_textb _ _ Hpu) in Htu. congruence.
Qed.

Lemma handleFileUpload_date_not_text_witness :
  handleFileUpload utc (Some (Sheet numbered_sheet)) loaded_state
  = alert (setAllData (uploaded utc numbered_sheet) loaded_state).
Proof.
  apply (handleFileUpload_date_not_text utc numbered_sheet loaded_state
           (processPlantData (formatRow utc (<["Date" := JNum 5]> ∅)))
           (processPlantData (formatRow utc example_row))).
  - right. now left.
  - now left.
  - reflexivity.
  - reflexivity.
Defined.

(** ** The needle of the gauge *)

Lemma Math_max_zero (q : float) :
  is_nan q = false ->
  is_nan (Math_max q 0) = false /\ (0 <=? Math_max q 0)%float = true.
Proof.
  intros Hq. unfold Math_max. rewrite Hq. change (is_nan 0) with false. cbn [orb].
  destruct (q <? 0)%float eqn:E1; [now split | ].
  destruct (0 <? q)%float eqn:E2; [split; [exact Hq | now apply ltb_leb] | ].
  destruct (get_sign q); [now split | ].
  split; [exact Hq | ]. now apply not_ltb_leb.
Qed.

Lemma Math_min_one (m : float) :
  is_nan m = false -> (0 <=? m)%float = true ->
  (0 <=? Math_min m 1)%float = true /\ (Math_min m 1 <=? 1)%float = true.
Proof.
  intros Hm H0. unfold Math_min. rewrite Hm. change (is_nan 1) with false. cbn [orb].
  destruct (m <? 1)%float eqn:E1; [split; [exact H0 | now apply ltb_leb] | ].
  destruct (1 <? m)%float eqn:E2; [now split | ].
  destruct (get_sign m); [ | now split].
  split; [exact H0 | ]. now apply not_ltb_leb.
Qed.

(** X21: the share of the dial that the needle covers is a number from 0
    to 1 whenever the quotient of the value by the scale is a number, is
    that quotient when it lies between 0 and 1, and is [NaN] only when the
    quotient is. *)
Theorem percentage_bounds (value max : float) :
  (is_nan (value / max) = false ->
     (0 <=? percentage value max)%float = true
     /\ (percentage value max <=? 1)%float = true)
  /\ ((0 <? value / max)%float = true -> (value / max <? 1)%float = true ->
        percentage value max = (value / max)%float)
  /\ (is_nan (value / max) = true -> is_nan (percentage value max) = true).
Proof.
  unfold percentage. split; [ | split].
  - intros Hq. destruct (Math_max_zero _ Hq) as [Hn H0]. now apply Math_min_one.
  - intros H0 H1. unfold Math_max, Math_min.
    rewrite (ltb_not_nan_r _ _ H0). change (is_nan 0) with false. cbn [orb].
    rewrite (leb_not_ltb _ _ (ltb_leb _ _ H0)), H0.
    rewrite (ltb_not_nan_r _ _ H0). change (is_nan 1) with false. cbn [orb].
    now rewrite H1.
  - intros Hq. unfold Math_max. rewrite Hq. reflexivity.
Qed.

Lemma percentage_bounds_witness :
  (0 <=? percentage 0.75 0.5)%float = true /\ (percentage 0.75 0.5 <=? 1)%float = true
  /\ percentage 0.2 0.5 = (0.2 / 0.5)%float.
Proof.
  destruct (percentage_bounds 0.75 0.5) as (Hb & _ & _).
  destruct (percentage_bounds 0.2 0.5) as (_ & Hq & _).
  destruct (Hb eq_refl) as [H0 H1]. split; [exact H0 | ]. split; [exact H1 | ].
  exact (Hq eq_refl eq_refl).
Defined.

Lemma zero_div (max : float) : (0 <? max)%float = true -> (0 / max)%float = 0%float.
Proof.
  intros H. apply Prim2SF_inj. rewrite div_spec.
  apply ltb_rank in H. destruct H as (a & b & Ha & Hb & Hab).
  unfold frank in Ha, Hb. change (Prim2SF 0) with (S754_zero false) in *.
  cbn in Ha. injection Ha as <-.
  destruct (Prim2SF max) as [s | s | | s m e]; cbn in Hb; try discriminate;
    injection Hb as <-; destruct s; cbn in Hab; try lia; reflexivity.
Qed.

(** X22: on a scale above zero a value of 0, which is what every guarded
    KPI and the blank record hold, leaves the needle at the start of the
    dial: the share is 0 and the angle 180. *)
Theorem gauge_zero (max : float) :
  (0 <? max)%float = true -> percentage 0 max = 0%float /\ angle 0 max = 180%float.
Proof.
  intros H. unfold angle, percentage. rewrite (zero_div max H). now split.
Qed.

Lemma gauge_zero_witness :
  angle (sec getBlankPlantData) 0.5 = 180%float
  /\ angle (eii (processPlantData idle_row)) 150 = 180%float.
Proof.
  split.
  - exact (proj2 (gauge_zero 0.5 eq_refl)).
  - exact (proj2 (gauge_zero 150 eq_refl)).
Defined.

(** ** Records with the same SEC *)

Lemma ltb_leb_ltb (x y z : float) :
  (x <? y)%float = true -> (y <=? z)%float = true -> (x <? z)%float = true.
Proof.
  rewrite !ltb_rank, leb_rank.
  intros (a & b & Ha & Hb & Hab) (b' & c & Hb' & Hc & Hbc).
  rewrite Hb in Hb'. injection Hb' as <-.
  exists a, c. split; [assumption | split; [assumption | ] ].
  destruct Hbc as [Hbc | <-]; [ | assumption].
  destruct a as [[a1 a2] a3], b as [[b1 b2] b3], c as [[c1 c2] c3]. cbn in *. lia.
Qed.

Lemma ltb_trans (x y z : float) :
  (x <? y)%float = true -> (y <? z)%float = true -> (x <? z)%float = true.
Proof. intros H1 H2. exact (ltb_leb_ltb x y z H1 (ltb_leb y z H2)). Qed.

(** The loop of [secStats] keeps the first of the records of least SEC:
    either the record it started with, no record seen being below it, or a
    record seen that is below the one it started with, below every record
    seen before it, and not above any seen after it. *)
Lemma secStats_loop_min (l : list ProcessedPlantData) (mn mx : ProcessedPlantData) :
  Forall (fun d => is_nan (sec d) = false) l -> is_nan (sec mn) = false ->
  let mn' := fst (fold_left secStats_step l (mn, mx)) in
  (mn' = mn /\ forall d, In d l -> (sec d <? sec mn)%float = false)
  \/ (exists l1 l2,
        l = (l1 ++ mn' :: l2)%list
        /\ (sec mn' <? sec mn)%float = true
        /\ (forall d, In d l1 -> (sec mn' <? sec d)%float = true)
        /\ forall d, In d l2 -> (sec d <? sec mn')%float = false).
Proof.
  revert mn mx. induction l as [ | d l IH]; intros mn mx Hl Hmn; cbv zeta.
  - left. split; [reflexivity | intros d []].
  - inversion Hl as [ | ? ? Hd Hl']; subst. cbn [fold_left secStats_step].
    set (mn1 := if (sec d <? sec mn)%float then d else mn).
    set (mx1 := if (sec mx <? sec d)%float then d else mx).
    assert (Hmn1 : is_nan (sec mn1) = false)
      by (unfold mn1; now destruct (sec d <? sec mn)%float).
    specialize (IH mn1 mx1 Hl' Hmn1). cbv zeta in IH.
    set (mn' := fst (fold_left secStats_step l (mn1, mx1))) in *.
    destruct IH as [[Heq Hall] | (l1 & l2 & Hsplit & Hlt & H1 & H2)].
    + unfold mn1 in Heq, Hall. destruct (sec d <? sec mn)%float eqn:E.
      * right. exists [], l. rewrite Heq. repeat split; [exact E | intros e [] | exact Hall].
      * left. split; [exact Heq | ]. intros e [<- | He]; [exact E | now apply Hall].
    + right. exists (d :: l1), l2. split; [now rewrite Hsplit | ].
      unfold mn1 in Hlt. destruct (sec d <? sec mn)%float eqn:E.
      * split; [exact (ltb_trans _ _ _ Hlt E) | ]. split; [ | exact H2].
        intros e [<- | He]; [exact Hlt | now apply H1].
      * split; [exact Hlt | ]. split; [ | exact H2].
        intros e [<- | He]; [ | now apply H1].
        exact (ltb_leb_ltb _ _ _ Hlt (not_ltb_leb _ _ Hd Hmn E)).
Qed.

(** X23: among the records that count for the statistic of a date, the one
    reported as the least is the first of least SEC in the order of the
    dataset: every record that counts and stands before it has an SEC above
    its own, and none has an SEC below. *)
Theorem secStats_first_min (rows : list RawPlantData) (selectedDate : JSValue)
    (mn mx : ProcessedPlantData) :
  secStats (map processPlantData rows) selectedDate = Some (mn, mx) ->
  exists before after,
    List.filter (fun d => (0 <? sec d)%float && strict_eq (date d) selectedDate)
      (map processPlantData rows) = (before ++ mn :: after)%list
    /\ (forall d, In d before -> (sec mn <? sec d)%float = true)
    /\ (forall d, In d after -> (sec d <? sec mn)%float = false).
Proof.
  unfold secStats. destruct (negb (truthy selectedDate)); [discriminate | ].
  set (valid := List.filter _ _).
  assert (Hnan : Forall (fun d => is_nan (sec d) = false) valid).
  { apply List.Forall_forall. intros d Hd. apply filter_In in Hd. destruct Hd as [_ Hd].
    apply andb_true_iff in Hd. destruct Hd as [Hpos _]. exact (ltb_not_nan_r _ _ Hpos). }
  destruct valid as [ | first rest] eqn:Ev; [discriminate | ].
  intros [= Hfold]. inversion Hnan as [ | ? ? Hfirst _]; subst.
  assert (Hm : fst (fold_left secStats_step (first :: rest) (first, first)) = mn).
  { transitivity (fst (mn, mx)); [f_equal; exact Hfold | reflexivity]. }
  pose proof (secStats_loop_min (first :: rest) first first Hnan Hfirst) as H.
  cbv zeta in H. rewrite Hm in H.
  destruct H as [[-> Hall] | (l1 & l2 & Hsplit & Hlt & H1 & H2)].
  - exists [], rest. repeat split; [intros d [] | ]. intros d Hd. apply Hall. now right.
  - exists l1, l2. now repeat split.
Qed.

Lemma secStats_first_min_witness :
  exists mn mx before after,
    secStats (map processPlantData three_plants) (JStr "01-Oct-25") = Some (mn, mx)
    /\ List.filter (fun d => (0 <? sec d)%float && strict_eq (date d) (JStr "01-Oct-25"))
         (map processPlantData three_plants) = (before ++ mn :: after)%list
    /\ (forall d, In d before -> (sec mn <? sec d)%float = true).
Proof.
  destruct (secStats (map processPlantData three_plants) (JStr "01-Oct-25"))
    as [[mn mx] | ] eqn:E; [ | discriminate E].
  destruct (secStats_first_min three_plants (JStr "01-Oct-25") mn mx E)
    as (before & after & Hsplit & Hbefore & _).
  exists mn, mx, before, after. now repeat split.
Defined.
